(** * Certificate generator: a shallow embedding of the merge core

    The program is a React component (src/App.tsx and its two sibling
    revisions) that fills a Word template with the rows of a spreadsheet.
    This file embeds the parts of it that carry logic: the base64
    persistence helpers, the spreadsheet post-processing, the placeholder
    scan, the HTML merge, the render data of the DOCX export, the upload
    and download handlers, the handlers of the saved templates with the
    local storage, and the component as a whole under sequences of
    events.

    Conventions.
    - A JavaScript string is a [string]; every [ascii] stands for one UTF-16
      code unit in the range 0..255.
    - A JavaScript number is an IEEE 754 binary64 value, [float]; the
      integer counters of the component (indices, range bounds) are [Z].
    - A plain data object is the list of its own enumerable properties in
      [Object.keys] order.
    - A call that may throw returns [option] or [result]. *)

From Stdlib Require Import Bool List Arith NArith ZArith Lia Sorted Permutation.
From Stdlib Require Import Strings.Ascii Strings.String Strings.Byte DecimalString.
From Stdlib Require Import Floats.PrimFloat Floats.SpecFloat Floats.FloatOps.
From Equations Require Import Equations.
From Equations.Prop Require Import Logic.
Import ListNotations.

Set Implicit Arguments.
Set Warnings "-inexact-float".
Local Open Scope string_scope.
Local Open Scope list_scope.

(** ** Base64: [btoa] and [atob] of the browser *)

Module Base64.

Local Open Scope N_scope.

(** The character of a sextet in the alphabet A-Z a-z 0-9 + / . *)
Definition b64_char (n : N) : ascii :=
  if n <? 26 then ascii_of_N (65 + n)
  else if n <? 52 then ascii_of_N (97 + (n - 26))
  else if n <? 62 then ascii_of_N (48 + (n - 52))
  else if n =? 62 then "+"%char
  else "/"%char.

(** The sextet of an alphabet character; [None] outside the alphabet. *)
Definition b64_value (c : ascii) : option N :=
  let n := N_of_ascii c in
  if (65 <=? n) && (n <=? 90) then Some (n - 65)
  else if (97 <=? n) && (n <=? 122) then Some (n - 97 + 26)
  else if (48 <=? n) && (n <=? 57) then Some (n - 48 + 52)
  else if n =? 43 then Some 62
  else if n =? 47 then Some 63
  else None.

(** Sextets of a byte sequence, without padding: three bytes give four
    sextets, a final group of one or two bytes gives two or three. *)
Fixpoint encode_body (l : list ascii) : list N :=
  match l with
  | [] => []
  | [a] =>
      let n := N_of_ascii a * 65536 in
      [n / 262144; (n / 4096) mod 64]
  | [a; b] =>
      let n := N_of_ascii a * 65536 + N_of_ascii b * 256 in
      [n / 262144; (n / 4096) mod 64; (n / 64) mod 64]
  | a :: b :: c :: rest =>
      let n := N_of_ascii a * 65536 + N_of_ascii b * 256 + N_of_ascii c in
      n / 262144 :: (n / 4096) mod 64 :: (n / 64) mod 64 :: n mod 64
        :: encode_body rest
  end.

(** The "=" characters that complete the last group. *)
Definition padding (l : list ascii) : list ascii :=
  match (N.of_nat (List.length l) mod 3) with
  | 1 => ["="%char; "="%char]
  | 2 => ["="%char]
  | _ => []
  end.

(** [btoa(data)]: every code unit of a [string] is below 256, so the
    InvalidCharacterError of the browser cannot arise here. *)
Definition btoa (data : string) : string :=
  let l := list_ascii_of_string data in
  string_of_list_ascii (map b64_char (encode_body l) ++ padding l).

Definition is_ascii_whitespace (c : ascii) : bool :=
  let n := N_of_ascii c in
  (n =? 9) || (n =? 10) || (n =? 12) || (n =? 13) || (n =? 32).

(** Removal of one or two trailing "=" (done only when the length is a
    multiple of four). *)
Definition strip_padding (l : list ascii) : list ascii :=
  match rev l with
  | c1 :: r1 =>
      if (c1 =? "=")%char then
        match r1 with
        | c2 :: r2 => if (c2 =? "=")%char then rev r2 else rev r1
        | [] => rev r1
        end
      else l
  | [] => l
  end.

Fixpoint values (l : list ascii) : option (list N) :=
  match l with
  | [] => Some []
  | c :: r =>
      match b64_value c, values r with
      | Some v, Some vs => Some (v :: vs)
      | _, _ => None
      end
  end.

(** Bytes of a sextet sequence: four sextets give three bytes; a final
    group of three sextets gives two bytes and one of two gives one byte
    (the surplus low bits are dropped). *)
Fixpoint decode_groups (l : list N) : list ascii :=
  match l with
  | s1 :: s2 :: s3 :: s4 :: rest =>
      let n := s1 * 262144 + s2 * 4096 + s3 * 64 + s4 in
      ascii_of_N (n / 65536) :: ascii_of_N ((n / 256) mod 256)
        :: ascii_of_N (n mod 256) :: decode_groups rest
  | [s1; s2; s3] =>
      let n := s1 * 262144 + s2 * 4096 + s3 * 64 in
      [ascii_of_N (n / 65536); ascii_of_N ((n / 256) mod 256)]
  | [s1; s2] =>
      let n := s1 * 262144 + s2 * 4096 in
      [ascii_of_N (n / 65536)]
  | _ => []
  end.

(** [atob(data)], the forgiving base64 decoding of the HTML standard;
    [None] is the InvalidCharacterError. *)
Definition atob (data : string) : option string :=
  let d := filter (fun c => negb (is_ascii_whitespace c))
                  (list_ascii_of_string data) in
  let d := if N.of_nat (List.length d) mod 4 =? 0 then strip_padding d else d in
  if N.of_nat (List.length d) mod 4 =? 1 then None
  else match values d with
       | Some vs => Some (string_of_list_ascii (decode_groups vs))
       | None => None
       end.

End Base64.

(** ** Persistence helpers of the component *)

Definition ArrayBuffer := list byte.

(** [String.fromCharCode(n)] for a code below 256, and [s.charCodeAt(i)]
    of a code unit. *)
Definition fromCharCode (b : byte) : ascii := ascii_of_byte b.
Definition charCode (c : ascii) : N := N_of_ascii c.

(** A store into a [Uint8Array] keeps the value modulo 256. *)
Definition toUint8 (n : N) : byte := byte_of_ascii (ascii_of_N (n mod 256)).

Definition arrayBufferToBase64 (buffer : ArrayBuffer) : string :=
  let bytes := buffer in
  let binary :=
    fold_left (fun binary b => (binary ++ String (fromCharCode b) "")%string)
              bytes "" in
  Base64.btoa binary.

Definition base64ToArrayBuffer (base64 : string) : option ArrayBuffer :=
  match Base64.atob base64 with
  | None => None
  | Some binaryString =>
      Some (map (fun c => toUint8 (charCode c)) (list_ascii_of_string binaryString))
  end.

(** ** JavaScript strings *)

Definition in_range (lo hi : N) (c : ascii) : bool :=
  (lo <=? N_of_ascii c)%N && (N_of_ascii c <=? hi)%N.

(** The class [\w] of a RegExp without the [u] flag: [A-Za-z0-9_]. *)
Definition is_word_char (c : ascii) : bool :=
  in_range 48 57 c || in_range 65 90 c || (c =? "_")%char || in_range 97 122 c.

(** [toLowerCase] of one code unit below 256: A-Z and the capital letters
    U+00C0..U+00DE (the sign U+00D7 apart) move up by 32. *)
Definition lower_char (c : ascii) : ascii :=
  if in_range 65 90 c || (in_range 192 222 c && negb (N_of_ascii c =? 215)%N)
  then ascii_of_N (N_of_ascii c + 32)
  else c.

Fixpoint toLowerCase (s : string) : string :=
  match s with
  | EmptyString => EmptyString
  | String c r => String (lower_char c) (toLowerCase r)
  end.

(** [Canonicalize] of a RegExp with the [i] flag (no [u] flag): the upper
    case of the code unit when that is one code unit. For U+00B5, U+00DF and
    U+00FF the upper case is outside 0..255 or longer than one unit; each
    of them is then alone in its class, and is kept as its own canonical
    form here. *)
Definition canonicalize (c : ascii) : ascii :=
  if in_range 97 122 c || (in_range 224 254 c && negb (N_of_ascii c =? 247)%N)
  then ascii_of_N (N_of_ascii c - 32)
  else c.

(** The decimal digits of an integer, as a template literal prints it. *)
Definition Z_toString (z : Z) : string :=
  NilZero.string_of_int (Z.to_int z).

(** ** JavaScript numbers *)

Definition number := float.

Definition float_of_Z (z : Z) : float :=
  SF2Prim (binary_normalize prec emax z 0 false).

(** [Math.floor]. *)
Definition Math_floor (x : number) : number :=
  match Prim2SF x with
  | S754_finite s m e =>
      if (0 <=? e)%Z then x
      else float_of_Z (Z.shiftr (if s then Z.neg m else Z.pos m) (- e))
  | _ => x
  end.

(** The remainder operator [a % b]: the sign of the dividend, exact. *)
Definition Number_remainder (a b : number) : number :=
  match Prim2SF a, Prim2SF b with
  | S754_nan, _ | _, S754_nan => nan
  | S754_infinity _, _ => nan
  | _, S754_zero _ => nan
  | _, S754_infinity _ => a
  | S754_zero _, _ => a
  | S754_finite sa ma ea, S754_finite _ mb eb =>
      let e := Z.min ea eb in
      let r := Z.rem (Z.shiftl (Z.pos ma) (ea - e)) (Z.shiftl (Z.pos mb) (eb - e)) in
      let f := Z.ldexp (float_of_Z r) e in
      if sa then (- f)%float else f
  end.

(** [ToBoolean] of a number: false for 0, -0 and NaN. *)
Definition Number_truthy (n : number) : bool :=
  negb (is_zero n || is_nan n).

(** ** Values and plain data objects *)

Inductive value : Type :=
| VUndefined
| VNull
| VStr (s : string)
| VNum (n : number).

(** A plain data object: its own enumerable properties in [Object.keys]
    order. The component's [CertificateData] rows hold strings and numbers.
    Property names are plain keys: what an object inherits from its
    prototype (the accessor [__proto__] among it) is outside this model. *)
Definition object (A : Type) : Type := list (string * A).
Definition CertificateData : Type := object value.

Definition Object_keys {A : Type} (o : object A) : list string := map fst o.

(** Own property lookup; [None] is an absent property. *)
Fixpoint obj_get {A : Type} (o : object A) (key : string) : option A :=
  match o with
  | [] => None
  | (k, v) :: r => if (k =? key)%string then Some v else obj_get r key
  end.

(** The assignment [o[key] = v]: an existing property keeps its place, a
    new one goes last. *)
Fixpoint obj_set {A : Type} (o : object A) (key : string) (v : A) : object A :=
  match o with
  | [] => [(key, v)]
  | (k, w) :: r =>
      if (k =? key)%string then (k, v) :: r else (k, w) :: obj_set r key v
  end.

(** The property read [record[key]]: [undefined] when absent. *)
Definition prop (record : CertificateData) (key : string) : value :=
  match obj_get record key with
  | Some v => v
  | None => VUndefined
  end.

Definition String_truthy (s : string) : bool := negb (s =? "")%string.

Definition truthy (v : value) : bool :=
  match v with
  | VUndefined | VNull => false
  | VStr s => String_truthy s
  | VNum n => Number_truthy n
  end.

(** [a || b]. *)
Definition js_or (a b : value) : value := if truthy a then a else b.

(** ** The host: what the browser and the document libraries provide *)

Definition Blob := list byte.

Inductive result (A : Type) : Type :=
| Ok (a : A)
| Throw (message : string).
Arguments Ok {A} a.
Arguments Throw {A} message.

Record WorkBook (WorkSheet : Type) : Type := {
  SheetNames : list string;
  Sheets : object WorkSheet
}.

(** A [Date] object is its time value: milliseconds since the epoch, NaN
    for an invalid date. *)
Record Runtime : Type := {
  (** [Number.prototype.toString] *)
  Number_toString : number -> string;
  (** [new Date(ms)] *)
  Date_of_time : number -> number;
  (** [new Date(year, month, day, hours, minutes, seconds)], local time *)
  Date_of_fields :
    number -> number -> number -> number -> number -> number -> number;
  (** [getFullYear], [getMonth], [getDate], local time *)
  Date_getFullYear : number -> number;
  Date_getMonth : number -> number;
  Date_getDate : number -> number;
  (** [toLocaleDateString('en-US', {year: 'numeric', month: 'long',
      day: 'numeric'})] *)
  Date_toLocaleDateString : number -> string;
  (** [XLSX.read(bstr, {type: 'binary'})] and [XLSX.utils.sheet_to_json(ws)];
      [Throw] when the library throws *)
  WorkSheet : Type;
  XLSX_read : string -> result (WorkBook WorkSheet);
  XLSX_sheet_to_json : option WorkSheet -> result (list CertificateData);
  (** [new PizZip(binary)], [new Docxtemplater(zip, options)],
      [doc.render(data)] and [doc.getZip().generate(...)]: the template
      filled through the tag resolver, or the error thrown on the way *)
  Docxtemplater_render : ArrayBuffer -> (string -> string) -> result Blob
}.

(** ** Regular expressions *)

(** [SyntaxCharacter] of the pattern grammar. *)
Definition is_syntax_char (c : ascii) : bool :=
  existsb (fun d => (c =? d)%char)
    ["^"; "$"; "\"; "."; "*"; "+"; "?"; "("; ")"; "["; "]"; "{"; "}"; "|"]%char.

(** [new RegExp(source, 'gi')] for the patterns that are a non-empty
    sequence of literal characters: a pattern character that is no syntax
    character, or a backslash before a syntax character or a slash. The
    result is the sequence of characters to match. [None] stands for every
    other source text: one that the constructor rejects with a SyntaxError,
    or one that uses more of the pattern language than literals. *)
Fixpoint RegExp_literals (source : string) : option (list ascii) :=
  match source with
  | EmptyString => Some []
  | String c r =>
      if (c =? "\")%char then
        match r with
        | String d r' =>
            if is_syntax_char d || (d =? "/")%char
            then option_map (cons d) (RegExp_literals r')
            else None
        | EmptyString => None
        end
      else if is_syntax_char c then None
      else option_map (cons c) (RegExp_literals r)
  end.

Definition RegExp_gi (source : string) : option (list ascii) :=
  match RegExp_literals source with
  | Some (c :: l) => Some (c :: l)
  | _ => None
  end.

(** The pattern matches at the head of [s], letter case apart. *)
Fixpoint match_here (pattern : list ascii) (s : string) : bool :=
  match pattern, s with
  | [], _ => true
  | p :: pattern', String c s' =>
      (canonicalize p =? canonicalize c)%char && match_here pattern' s'
  | _ :: _, EmptyString => false
  end.

(** [GetSubstitution] for a pattern without capture groups: [$$] is a
    dollar, [$&] the matched text, [$`] and [$'] the text before and after
    the match; every other character stands for itself. *)
Fixpoint GetSubstitution (matched before after replacement : string) : string :=
  match replacement with
  | EmptyString => EmptyString
  | String c r =>
      if (c =? "$")%char then
        match r with
        | String d r' =>
            if (d =? "$")%char then
              String "$" (GetSubstitution matched before after r')
            else if (d =? "&")%char then
              (matched ++ GetSubstitution matched before after r')%string
            else if (d =? "`")%char then
              (before ++ GetSubstitution matched before after r')%string
            else if (d =? "'")%char then
              (after ++ GetSubstitution matched before after r')%string
            else String c (GetSubstitution matched before after r)
        | EmptyString => String c EmptyString
        end
      else String c (GetSubstitution matched before after r)
  end.

(** [str.replace(regexp, replacement)] for a global literal pattern: the
    matches are found from left to right in [str], do not overlap, and the
    text put in their place is not scanned again. [rest] is [str] from
    [pos] on, and [skip] counts the characters of a match still to pass. *)
Fixpoint replace_loop (pattern : list ascii) (replacement str : string)
    (pos skip : nat) (rest : string) : string :=
  match rest with
  | EmptyString => EmptyString
  | String c r =>
      match skip with
      | S k => replace_loop pattern replacement str (S pos) k r
      | O =>
          if match_here pattern rest then
            let len := List.length pattern in
            let e := pos + len in
            (GetSubstitution (substring pos len str) (substring 0 pos str)
               (substring e (String.length str - e) str) replacement
             ++ replace_loop pattern replacement str (S pos) (len - 1) r)%string
          else String c (replace_loop pattern replacement str (S pos) 0 r)
      end
  end.

Definition String_replace (str : string) (regexp : list ascii)
    (replacement : string) : string :=
  replace_loop regexp replacement str 0 0 str.

(** ** The placeholder scan *)

Fixpoint drop (n : nat) (s : string) : string :=
  match n, s with
  | S k, String _ r => drop k r
  | _, _ => s
  end.

(** [\w+] and then [close], at the head of [s]: the longest run of word
    characters is tried first, then the shorter ones. The result is the
    text of the group and the number of characters matched. *)
Fixpoint word_plus_then (close s : string) : option (string * nat) :=
  match s with
  | EmptyString => None
  | String c r =>
      if is_word_char c then
        match word_plus_then close r with
        | Some (w, n) => Some (String c w, S n)
        | None =>
            if prefix close r
            then Some (String c EmptyString, S (String.length close))
            else None
        end
      else None
  end.

(** [open], [(\w+)], [close] at the head of [s]. *)
Definition delimited (open close s : string) : option (string * nat) :=
  if prefix open s then
    match word_plus_then close (drop (String.length open) s) with
    | Some (w, n) => Some (w, String.length open + n)
    | None => None
    end
  else None.

(** The result of [exec]: where the match starts, its length, and the three
    capture groups ([None] for a group that took no part). *)
Record RegExpMatch : Type := {
  m_index : nat;
  m_length : nat;
  m_1 : option string;
  m_2 : option string;
  m_3 : option string
}.

(** The pattern [\{(\w+)\}|\{\{(\w+)\}\}|\[(\w+)\]] at the head of [s]:
    the alternatives are tried from left to right. *)
Definition placeholder_here (i : nat) (s : string) : option RegExpMatch :=
  match delimited "{" "}" s with
  | Some (w, n) =>
      Some {| m_index := i; m_length := n; m_1 := Some w; m_2 := None; m_3 := None |}
  | None =>
      match delimited "{{" "}}" s with
      | Some (w, n) =>
          Some {| m_index := i; m_length := n; m_1 := None; m_2 := Some w; m_3 := None |}
      | None =>
          match delimited "[" "]" s with
          | Some (w, n) =>
              Some {| m_index := i; m_length := n; m_1 := None; m_2 := None; m_3 := Some w |}
          | None => None
          end
      end
  end.

(** The first position from [i] on where the pattern matches; [s] is the
    text from [i] on. *)
Fixpoint search (s : string) (i : nat) : option RegExpMatch :=
  match placeholder_here i s with
  | Some m => Some m
  | None =>
      match s with
      | EmptyString => None
      | String _ r => search r (S i)
      end
  end.

(** [placeholderRegex.exec(text)] with the [lastIndex] of the regular
    expression object; [None] is [null]. *)
Definition placeholderRegex_exec (text : string) (lastIndex : nat)
  : option RegExpMatch :=
  if (String.length text <? lastIndex)%nat then None
  else search (drop lastIndex text) lastIndex.

Definition m_end (m : RegExpMatch) : nat := m_index m + m_length m.

(** [a || b] on capture groups: a group that took no part is [undefined]. *)
Definition group_or (a b : option string) : option string :=
  match a with
  | Some s => if String_truthy s then a else b
  | None => b
  end.

(** A [Set] of strings: its elements in insertion order. *)
Definition Set_add (x : string) (s : list string) : list string :=
  if existsb (String.eqb x) s then s else s ++ [x].

(** The state of the scan: the [lastIndex] of the regular expression and
    the set [found]. *)
Record ScanState : Type := {
  lastIndex : nat;
  found : list string
}.

(** One turn of [while ((match = placeholderRegex.exec(text)) !== null)]:
    the state after the body, or [None] when [exec] returned [null] (which
    also sets [lastIndex] back to 0). *)
Definition scan_body (text : string) (st : ScanState) : option ScanState :=
  match placeholderRegex_exec text (lastIndex st) with
  | Some m =>
      let placeholder := group_or (group_or (m_1 m) (m_2 m)) (m_3 m) in
      Some {| lastIndex := m_end m;
              found := match placeholder with
                       | Some p => if String_truthy p then Set_add p (found st)
                                   else found st
                       | None => found st
                       end |}
  | None => None
  end.

Lemma word_plus_then_length (close s : string) (w : string) (n : nat) :
  word_plus_then close s = Some (w, n) -> 0 < n.
Proof.
  destruct s as [|c r]; simpl; [discriminate|].
  destruct (is_word_char c); [|discriminate].
  destruct (word_plus_then close r) as [[w' n']|].
  - intros H; inversion H; lia.
  - destruct (prefix close r); [|discriminate]. intros H; inversion H; lia.
Qed.

Lemma placeholder_here_progress (i : nat) (s : string) (m : RegExpMatch) :
  placeholder_here i s = Some m -> i < m_end m.
Proof.
  unfold placeholder_here, delimited.
  repeat match goal with
         | |- context [if ?b then _ else _] => destruct b
         | |- context [match word_plus_then ?c ?t with _ => _ end] =>
             let E := fresh "E" in
             destruct (word_plus_then c t) as [[? ?]|] eqn:E;
             [apply word_plus_then_length in E|]
         end.
  all: try discriminate.
  all: intros H; inversion H; unfold m_end; simpl; lia.
Qed.

Lemma search_progress (s : string) (i : nat) (m : RegExpMatch) :
  search s i = Some m -> i < m_end m.
Proof.
  revert i. induction s as [|c r IH]; intros i; cbn [search].
  - destruct (placeholder_here i EmptyString) eqn:E; [|discriminate].
    intros H; inversion H; subst. eapply placeholder_here_progress; eauto.
  - destruct (placeholder_here i (String c r)) eqn:E.
    + intros H; inversion H; subst. eapply placeholder_here_progress; eauto.
    + intros H. apply IH in H. lia.
Qed.

Lemma scan_body_progress (text : string) (st st' : ScanState) :
  scan_body text st = Some st' ->
  S (String.length text) - lastIndex st' < S (String.length text) - lastIndex st.
Proof.
  unfold scan_body, placeholderRegex_exec.
  destruct (String.length text <? lastIndex st)%nat eqn:E; [discriminate|].
  apply Nat.ltb_ge in E.
  destruct (search _ _) as [m|] eqn:S; [|discriminate].
  apply search_progress in S. intros H; injection H as <-; cbn [lastIndex]. lia.
Qed.

(** The loop: it ends with the state in which [exec] returned [null]. *)
Equations? scan_loop (text : string) (st : ScanState) : ScanState
  by wf (S (String.length text) - lastIndex st) lt :=
scan_loop text st with inspect (scan_body text st) := {
  | exist _ (Some st') _ => scan_loop text st'
  | exist _ None _ => {| lastIndex := 0; found := found st |} }.
Proof. apply scan_body_progress; assumption. Qed.

(** The placeholders of a document text, as [handleDocxUpload] and
    [loadTemplateFromHandle] collect them: [Array.from(found)]. *)
Definition extractPlaceholders (text : string) : list string :=
  found (scan_loop text {| lastIndex := 0; found := [] |}).

(** ** The merge core *)

Section MergeCore.

Variable rt : Runtime.

(** [v?.toString()]: [None] is [undefined]. *)
Definition optional_toString (v : value) : option string :=
  match v with
  | VUndefined | VNull => None
  | VStr s => Some s
  | VNum n => Some (Number_toString rt n)
  end.

(** [v?.toString() || '']. *)
Definition toString_or_empty (v : value) : string :=
  match optional_toString v with
  | Some s => if String_truthy s then s else ""
  | None => ""
  end.

(** [v.toString()], a TypeError on [undefined] and [null]. *)
Definition value_toString (v : value) : result string :=
  match optional_toString v with
  | Some s => Ok s
  | None => Throw "TypeError"
  end.

(** Convert Excel serial date to readable date. *)
Definition excelDateToJSDate (serial : number) : string :=
  let utc_days := Math_floor (serial - 25569)%float in
  let utc_value := (utc_days * 86400)%float in
  let date_info := Date_of_time rt (utc_value * 1000)%float in
  let fractional_day := (serial - Math_floor serial + 0.0000001)%float in
  let total_seconds := Math_floor (86400 * fractional_day)%float in
  let seconds := Number_remainder total_seconds 60%float in
  let total_seconds := (total_seconds - seconds)%float in
  let hours := Math_floor (total_seconds / (60 * 60))%float in
  let minutes := Number_remainder (Math_floor (total_seconds / 60)%float) 60%float in
  let date :=
    Date_of_fields rt (Date_getFullYear rt date_info) (Date_getMonth rt date_info)
      (Date_getDate rt date_info) hours minutes seconds in
  Date_toLocaleDateString rt date.

(** [typeof value === 'number' && value > 1 && value < 73050]: the value
    is a number that looks like an Excel date. *)
Definition looks_like_date (v : value) : bool :=
  match v with
  | VNum n => (1 <? n)%float && (n <? 73050)%float
  | _ => false
  end.

Definition processExcelData (jsonData : list CertificateData)
  : list CertificateData :=
  map (fun row =>
         fold_left
           (fun processed key =>
              let value := prop row key in
              match value with
              | VNum n =>
                  if looks_like_date value
                  then obj_set processed key (VStr (excelDateToJSDate n))
                  else obj_set processed key value
              | _ => obj_set processed key value
              end)
           (Object_keys row) [])
      jsonData.

(** The body of the [forEach] of [mergeCertificate] for one key; [None]
    when a pattern built from the key is outside [RegExp_gi]. *)
Definition merge_key (record : CertificateData) (merged key : string)
  : option string :=
  let value := toString_or_empty (prop record key) in
  match RegExp_gi ("\{" ++ key ++ "\}"),
        RegExp_gi ("\{\{" ++ key ++ "\}\}"),
        RegExp_gi ("\[" ++ key ++ "\]") with
  | Some single, Some double, Some square =>
      let merged := String_replace merged single value in
      let merged := String_replace merged double value in
      let merged := String_replace merged square value in
      Some merged
  | _, _, _ => None
  end.

Definition mergeCertificate (template : string) (record : CertificateData)
  : option string :=
  fold_left
    (fun merged key =>
       match merged with
       | Some merged => merge_key record merged key
       | None => None
       end)
    (Object_keys record) (Some template).

(** The [nullGetter] option of the renderer. *)
Definition nullGetter : string := "".

(** The [templateData] that [generateDocx] prepares: placeholders are
    matched with the columns case-insensitively. *)
Definition templateData (placeholders : list string) (record : CertificateData)
  : object string :=
  fold_left
    (fun templateData placeholder =>
       let matchingKey :=
         find (fun key => (toLowerCase key =? toLowerCase placeholder)%string)
              (Object_keys record) in
       match matchingKey with
       | Some key =>
           if String_truthy key
           then obj_set templateData placeholder (toString_or_empty (prop record key))
           else obj_set templateData placeholder ""
       | None => obj_set templateData placeholder ""
       end)
    placeholders [].

(** What the renderer puts in the place of a tag: the property of the
    render data, the [nullGetter] when there is none. *)
Definition resolve_tag (data : object string) (tag : string) : string :=
  match obj_get data tag with
  | Some v => v
  | None => nullGetter
  end.

Definition generateDocx (docxBinary : option ArrayBuffer)
    (placeholders : list string) (record : CertificateData) : result Blob :=
  match docxBinary with
  | None => Throw "No template loaded"
  | Some binary =>
      Docxtemplater_render rt binary (resolve_tag (templateData placeholders record))
  end.

End MergeCore.

(** ** The state of the component *)

Record UploadStatus : Type := {
  docx : bool;
  excel : bool
}.

Record SavedTemplate : Type := {
  tpl_id : string;
  tpl_name : string;
  tpl_html : string;
  tpl_binary : ArrayBuffer;
  tpl_placeholders : list string;
  tpl_uploadDate : string
}.

(** A saved template as the local storage keeps it: the binary in base64. *)
Record StoredTemplate : Type := {
  stored_id : string;
  stored_name : string;
  stored_html : string;
  stored_binary : string;
  stored_placeholders : list string;
  stored_uploadDate : string
}.

(** The [useState] cells of [CertificateGenerator]. *)
Record AppState : Type := {
  data : list CertificateData;
  docxTemplate : string;
  docxHtml : string;
  docxBinary : option ArrayBuffer;
  currentIndex : Z;
  uploadStatus : UploadStatus;
  placeholders : list string;
  excelColumns : list string;
  savedTemplates : list SavedTemplate;
  selectedTemplateId : option string;
  templateName : string;
  showSaveDialog : bool;
  showRangeDialog : bool;
  rangeStart : Z;
  rangeEnd : Z
}.

Definition setData (v : list CertificateData) (s : AppState) : AppState :=
  {| data := v; docxTemplate := docxTemplate s; docxHtml := docxHtml s;
     docxBinary := docxBinary s; currentIndex := currentIndex s;
     uploadStatus := uploadStatus s; placeholders := placeholders s;
     excelColumns := excelColumns s; savedTemplates := savedTemplates s;
     selectedTemplateId := selectedTemplateId s; templateName := templateName s;
     showSaveDialog := showSaveDialog s; showRangeDialog := showRangeDialog s;
     rangeStart := rangeStart s; rangeEnd := rangeEnd s |}.

Definition setExcelColumns (v : list string) (s : AppState) : AppState :=
  {| data := data s; docxTemplate := docxTemplate s; docxHtml := docxHtml s;
     docxBinary := docxBinary s; currentIndex := currentIndex s;
     uploadStatus := uploadStatus s; placeholders := placeholders s;
     excelColumns := v; savedTemplates := savedTemplates s;
     selectedTemplateId := selectedTemplateId s; templateName := templateName s;
     showSaveDialog := showSaveDialog s; showRangeDialog := showRangeDialog s;
     rangeStart := rangeStart s; rangeEnd := rangeEnd s |}.

Definition setCurrentIndex (v : Z) (s : AppState) : AppState :=
  {| data := data s; docxTemplate := docxTemplate s; docxHtml := docxHtml s;
     docxBinary := docxBinary s; currentIndex := v;
     uploadStatus := uploadStatus s; placeholders := placeholders s;
     excelColumns := excelColumns s; savedTemplates := savedTemplates s;
     selectedTemplateId := selectedTemplateId s; templateName := templateName s;
     showSaveDialog := showSaveDialog s; showRangeDialog := showRangeDialog s;
     rangeStart := rangeStart s; rangeEnd := rangeEnd s |}.

Definition setRangeEnd (v : Z) (s : AppState) : AppState :=
  {| data := data s; docxTemplate := docxTemplate s; docxHtml := docxHtml s;
     docxBinary := docxBinary s; currentIndex := currentIndex s;
     uploadStatus := uploadStatus s; placeholders := placeholders s;
     excelColumns := excelColumns s; savedTemplates := savedTemplates s;
     selectedTemplateId := selectedTemplateId s; templateName := templateName s;
     showSaveDialog := showSaveDialog s; showRangeDialog := showRangeDialog s;
     rangeStart := rangeStart s; rangeEnd := v |}.

(** [setUploadStatus(prev => ...)]. *)
Definition setUploadStatus (f : UploadStatus -> UploadStatus) (s : AppState)
  : AppState :=
  {| data := data s; docxTemplate := docxTemplate s; docxHtml := docxHtml s;
     docxBinary := docxBinary s; currentIndex := currentIndex s;
     uploadStatus := f (uploadStatus s); placeholders := placeholders s;
     excelColumns := excelColumns s; savedTemplates := savedTemplates s;
     selectedTemplateId := selectedTemplateId s; templateName := templateName s;
     showSaveDialog := showSaveDialog s; showRangeDialog := showRangeDialog s;
     rangeStart := rangeStart s; rangeEnd := rangeEnd s |}.

Definition setShowRangeDialog (v : bool) (s : AppState) : AppState :=
  {| data := data s; docxTemplate := docxTemplate s; docxHtml := docxHtml s;
     docxBinary := docxBinary s; currentIndex := currentIndex s;
     uploadStatus := uploadStatus s; placeholders := placeholders s;
     excelColumns := excelColumns s; savedTemplates := savedTemplates s;
     selectedTemplateId := selectedTemplateId s; templateName := templateName s;
     showSaveDialog := showSaveDialog s; showRangeDialog := v;
     rangeStart := rangeStart s; rangeEnd := rangeEnd s |}.

(** The function a timer runs: the [try] block of the download handlers,
    with what its closure holds. [cb_record] is the record to fill
    ([None] when [data[i]] is [undefined]) and [cb_idx] its index. *)
Record Callback : Type := {
  cb_docxBinary : option ArrayBuffer;
  cb_placeholders : list string;
  cb_record : option CertificateData;
  cb_idx : Z
}.

Record Timer : Type := {
  timer_delay : Z;
  timer_callback : Callback
}.

(** The component together with what it does to the page: the alerts
    shown, the lines of [console.error], the pending timers in the order
    they will fire, and the files handed to [saveAs]. *)
Record World : Type := {
  state : AppState;
  alerts : list string;
  console_errors : list string;
  timers : list Timer;
  downloads : list (Blob * string)
}.

Definition with_state (f : AppState -> AppState) (w : World) : World :=
  {| state := f (state w); alerts := alerts w; console_errors := console_errors w;
     timers := timers w; downloads := downloads w |}.

(** ** Handlers: state and exceptions *)

(** A computation of the component: it may change the world, and ends
    with a value or with a thrown error; what it did before throwing stays
    done. *)
Definition M (A : Type) : Type := World -> result A * World.

Definition ret {A : Type} (a : A) : M A := fun w => (Ok a, w).

Definition bind {A B : Type} (m : M A) (k : A -> M B) : M B :=
  fun w =>
    match m w with
    | (Ok a, w') => k a w'
    | (Throw e, w') => (Throw e, w')
    end.

Definition lift {A : Type} (r : result A) : M A := fun w => (r, w).

(** [try { body } catch (error) { handler }]. *)
Definition try_catch {A : Type} (body : M A) (handler : string -> M A) : M A :=
  fun w =>
    match body w with
    | (Ok a, w') => (Ok a, w')
    | (Throw e, w') => handler e w'
    end.

Definition set_state (f : AppState -> AppState) : M unit :=
  fun w => (Ok tt, with_state f w).

Definition get_state : M AppState := fun w => (Ok (state w), w).

Definition alert (message : string) : M unit :=
  fun w =>
    (Ok tt,
     {| state := state w; alerts := alerts w ++ [message];
        console_errors := console_errors w; timers := timers w;
        downloads := downloads w |}).

Definition console_error (message : string) : M unit :=
  fun w =>
    (Ok tt,
     {| state := state w; alerts := alerts w;
        console_errors := console_errors w ++ [message]; timers := timers w;
        downloads := downloads w |}).

(** [saveAs(blob, name)] of file-saver. *)
Definition saveAs (blob : Blob) (name : string) : M unit :=
  fun w =>
    (Ok tt,
     {| state := state w; alerts := alerts w; console_errors := console_errors w;
        timers := timers w; downloads := downloads w ++ [(blob, name)] |}).

(** The place of a new timer among the pending ones: after every timer that
    is due no later. *)
Fixpoint insert_timer (t : Timer) (queue : list Timer) : list Timer :=
  match queue with
  | [] => [t]
  | u :: r =>
      if (timer_delay t <? timer_delay u)%Z then t :: queue
      else u :: insert_timer t r
  end.

Definition setTimeout (callback : Callback) (delay : Z) : M unit :=
  fun w =>
    (Ok tt,
     {| state := state w; alerts := alerts w; console_errors := console_errors w;
        timers := insert_timer {| timer_delay := delay; timer_callback := callback |}
                    (timers w);
        downloads := downloads w |}).

Declare Scope handler_scope.
Delimit Scope handler_scope with handler.
Notation "x <- m ;; k" := (bind m (fun x => k))
  (at level 61, m at next level, right associativity) : handler_scope.
Notation "m ;; k" := (bind m (fun _ => k))
  (at level 61, right associativity) : handler_scope.

(** [l[i]]: [None] is [undefined]. *)
Definition at_index {A : Type} (l : list A) (i : Z) : option A :=
  if (i <? 0)%Z then None else nth_error l (Z.to_nat i).

(** The elements of an array with their indices, as [forEach] passes them. *)
Definition entries {A : Type} (l : list A) : list (Z * A) :=
  combine (map Z.of_nat (seq 0 (List.length l))) l.

(** The integers [lo], [lo + 1], ... : [n] of them. *)
Definition Z_range (lo : Z) (n : nat) : list Z :=
  map (fun k => (lo + Z.of_nat k)%Z) (seq 0 n).

(** [l.forEach(f)]. *)
Fixpoint forEach {A : Type} (l : list A) (f : A -> M unit) : M unit :=
  match l with
  | [] => ret tt
  | x :: r => bind (f x) (fun _ => forEach r f)
  end.

(** The state of a fresh component. *)
Definition initial_state : AppState :=
  {| data := []; docxTemplate := ""; docxHtml := ""; docxBinary := None;
     currentIndex := 0; uploadStatus := {| docx := false; excel := false |};
     placeholders := []; excelColumns := []; savedTemplates := [];
     selectedTemplateId := None; templateName := ""; showSaveDialog := false;
     showRangeDialog := false; rangeStart := 1; rangeEnd := 1 |}.

Definition world_of (s : AppState) : World :=
  {| state := s; alerts := []; console_errors := []; timers := [];
     downloads := [] |}.

Section Handlers.

Variable rt : Runtime.

Local Open Scope handler_scope.

(** *** Loading the saved templates and writing them back *)

(** [updated.map(t => ({...t, binary: arrayBufferToBase64(t.binary)}))]:
    what [saveTemplate] and [deleteTemplate] hand to [JSON.stringify]. *)
Definition templatesForStorage (updated : list SavedTemplate)
  : list StoredTemplate :=
  map (fun t =>
         {| stored_id := tpl_id t; stored_name := tpl_name t;
            stored_html := tpl_html t;
            stored_binary := arrayBufferToBase64 (tpl_binary t);
            stored_placeholders := tpl_placeholders t;
            stored_uploadDate := tpl_uploadDate t |})
      updated.

(** [templates.map(t => ({...t, binary: base64ToArrayBuffer(t.binary)}))]
    of the effect that runs on mount; [None] when [atob] throws. The item
    of the local storage is taken as the value [JSON.parse] gives back. *)
Fixpoint templatesWithBinary (templates : list StoredTemplate)
  : option (list SavedTemplate) :=
  match templates with
  | [] => Some []
  | t :: r =>
      match base64ToArrayBuffer (stored_binary t), templatesWithBinary r with
      | Some b, Some r' =>
          Some ({| tpl_id := stored_id t; tpl_name := stored_name t;
                   tpl_html := stored_html t; tpl_binary := b;
                   tpl_placeholders := stored_placeholders t;
                   tpl_uploadDate := stored_uploadDate t |} :: r')
      | _, _ => None
      end
  end.

(** *** Spreadsheet upload *)

(** The first three statements of the [try] block: the workbook, its
    first sheet, the rows of that sheet. *)
Definition read_rows (bstr : string) : result (list CertificateData) :=
  match XLSX_read rt bstr with
  | Ok wb =>
      let wsname := hd_error (SheetNames wb) in
      let ws := obj_get (Sheets wb)
                  (match wsname with Some n => n | None => "undefined" end) in
      XLSX_sheet_to_json rt ws
  | Throw e => Throw e
  end.

(** [reader.onload] of [handleExcelUpload]; [bstr] is what the reader
    read. *)
Definition excel_onload (bstr : string) : M unit :=
  try_catch
    (jsonData <- lift (read_rows bstr) ;;
     match jsonData with
     | first :: _ =>
         let processedData := processExcelData rt jsonData in
         set_state (setData processedData) ;;
         set_state (setExcelColumns (Object_keys first)) ;;
         set_state (setCurrentIndex 0) ;;
         set_state (setRangeEnd (Z.of_nat (List.length processedData))) ;;
         set_state (setUploadStatus
                      (fun prev => {| docx := docx prev; excel := true |}))
     | [] => ret tt
     end)
    (fun error =>
       console_error "Error reading Excel:" ;;
       alert "Error reading Excel file. Please try again.").

(** [handleExcelUpload]: [file] is [e.target.files?.[0]], given by its
    content. *)
Definition handleExcelUpload (file : option string) : M unit :=
  match file with
  | None => ret tt
  | Some bstr => excel_onload bstr
  end.

(** *** Downloads *)

Definition downloadDocx (blob : Blob) (filename : string) : M unit :=
  saveAs blob (filename ++ ".docx").

(** [record.name || record.Name || `certificate_${idx + 1}`]. *)
Definition certificate_name (record : CertificateData) (idx : Z) : value :=
  js_or (prop record "name")
    (js_or (prop record "Name") (VStr ("certificate_" ++ Z_toString (idx + 1)))).

(** The [try] block of a download: the document of the record and the
    name of its file, or the error thrown. *)
Definition certificate_file (cb : Callback) : result (Blob * string) :=
  match cb_record cb with
  | None => Throw "TypeError"
  | Some record =>
      match generateDocx rt (cb_docxBinary cb) (cb_placeholders cb) record with
      | Ok blob =>
          match value_toString rt (certificate_name record (cb_idx cb)) with
          | Ok filename => Ok (blob, filename)
          | Throw e => Throw e
          end
      | Throw e => Throw e
      end
  end.

(** The function given to [setTimeout] by the download handlers. *)
Definition run_callback (cb : Callback) : M unit :=
  try_catch
    (file <- lift (certificate_file cb) ;;
     downloadDocx (fst file) (snd file))
    (fun error =>
       console_error ("Error generating certificate " ++ Z_toString (cb_idx cb + 1) ++ ":")).

(** The pending timers fire in their order; every callback ends normally,
    its [try] block catching what it throws. *)
Definition run_timers (w : World) : World :=
  fold_left (fun w t => snd (run_callback (timer_callback t) w)) (timers w)
    {| state := state w; alerts := alerts w; console_errors := console_errors w;
       timers := []; downloads := downloads w |}.

Definition handleDownloadAll : M unit :=
  s <- get_state ;;
  forEach (entries (data s))
    (fun '(idx, record) =>
       setTimeout
         {| cb_docxBinary := docxBinary s; cb_placeholders := placeholders s;
            cb_record := Some record; cb_idx := idx |}
         (idx * 500)).

(** The [for] loop of [handleDownloadRange], from [i] on. *)
Equations? range_loop (s : AppState) (i : Z) (w : World) : World
  by wf (Z.to_nat (rangeEnd s - i)) lt :=
range_loop s i w with inspect (i <? rangeEnd s)%Z := {
  | exist _ true _ =>
      range_loop s (i + 1)
        (snd (setTimeout
                {| cb_docxBinary := docxBinary s; cb_placeholders := placeholders s;
                   cb_record := at_index (data s) i; cb_idx := i |}
                ((i - rangeStart s + 1) * 500) w))
  | exist _ false _ => w }.
Proof. apply Z.ltb_lt in e. lia. Qed.

Definition invalid_range (s : AppState) : bool :=
  (rangeStart s <? 1)%Z
  || (rangeEnd s >? Z.of_nat (List.length (data s)))%Z
  || (rangeStart s >? rangeEnd s)%Z.

Definition handleDownloadRange : M unit :=
  s <- get_state ;;
  if invalid_range s then alert "Invalid range. Please check your input."
  else
    (fun w => (Ok tt, range_loop s (rangeStart s - 1) w)) ;;
    set_state (setShowRangeDialog false).

End Handlers.

(** The spreadsheet upload of the earlier revision of the component, which
    has no date coercion and no range export. *)
Module EarlierRevision.

Section EarlierHandlers.

Variable rt : Runtime.

Local Open Scope handler_scope.

Definition excel_onload (bstr : string) : M unit :=
  try_catch
    (jsonData <- lift (read_rows rt bstr) ;;
     match jsonData with
     | first :: _ =>
         set_state (setData jsonData) ;;
         set_state (setExcelColumns (Object_keys first)) ;;
         set_state (setCurrentIndex 0) ;;
         set_state (setUploadStatus
                      (fun prev => {| docx := docx prev; excel := true |}))
     | [] => ret tt
     end)
    (fun error =>
       console_error "Error reading Excel:" ;;
       alert "Error reading Excel file. Please try again.").

Definition handleExcelUpload (file : option string) : M unit :=
  match file with
  | None => ret tt
  | Some bstr => excel_onload bstr
  end.

End EarlierHandlers.

End EarlierRevision.

(** ** The template side of the component *)

(** [WhiteSpace] and [LineTerminator] among the code units below 256: the
    characters that [trim] removes. *)
Definition is_white_space (c : ascii) : bool :=
  in_range 9 13 c || (c =? " ")%char || (N_of_ascii c =? 160)%N.

Fixpoint trimStart (s : string) : string :=
  match s with
  | EmptyString => EmptyString
  | String c r => if is_white_space c then trimStart r else s
  end.

Fixpoint trimEnd (s : string) : string :=
  match s with
  | EmptyString => EmptyString
  | String c r =>
      match trimEnd r with
      | EmptyString => if is_white_space c then EmptyString else String c EmptyString
      | r' => String c r'
      end
  end.

(** [s.trim()]. *)
Definition trim (s : string) : string := trimEnd (trimStart s).

(** [s.indexOf(searchValue)] from [pos] on, [s] being the text from there. *)
Fixpoint indexOf (searchValue s : string) (pos : nat) : option nat :=
  if prefix searchValue s then Some pos
  else match s with
       | EmptyString => None
       | String _ r => indexOf searchValue r (S pos)
       end.

(** [str.replace(searchValue, replaceValue)] for a string [searchValue]:
    the first occurrence only. *)
Definition String_replace_first (str searchValue replaceValue : string) : string :=
  match indexOf searchValue str 0 with
  | None => str
  | Some pos =>
      let e := pos + String.length searchValue in
      let preceding := substring 0 pos str in
      let following := substring e (String.length str - e) str in
      (preceding ++ GetSubstitution searchValue preceding following replaceValue
       ++ following)%string
  end.

Definition setDocxTemplate (v : string) (s : AppState) : AppState :=
  {| data := data s; docxTemplate := v; docxHtml := docxHtml s;
     docxBinary := docxBinary s; currentIndex := currentIndex s;
     uploadStatus := uploadStatus s; placeholders := placeholders s;
     excelColumns := excelColumns s; savedTemplates := savedTemplates s;
     selectedTemplateId := selectedTemplateId s; templateName := templateName s;
     showSaveDialog := showSaveDialog s; showRangeDialog := showRangeDialog s;
     rangeStart := rangeStart s; rangeEnd := rangeEnd s |}.

Definition setDocxHtml (v : string) (s : AppState) : AppState :=
  {| data := data s; docxTemplate := docxTemplate s; docxHtml := v;
     docxBinary := docxBinary s; currentIndex := currentIndex s;
     uploadStatus := uploadStatus s; placeholders := placeholders s;
     excelColumns := excelColumns s; savedTemplates := savedTemplates s;
     selectedTemplateId := selectedTemplateId s; templateName := templateName s;
     showSaveDialog := showSaveDialog s; showRangeDialog := showRangeDialog s;
     rangeStart := rangeStart s; rangeEnd := rangeEnd s |}.

Definition setDocxBinary (v : option ArrayBuffer) (s : AppState) : AppState :=
  {| data := data s; docxTemplate := docxTemplate s; docxHtml := docxHtml s;
     docxBinary := v; currentIndex := currentIndex s;
     uploadStatus := uploadStatus s; placeholders := placeholders s;
     excelColumns := excelColumns s; savedTemplates := savedTemplates s;
     selectedTemplateId := selectedTemplateId s; templateName := templateName s;
     showSaveDialog := showSaveDialog s; showRangeDialog := showRangeDialog s;
     rangeStart := rangeStart s; rangeEnd := rangeEnd s |}.

Definition setPlaceholders (v : list string) (s : AppState) : AppState :=
  {| data := data s; docxTemplate := docxTemplate s; docxHtml := docxHtml s;
     docxBinary := docxBinary s; currentIndex := currentIndex s;
     uploadStatus := uploadStatus s; placeholders := v;
     excelColumns := excelColumns s; savedTemplates := savedTemplates s;
     selectedTemplateId := selectedTemplateId s; templateName := templateName s;
     showSaveDialog := showSaveDialog s; showRangeDialog := showRangeDialog s;
     rangeStart := rangeStart s; rangeEnd := rangeEnd s |}.

Definition setSavedTemplates (v : list SavedTemplate) (s : AppState) : AppState :=
  {| data := data s; docxTemplate := docxTemplate s; docxHtml := docxHtml s;
     docxBinary := docxBinary s; currentIndex := currentIndex s;
     uploadStatus := uploadStatus s; placeholders := placeholders s;
     excelColumns := excelColumns s; savedTemplates := v;
     selectedTemplateId := selectedTemplateId s; templateName := templateName s;
     showSaveDialog := showSaveDialog s; showRangeDialog := showRangeDialog s;
     rangeStart := rangeStart s; rangeEnd := rangeEnd s |}.

Definition setSelectedTemplateId (v : option string) (s : AppState) : AppState :=
  {| data := data s; docxTemplate := docxTemplate s; docxHtml := docxHtml s;
     docxBinary := docxBinary s; currentIndex := currentIndex s;
     uploadStatus := uploadStatus s; placeholders := placeholders s;
     excelColumns := excelColumns s; savedTemplates := savedTemplates s;
     selectedTemplateId := v; templateName := templateName s;
     showSaveDialog := showSaveDialog s; showRangeDialog := showRangeDialog s;
     rangeStart := rangeStart s; rangeEnd := rangeEnd s |}.

Definition setTemplateName (v : string) (s : AppState) : AppState :=
  {| data := data s; docxTemplate := docxTemplate s; docxHtml := docxHtml s;
     docxBinary := docxBinary s; currentIndex := currentIndex s;
     uploadStatus := uploadStatus s; placeholders := placeholders s;
     excelColumns := excelColumns s; savedTemplates := savedTemplates s;
     selectedTemplateId := selectedTemplateId s; templateName := v;
     showSaveDialog := showSaveDialog s; showRangeDialog := showRangeDialog s;
     rangeStart := rangeStart s; rangeEnd := rangeEnd s |}.

Definition setShowSaveDialog (v : bool) (s : AppState) : AppState :=
  {| data := data s; docxTemplate := docxTemplate s; docxHtml := docxHtml s;
     docxBinary := docxBinary s; currentIndex := currentIndex s;
     uploadStatus := uploadStatus s; placeholders := placeholders s;
     excelColumns := excelColumns s; savedTemplates := savedTemplates s;
     selectedTemplateId := selectedTemplateId s; templateName := templateName s;
     showSaveDialog := v; showRangeDialog := showRangeDialog s;
     rangeStart := rangeStart s; rangeEnd := rangeEnd s |}.

Definition setRangeStart (v : Z) (s : AppState) : AppState :=
  {| data := data s; docxTemplate := docxTemplate s; docxHtml := docxHtml s;
     docxBinary := docxBinary s; currentIndex := currentIndex s;
     uploadStatus := uploadStatus s; placeholders := placeholders s;
     excelColumns := excelColumns s; savedTemplates := savedTemplates s;
     selectedTemplateId := selectedTemplateId s; templateName := templateName s;
     showSaveDialog := showSaveDialog s; showRangeDialog := showRangeDialog s;
     rangeStart := v; rangeEnd := rangeEnd s |}.

(** What the template side asks of the page: the two document libraries
    when a file is read, and the local storage when the list of saved
    templates is written. *)
Record Environment : Type := {
  (** [mammoth.convertToHtml({arrayBuffer})], the [value] of its result;
      [Throw] when the promise is rejected *)
  mammoth_convertToHtml : ArrayBuffer -> result string;
  (** [new PizZip(arrayBuffer)], [new Docxtemplater(zip, options)] and
      [doc.getFullText()], or the error thrown on the way *)
  Docxtemplater_getFullText : ArrayBuffer -> result string;
  (** whether [localStorage.setItem('certificateTemplates', ...)] takes the
      value; [Throw] when it exceeds the quota *)
  localStorage_write : list StoredTemplate -> result unit
}.

(** The file of an [<input type="file">]: its name, and what the promise of
    [file.arrayBuffer()] settles to. *)
Record File : Type := {
  file_name : string;
  file_arrayBuffer : result ArrayBuffer
}.

(** The component in its page: the world of the component and the item
    [certificateTemplates] of the local storage ([None] when there is
    none), taken as the value [JSON.parse] gives back. *)
Record Page : Type := {
  world : World;
  certificateTemplates : option (list StoredTemplate)
}.

(** A computation that also reads or writes the local storage. *)
Definition PM (A : Type) : Type := Page -> result A * Page.

Definition page_ret {A : Type} (a : A) : PM A := fun p => (Ok a, p).

Definition page_bind {A B : Type} (m : PM A) (k : A -> PM B) : PM B :=
  fun p =>
    match m p with
    | (Ok a, p') => k a p'
    | (Throw e, p') => (Throw e, p')
    end.

Definition page_throw {A : Type} (message : string) : PM A :=
  fun p => (Throw message, p).

Definition in_world {A : Type} (m : M A) : PM A :=
  fun p =>
    match m (world p) with
    | (r, w) => (r, {| world := w; certificateTemplates := certificateTemplates p |})
    end.

Definition localStorage_getItem : PM (option (list StoredTemplate)) :=
  fun p => (Ok (certificateTemplates p), p).

Declare Scope page_scope.
Delimit Scope page_scope with page.
Notation "x <- m ;; k" := (page_bind m (fun x => k))
  (at level 61, m at next level, right associativity) : page_scope.
Notation "m ;; k" := (page_bind m (fun _ => k))
  (at level 61, right associativity) : page_scope.

Section Templates.

Variable rt : Runtime.
Variable env : Environment.

Definition localStorage_setItem (v : list StoredTemplate) : PM unit :=
  fun p =>
    match localStorage_write env v with
    | Ok _ => (Ok tt, {| world := world p; certificateTemplates := Some v |})
    | Throw e => (Throw e, p)
    end.

Local Open Scope handler_scope.

(** *** Template upload *)

(** The [catch] block of [handleDocxUpload]. *)
Definition docx_catch (error : string) : M unit :=
  console_error "Error reading DOCX:" ;;
  alert "Error reading DOCX file. Please try again.".

(** The part of the [try] block after the second [await]. *)
Definition docx_converted (name : string) (arrayBuffer : ArrayBuffer)
    (html : string) : M unit :=
  set_state (setDocxHtml html) ;;
  set_state (setDocxTemplate html) ;;
  text <- lift (Docxtemplater_getFullText env arrayBuffer) ;;
  let foundPlaceholders := extractPlaceholders text in
  set_state (setPlaceholders foundPlaceholders) ;;
  set_state (setUploadStatus (fun prev => {| docx := true; excel := excel prev |})) ;;
  set_state (setSelectedTemplateId None) ;;
  set_state (setTemplateName (String_replace_first name ".docx" "")) ;;
  set_state (setShowSaveDialog true).

(** [handleDocxUpload], nothing else happening at its two [await]s:
    [file] is [e.target.files?.[0]]. *)
Definition handleDocxUpload (file : option File) : M unit :=
  match file with
  | None => ret tt
  | Some file =>
      try_catch
        (arrayBuffer <- lift (file_arrayBuffer file) ;;
         set_state (setDocxBinary (Some arrayBuffer)) ;;
         html <- lift (mammoth_convertToHtml env arrayBuffer) ;;
         docx_converted (file_name file) arrayBuffer html)
        docx_catch
  end.

(** The same handler in the pieces that run one at a time: from the
    moment [file.arrayBuffer()] settles to the call of the converter (the
    buffer is handed on, [None] when the [catch] block ran), and from the
    moment the converter settles to the end. *)
Definition docx_resume_read (read : result ArrayBuffer) : M (option ArrayBuffer) :=
  try_catch
    (arrayBuffer <- lift read ;;
     set_state (setDocxBinary (Some arrayBuffer)) ;;
     ret (Some arrayBuffer))
    (fun error => docx_catch error ;; ret None).

Definition docx_resume_converted (name : string) (arrayBuffer : ArrayBuffer)
  : M unit :=
  try_catch
    (html <- lift (mammoth_convertToHtml env arrayBuffer) ;;
     docx_converted name arrayBuffer html)
    docx_catch.

(** *** Saved templates *)

Definition loadTemplate (template : SavedTemplate) : M unit :=
  set_state (setDocxHtml (tpl_html template)) ;;
  set_state (setDocxTemplate (tpl_html template)) ;;
  set_state (setDocxBinary (Some (tpl_binary template))) ;;
  set_state (setPlaceholders (tpl_placeholders template)) ;;
  set_state (setUploadStatus (fun prev => {| docx := true; excel := excel prev |})) ;;
  set_state (setSelectedTemplateId (Some (tpl_id template))).

Local Open Scope page_scope.

(** The effect that runs on mount. *)
Definition load_saved_templates : PM unit :=
  saved <- localStorage_getItem ;;
  match saved with
  | Some templates =>
      match templatesWithBinary templates with
      | Some templatesWithBinary =>
          in_world (set_state (setSavedTemplates templatesWithBinary))
      | None => page_throw "InvalidCharacterError"
      end
  | None => page_ret tt
  end.

(** [saveTemplate]: [now] is [Date.now()] and [uploadDate] is
    [new Date().toLocaleDateString()]. *)
Definition saveTemplate (now : number) (uploadDate : string) : PM unit :=
  s <- in_world get_state ;;
  if negb (String_truthy (trim (templateName s))) then
    in_world (alert "Please enter a template name")
  else
    match docxBinary s with
    | None => in_world (alert "No template to save")
    | Some binary =>
        let newTemplate :=
          {| tpl_id := Number_toString rt now; tpl_name := templateName s;
             tpl_html := docxHtml s; tpl_binary := binary;
             tpl_placeholders := placeholders s; tpl_uploadDate := uploadDate |} in
        let updated := savedTemplates s ++ [newTemplate] in
        in_world (set_state (setSavedTemplates updated)) ;;
        localStorage_setItem (templatesForStorage updated) ;;
        in_world (set_state (setShowSaveDialog false)) ;;
        in_world (set_state (setSelectedTemplateId (Some (tpl_id newTemplate))))
    end.

(** [deleteTemplate]: [confirmed] is the answer to [confirm(...)]. *)
Definition deleteTemplate (id : string) (confirmed : bool) : PM unit :=
  if negb confirmed then page_ret tt
  else
    s <- in_world get_state ;;
    let updated := filter (fun t => negb (tpl_id t =? id)%string) (savedTemplates s) in
    in_world (set_state (setSavedTemplates updated)) ;;
    localStorage_setItem (templatesForStorage updated) ;;
    match selectedTemplateId s with
    | Some selected =>
        if (selected =? id)%string then
          in_world (set_state (setDocxHtml "")) ;;
          in_world (set_state (setDocxTemplate "")) ;;
          in_world (set_state (setDocxBinary None)) ;;
          in_world (set_state (setPlaceholders [])) ;;
          in_world (set_state (setUploadStatus
                                 (fun prev => {| docx := false; excel := excel prev |}))) ;;
          in_world (set_state (setSelectedTemplateId None))
        else page_ret tt
    | None => page_ret tt
    end.

Local Close Scope page_scope.

(** *** The preview and the single download *)

(** [uploadStatus.docx && uploadStatus.excel]. *)
Definition isReady (s : AppState) : bool :=
  docx (uploadStatus s) && excel (uploadStatus s).

(** The two navigation buttons of the preview. *)
Definition previous_click : M unit :=
  s <- get_state ;;
  set_state (setCurrentIndex (Z.max 0 (currentIndex s - 1))).

Definition next_click : M unit :=
  s <- get_state ;;
  set_state (setCurrentIndex
               (Z.min (Z.of_nat (List.length (data s)) - 1) (currentIndex s + 1))).

(** What the preview shows: [mergeCertificate(docxHtml, data[currentIndex])];
    [None] when the merge throws. *)
Definition preview (s : AppState) : option string :=
  match at_index (data s) (currentIndex s) with
  | Some record => mergeCertificate rt (docxHtml s) record
  | None => None
  end.

Definition handleDownloadCurrent : M unit :=
  s <- get_state ;;
  try_catch
    (file <- lift (certificate_file rt
                     {| cb_docxBinary := docxBinary s;
                        cb_placeholders := placeholders s;
                        cb_record := at_index (data s) (currentIndex s);
                        cb_idx := currentIndex s |}) ;;
     downloadDocx (fst file) (snd file))
    (fun error =>
       console_error "Error generating DOCX:" ;;
       alert "Error generating certificate. Please check your template and data.").

(** *** The component as a whole *)

(** The pending timer at place [n] fires: it leaves the queue and its
    callback runs. *)
Definition fire (n : nat) : M unit :=
  fun w =>
    match nth_error (timers w) n with
    | Some t =>
        run_callback rt (timer_callback t)
          {| state := state w; alerts := alerts w;
             console_errors := console_errors w;
             timers := firstn n (timers w) ++ skipn (S n) (timers w);
             downloads := downloads w |}
    | None => (Ok tt, w)
    end.

(** What can happen to the mounted component: a handler runs, a piece of
    an [async] handler resumes (the pieces of [handleDocxUpload] are events
    of their own, so that other events may come between them), or one of
    the pending timers fires. The events over-approximate the page: each
    may come at any time and with any argument; only [loadTemplate] is tied
    to the list shown, its template being the one at place [n]. The inputs
    of the range dialog store an integer ([parseInt(...) || 1] and
    [parseInt(...) || data.length]). The state is looked at between
    events: the set-state calls of one handler make one step. *)
Inductive Event : Type :=
| DocxRead (read : result ArrayBuffer)
| DocxConverted (name : string) (arrayBuffer : ArrayBuffer)
| ExcelRead (bstr : string)
| SaveTemplate (now : number) (uploadDate : string)
| LoadTemplate (n : nat)
| DeleteTemplate (id : string) (confirmed : bool)
| TemplateNameInput (v : string)
| SaveDialogClose
| PreviousClick
| NextClick
| DownloadCurrent
| DownloadAll
| DownloadRange
| RangeDialog (open : bool)
| RangeStartInput (v : Z)
| RangeEndInput (v : Z)
| TimerFires (n : nat).

Definition handle (m : M unit) (p : Page) : Page :=
  {| world := snd (m (world p)); certificateTemplates := certificateTemplates p |}.

(** The page after an event; an error that leaves a handler is reported
    by the browser and what the handler did before stays done. *)
Definition step (p : Page) (ev : Event) : Page :=
  match ev with
  | DocxRead read => handle (docx_resume_read read ;; ret tt) p
  | DocxConverted name arrayBuffer => handle (docx_resume_converted name arrayBuffer) p
  | ExcelRead bstr => handle (handleExcelUpload rt (Some bstr)) p
  | SaveTemplate now uploadDate => snd (saveTemplate now uploadDate p)
  | LoadTemplate n =>
      match nth_error (savedTemplates (state (world p))) n with
      | Some template => handle (loadTemplate template) p
      | None => p
      end
  | DeleteTemplate id confirmed => snd (deleteTemplate id confirmed p)
  | TemplateNameInput v => handle (set_state (setTemplateName v)) p
  | SaveDialogClose => handle (set_state (setShowSaveDialog false)) p
  | PreviousClick => handle previous_click p
  | NextClick => handle next_click p
  | DownloadCurrent => handle handleDownloadCurrent p
  | DownloadAll => handle handleDownloadAll p
  | DownloadRange => handle handleDownloadRange p
  | RangeDialog open => handle (set_state (setShowRangeDialog open)) p
  | RangeStartInput v => handle (set_state (setRangeStart v)) p
  | RangeEndInput v => handle (set_state (setRangeEnd v)) p
  | TimerFires n => handle (fire n) p
  end.

(** A fresh component in a page whose local storage holds [item]. *)
Definition fresh_page (item : option (list StoredTemplate)) : Page :=
  {| world := world_of initial_state; certificateTemplates := item |}.

(** The pages the component can come to: the mount effect has run without
    an error, then events follow. *)
Inductive reachable : Page -> Prop :=
| reachable_mount (item : option (list StoredTemplate)) (p : Page) :
    load_saved_templates (fresh_page item) = (Ok tt, p) ->
    reachable p
| reachable_step (p : Page) (ev : Event) :
    reachable p -> reachable (step p ev).

End Templates.

(** ** A sample host

    A host to run the component on: a browser in the UTC time zone with
    stand-ins for the two document libraries. The properties below hold
    for every host; this one serves the examples. *)

Module SampleHost.

Local Open Scope Z_scope.

(** The integral part of a finite number. *)
Definition to_integer (x : number) : option Z :=
  match Prim2SF x with
  | S754_zero _ => Some 0
  | S754_finite s m e =>
      let z := if (0 <=? e) then Z.shiftl (Z.pos m) e
               else Z.shiftr (Z.pos m) (- e) in
      Some (if s then - z else z)
  | _ => None
  end.

Definition is_integral (x : number) : bool :=
  match to_integer x with
  | Some z => (float_of_Z z =? x)%float
  | None => false
  end.

(** Decimal digits for NaN, the infinities and the integers below 2^53 in
    magnitude, as [Number.prototype.toString] prints them; the other
    numbers are outside the sample and print as a question mark. *)
Definition sample_Number_toString (x : number) : string :=
  if is_nan x then "NaN"
  else if (x =? infinity)%float then "Infinity"
  else if (x =? neg_infinity)%float then "-Infinity"
  else match to_integer x with
       | Some z =>
           if is_integral x && (Z.abs z <? 9007199254740992) then Z_toString z
           else "?"
       | None => "?"
       end.

(** Days since the epoch of a civil date, and back (m in 1..12). *)
Definition days_from_civil (y m d : Z) : Z :=
  let y := if m <=? 2 then y - 1 else y in
  let era := y / 400 in
  let yoe := y - era * 400 in
  let doy := (153 * (if 2 <? m then m - 3 else m + 9) + 2) / 5 + d - 1 in
  let doe := yoe * 365 + yoe / 4 - yoe / 100 + doy in
  era * 146097 + doe - 719468.

Definition civil_from_days (z : Z) : Z * Z * Z :=
  let z := z + 719468 in
  let era := z / 146097 in
  let doe := z - era * 146097 in
  let yoe := (doe - doe / 1460 + doe / 36524 - doe / 146096) / 365 in
  let doy := doe - (365 * yoe + yoe / 4 - yoe / 100) in
  let mp := (5 * doy + 2) / 153 in
  let d := doy - (153 * mp + 2) / 5 + 1 in
  let m := if mp <? 10 then mp + 3 else mp - 9 in
  ((if m <=? 2 then yoe + era * 400 + 1 else yoe + era * 400), m, d).

(** [TimeClip]. *)
Definition time_clip (t : Z) : number :=
  if Z.abs t <=? 8640000000000000 then float_of_Z t else nan.

Definition sample_Date_of_time (t : number) : number :=
  match to_integer t with
  | Some z => time_clip z
  | None => nan
  end.

Definition sample_Date_of_fields (year month day hours minutes seconds : number)
  : number :=
  match to_integer year, to_integer month, to_integer day,
        to_integer hours, to_integer minutes, to_integer seconds with
  | Some y, Some m, Some d, Some h, Some mi, Some s =>
      let y := if (0 <=? y) && (y <=? 99) then 1900 + y else y in
      let days := days_from_civil (y + m / 12) (m mod 12 + 1) 1 + d - 1 in
      time_clip (days * 86400000 + h * 3600000 + mi * 60000 + s * 1000)
  | _, _, _, _, _, _ => nan
  end.

Definition civil_of_time (t : number) : option (Z * Z * Z) :=
  match to_integer t with
  | Some z => Some (civil_from_days (z / 86400000))
  | None => None
  end.

Definition sample_getFullYear (t : number) : number :=
  match civil_of_time t with
  | Some (y, _, _) => float_of_Z y
  | None => nan
  end.

Definition sample_getMonth (t : number) : number :=
  match civil_of_time t with
  | Some (_, m, _) => float_of_Z (m - 1)
  | None => nan
  end.

Definition sample_getDate (t : number) : number :=
  match civil_of_time t with
  | Some (_, _, d) => float_of_Z d
  | None => nan
  end.

Definition month_name (m : Z) : string :=
  nth (Z.to_nat (m - 1))
    ["January"; "February"; "March"; "April"; "May"; "June"; "July";
     "August"; "September"; "October"; "November"; "December"]%string
    ""%string.

Definition sample_toLocaleDateString (t : number) : string :=
  match civil_of_time t with
  | Some (y, m, d) =>
      (month_name m ++ " " ++ Z_toString d ++ ", " ++ Z_toString y)%string
  | None => "Invalid Date"
  end.

(** The pieces of a text between semicolons, the empty ones left out. *)
Fixpoint pieces (current : string) (s : string) : list string :=
  match s with
  | EmptyString =>
      if String_truthy current then [current] else []
  | String c r =>
      if (c =? ";")%char
      then (if String_truthy current then [current] else []) ++ pieces "" r
      else pieces (current ++ String c "")%string r
  end.

(** A stand-in for the spreadsheet library: a workbook file is a text of
    names separated by semicolons, its one sheet has a column "name"; the
    empty file is not a workbook. *)
Definition sample_XLSX_read (bstr : string) : result (WorkBook string) :=
  if String_truthy bstr
  then Ok {| SheetNames := ["Sheet1"%string]; Sheets := [("Sheet1"%string, bstr)] |}
  else Throw "File is empty".

Definition sample_sheet_to_json (ws : option string)
  : result (list CertificateData) :=
  match ws with
  | Some text => Ok (map (fun n => [("name"%string, VStr n)]) (pieces "" text))
  | None => Ok []
  end.

(** A stand-in for the template engine: a template is the bytes of a text
    and every tag [{word}] of it is replaced by what the resolver gives. *)
Fixpoint fill (resolve : string -> string) (skip : nat) (s : string) : string :=
  match s with
  | EmptyString => EmptyString
  | String c r =>
      match skip with
      | S k => fill resolve k r
      | O =>
          match delimited "{" "}" s with
          | Some (w, n) => (resolve w ++ fill resolve (n - 1) r)%string
          | None => String c (fill resolve 0 r)
          end
      end
  end.

Definition sample_render (binary : ArrayBuffer) (resolve : string -> string)
  : result Blob :=
  match binary with
  | [] => Throw "Corrupted zip"
  | _ => Ok (list_byte_of_string (fill resolve 0 (string_of_list_byte binary)))
  end.

Definition runtime : Runtime :=
  {| Number_toString := sample_Number_toString;
     Date_of_time := sample_Date_of_time;
     Date_of_fields := sample_Date_of_fields;
     Date_getFullYear := sample_getFullYear;
     Date_getMonth := sample_getMonth;
     Date_getDate := sample_getDate;
     Date_toLocaleDateString := sample_toLocaleDateString;
     WorkSheet := string;
     XLSX_read := sample_XLSX_read;
     XLSX_sheet_to_json := sample_sheet_to_json;
     Docxtemplater_render := sample_render |}.

End SampleHost.

(** A page for the examples: stand-ins for the converter and for the text
    of a document (a template is the bytes of its text; the empty file is
    no document), and a local storage that takes every write, or none. *)
Module SampleBrowser.

Definition sample_convertToHtml (arrayBuffer : ArrayBuffer) : result string :=
  match arrayBuffer with
  | [] => Throw "Could not find file in options"
  | _ => Ok ("<p>" ++ string_of_list_byte arrayBuffer ++ "</p>")%string
  end.

Definition sample_getFullText (arrayBuffer : ArrayBuffer) : result string :=
  match arrayBuffer with
  | [] => Throw "Corrupted zip"
  | _ => Ok (string_of_list_byte arrayBuffer)
  end.

Definition environment : Environment :=
  {| mammoth_convertToHtml := sample_convertToHtml;
     Docxtemplater_getFullText := sample_getFullText;
     localStorage_write := fun _ => Ok tt |}.

Definition full_storage : Environment :=
  {| mammoth_convertToHtml := sample_convertToHtml;
     Docxtemplater_getFullText := sample_getFullText;
     localStorage_write := fun _ => Throw "QuotaExceededError" |}.

End SampleBrowser.

(** ** Notions of the statements *)

(** A [forEach] over keys that assigns [g key] to each of them. *)
Definition assign_all {A : Type} (g : string -> A) (keys : list string) (o : object A)
  : object A :=
  fold_left (fun o key => obj_set o key (g key)) keys o.

(** The pattern matches somewhere in [s]. *)
Fixpoint occursb (pattern : list ascii) (s : string) : bool :=
  match_here pattern s
  || match s with
     | EmptyString => false
     | String _ r => occursb pattern r
     end.


(** No character of the key is a syntax character of the pattern
    language. *)
Definition plain_key (key : string) : bool :=
  forallb (fun c => negb (is_syntax_char c)) (list_ascii_of_string key).

(** Every character. *)
Definition all_ascii : list ascii := map ascii_of_nat (seq 0 256).

(** The brackets of the placeholder forms. *)
Definition is_bracket (c : ascii) : bool :=
  existsb (fun d => (c =? d)%char) ["{"; "}"; "["; "]"]%char.

Definition is_opener (c : ascii) : bool := (c =? "{")%char || (c =? "[")%char.
Definition is_closer (c : ascii) : bool := (c =? "}")%char || (c =? "]")%char.

(** Every character of the string satisfies [f]. *)
Fixpoint string_forallb (f : ascii -> bool) (s : string) : bool :=
  match s with
  | EmptyString => true
  | String c r => f c && string_forallb f r
  end.

(** A placeholder as it stands in a text: an opening bracket, a word, a
    closing bracket. *)
Definition placeholder_text (o : ascii) (p : string) (c : ascii) : string :=
  String o (p ++ String c "").

(** A value that the merge puts in as it is: no dollar (a replacement
    pattern) and no opening bracket (a token of its own). *)
Definition ordinary_char (c : ascii) : bool :=
  negb ((c =? "$")%char || (c =? "{")%char || (c =? "[")%char).

(** The column that [generateDocx] takes for a placeholder. *)
Definition matchingKey (record : CertificateData) (placeholder : string)
  : option string :=
  find (fun key => (toLowerCase key =? toLowerCase placeholder)%string)
       (Object_keys record).

(** The world after the [catch] block of the upload. *)
Definition excel_alerted (w : World) : World :=
  {| state := state w;
     alerts := alerts w ++ ["Error reading Excel file. Please try again."];
     console_errors := console_errors w ++ ["Error reading Excel:"];
     timers := timers w;
     downloads := downloads w |}.

Definition due_before (a b : Timer) : Prop := (timer_delay a <= timer_delay b)%Z.

(** The timer that the loop of [handleDownloadRange] sets for index [i]. *)
Definition range_timer (s : AppState) (i : Z) : Timer :=
  {| timer_delay := (i - rangeStart s + 1) * 500;
     timer_callback :=
       {| cb_docxBinary := docxBinary s; cb_placeholders := placeholders s;
          cb_record := at_index (data s) i; cb_idx := i |} |}.

(** The timer that [handleDownloadAll] sets for an entry of [data]. *)
Definition all_timer (s : AppState) (e : Z * CertificateData) : Timer :=
  {| timer_delay := fst e * 500;
     timer_callback :=
       {| cb_docxBinary := docxBinary s; cb_placeholders := placeholders s;
          cb_record := Some (snd e); cb_idx := fst e |} |}.



Section Notions.

Variable rt : Runtime.

(** What [processExcelData] stores for a cell. *)
Definition coerce_cell (v : value) : value :=
  match v with
  | VNum n =>
      if (1 <? n)%float && (n <? 73050)%float
      then VStr (excelDateToJSDate rt n)
      else v
  | _ => v
  end.


(** The state updates of a successful upload, in their order. *)
Definition excel_loaded (jsonData : list CertificateData) (first : CertificateData)
    (s : AppState) : AppState :=
  let processedData := processExcelData rt jsonData in
  setUploadStatus (fun prev => {| docx := docx prev; excel := true |})
    (setRangeEnd (Z.of_nat (List.length processedData))
       (setCurrentIndex 0
          (setExcelColumns (Object_keys first) (setData processedData s)))).

(** What a timer adds to the downloads and to the error log when it fires. *)
Definition downloaded (t : Timer) : list (Blob * string) :=
  match certificate_file rt (timer_callback t) with
  | Ok file => [(fst file, (snd file ++ ".docx")%string)]
  | Throw _ => []
  end.

Definition logged (t : Timer) : list string :=
  match certificate_file rt (timer_callback t) with
  | Ok _ => []
  | Throw _ =>
      [("Error generating certificate "
          ++ Z_toString (cb_idx (timer_callback t) + 1) ++ ":")%string]
  end.

End Notions.

Section TemplateNotions.

Variable rt : Runtime.

(** The template that [saveTemplate] makes of the loaded one. *)
Definition saved_template (now : number) (uploadDate : string)
    (binary : ArrayBuffer) (s : AppState) : SavedTemplate :=
  {| tpl_id := Number_toString rt now; tpl_name := templateName s;
     tpl_html := docxHtml s; tpl_binary := binary;
     tpl_placeholders := placeholders s; tpl_uploadDate := uploadDate |}.

End TemplateNotions.

(** The saved templates without those of the given id. *)
Definition without_id (id : string) (l : list SavedTemplate) : list SavedTemplate :=
  filter (fun t => negb (tpl_id t =? id)%string) l.

(** The state after the template is unloaded. *)
Definition unloaded (s : AppState) : AppState :=
  setSelectedTemplateId None
    (setUploadStatus (fun prev => {| docx := false; excel := excel prev |})
       (setPlaceholders []
          (setDocxBinary None (setDocxTemplate "" (setDocxHtml "" s))))).

(** The list of saved templates that a reload of the page would show;
    [None] when the mount effect would throw. *)
Definition reloaded (p : Page) : option (list SavedTemplate) :=
  match certificateTemplates p with
  | Some templates => templatesWithBinary templates
  | None => Some []
  end.

(** The world after the [catch] block of the template upload. *)
Definition docx_alerted (w w' : World) : Prop :=
  alerts w' = alerts w ++ ["Error reading DOCX file. Please try again."]
  /\ console_errors w' = console_errors w ++ ["Error reading DOCX:"]
  /\ timers w' = timers w /\ downloads w' = downloads w.

(** When the spreadsheet is marked as loaded, the preview has a record to
    show: [data[currentIndex]] is one of the rows. *)
Definition preview_in_bounds (s : AppState) : Prop :=
  excel (uploadStatus s) = true ->
  data s <> []
  /\ (0 <= currentIndex s < Z.of_nat (List.length (data s)))%Z.

(** The selected template is one of the saved ones, and a template binary
    is loaded. *)
Definition selection_saved (s : AppState) : Prop :=
  forall id, selectedTemplateId s = Some id ->
             docxBinary s <> None
             /\ exists t, In t (savedTemplates s) /\ tpl_id t = id.

(** The local storage takes every write. *)
Definition storage_accepts (env : Environment) : Prop :=
  forall v, localStorage_write env v = Ok tt.

(** The three forms of a match of the placeholder pattern: the brackets
    around the word. *)
Inductive Form : Type := Single | Double | Square.

Definition form_open (f : Form) : string :=
  match f with Single => "{" | Double => "{{" | Square => "[" end.

Definition form_close (f : Form) : string :=
  match f with Single => "}" | Double => "}}" | Square => "]" end.

(** The capture group that holds the placeholder:
    [match[1] || match[2] || match[3]]. *)
Definition group (m : RegExpMatch) : option string :=
  group_or (group_or (m_1 m) (m_2 m)) (m_3 m).

(** A text without an opening bracket. *)
Definition opener_free (s : string) : bool :=
  string_forallb (fun a => negb (is_opener a)) s.

(** A template as a sequence of pieces: text without an opening bracket,
    and placeholders [{word}] and [[word]]. *)
Inductive Bracket : Type := Curly | Squared.

Definition bracket_open (b : Bracket) : ascii :=
  match b with Curly => "{"%char | Squared => "["%char end.

Definition bracket_close (b : Bracket) : ascii :=
  match b with Curly => "}"%char | Squared => "]"%char end.

Inductive Piece : Type :=
| Plain (s : string)
| Placeholder (b : Bracket) (p : string).

Definition piece_text (x : Piece) : string :=
  match x with
  | Plain s => s
  | Placeholder b p => placeholder_text (bracket_open b) p (bracket_close b)
  end.

Fixpoint pieces_text (l : list Piece) : string :=
  match l with
  | [] => ""
  | x :: r => piece_text x ++ pieces_text r
  end.

Definition well_formed (x : Piece) : bool :=
  match x with
  | Plain s => opener_free s
  | Placeholder _ p => string_forallb is_word_char p
  end.

Definition Bracket_eqb (a b : Bracket) : bool :=
  match a, b with
  | Curly, Curly | Squared, Squared => true
  | _, _ => false
  end.

(** The characters of the pattern of a key in one kind of brackets. *)
Definition token_pattern (b : Bracket) (key : string) : list ascii :=
  bracket_open b :: list_ascii_of_string key ++ [bracket_close b].

(** The piece is a placeholder of the key, letter case apart, in brackets
    of the kind [b0]. *)
Definition piece_matches (b0 : Bracket) (key : string) (x : Piece) : bool :=
  match x with
  | Plain _ => false
  | Placeholder b p =>
      Bracket_eqb b b0 && (toLowerCase key =? toLowerCase p)%string
  end.

(** What the replacement of the tokens of a key does to a piece. *)
Definition replaced (b0 : Bracket) (key v : string) (x : Piece) : Piece :=
  if piece_matches b0 key x then Plain v else x.

Section PieceNotions.

Variable rt : Runtime.

(** A placeholder with the value of its column in its place, as the
    export maps it; a placeholder without a column stays. *)
Definition filled (record : CertificateData) (x : Piece) : Piece :=
  match x with
  | Plain s => x
  | Placeholder b p =>
      match matchingKey record p with
      | Some key => Plain (toString_or_empty rt (prop record key))
      | None => x
      end
  end.

End PieceNotions.

(** A character of a base64 text: of the alphabet, or the padding sign. *)
Definition is_base64_char (c : ascii) : bool :=
  match Base64.b64_value c with
  | Some _ => true
  | None => (c =? "=")%char
  end.

(** ** Sample data *)

Module Samples.

Definition ann : CertificateData :=
  [("Name", VStr "Ann"); ("degree", VStr "MSc"); ("date", VNum 45000%float)].

Definition zero : CertificateData := [("name", VNum 0%float)].

Definition letter : ArrayBuffer := list_byte_of_string "Dear {NAME}, {city}".

(** A component with a template and three rows loaded. *)
Definition loaded : AppState :=
  {| data := [ann; zero; [("name", VStr "Cy")]];
     docxTemplate := "<p>Dear {NAME}, {city}</p>";
     docxHtml := "<p>Dear {NAME}, {city}</p>";
     docxBinary := Some letter; currentIndex := 0;
     uploadStatus := {| docx := true; excel := true |};
     placeholders := extractPlaceholders "Dear {NAME}, {city}";
     excelColumns := ["Name"; "degree"; "date"]; savedTemplates := [];
     selectedTemplateId := None; templateName := "letter";
     showSaveDialog := false; showRangeDialog := true;
     rangeStart := 2; rangeEnd := 3 |}.

End Samples.

Module Scenes.

Import SampleHost SampleBrowser Samples.

Definition letter_file : File :=
  {| file_name := "letter.docx"; file_arrayBuffer := Ok letter |}.

(** The component of [loaded], nothing stored yet. *)
Definition desk : Page :=
  {| world := world_of loaded; certificateTemplates := None |}.

(** The same with a template of the list selected. *)
Definition chosen : Page :=
  {| world :=
       world_of
         (setSelectedTemplateId (Some "t1")
            (setSavedTemplates
               [{| tpl_id := "t1"; tpl_name := "letter";
                   tpl_html := "<p>Dear {NAME}, {city}</p>"; tpl_binary := letter;
                   tpl_placeholders := ["NAME"; "city"];
                   tpl_uploadDate := "11/14/2023" |}]
               loaded));
     certificateTemplates := None |}.

(** A session: a template is read, a spreadsheet of two rows is read, the
    template is saved, and the preview moves to the second row. *)
Definition session : Page :=
  step runtime environment
    (step runtime environment
       (step runtime environment
          (step runtime environment
             (step runtime environment (fresh_page None) (DocxRead (Ok letter)))
             (DocxConverted "letter.docx" letter))
          (ExcelRead "Ann;Bo"))
       (SaveTemplate 1700000000000%float "11/14/2023"))
    NextClick.

End Scenes.

(** * Properties *)

Unset Implicit Arguments.

#[local] Ltac Zify.zify_post_hook ::= Z.to_euclidean_division_equations.

(** ** Base64 *)

Module Base64Facts.
Import Base64.
Local Open Scope N_scope.

Lemma b64_char_code (n : N) :
  n < 64 ->
  N_of_ascii (b64_char n)
  = if n <? 26 then 65 + n
    else if n <? 52 then 97 + (n - 26)
    else if n <? 62 then 48 + (n - 52)
    else if n =? 62 then 43 else 47.
Proof.
  intros Hn. unfold b64_char.
  destruct (n <? 26) eqn:E1; [apply N_ascii_embedding; lia|].
  destruct (n <? 52) eqn:E2; [apply N_ascii_embedding; lia|].
  destruct (n <? 62) eqn:E3; [apply N_ascii_embedding; lia|].
  destruct (n =? 62); reflexivity.
Qed.

Lemma b64_value_char (n : N) : n < 64 -> b64_value (b64_char n) = Some n.
Proof.
  intros Hn. unfold b64_value. rewrite (b64_char_code n Hn).
  destruct (n <? 26) eqn:E1; [apply N.ltb_lt in E1|apply N.ltb_ge in E1].
  { replace (65 <=? 65 + n) with true by (symmetry; apply N.leb_le; lia).
    replace (65 + n <=? 90) with true by (symmetry; apply N.leb_le; lia).
    cbn [andb]. f_equal. lia. }
  destruct (n <? 52) eqn:E2; [apply N.ltb_lt in E2|apply N.ltb_ge in E2].
  { replace (65 <=? 97 + (n - 26)) with true by (symmetry; apply N.leb_le; lia).
    replace (97 + (n - 26) <=? 90) with false by (symmetry; apply N.leb_gt; lia).
    replace (97 <=? 97 + (n - 26)) with true by (symmetry; apply N.leb_le; lia).
    replace (97 + (n - 26) <=? 122) with true by (symmetry; apply N.leb_le; lia).
    cbn [andb]. f_equal. lia. }
  destruct (n <? 62) eqn:E3; [apply N.ltb_lt in E3|apply N.ltb_ge in E3].
  { replace (65 <=? 48 + (n - 52)) with false by (symmetry; apply N.leb_gt; lia).
    replace (97 <=? 48 + (n - 52)) with false by (symmetry; apply N.leb_gt; lia).
    replace (48 <=? 48 + (n - 52)) with true by (symmetry; apply N.leb_le; lia).
    replace (48 + (n - 52) <=? 57) with true by (symmetry; apply N.leb_le; lia).
    cbn [andb]. f_equal. lia. }
  destruct (n =? 62) eqn:E4; [apply N.eqb_eq in E4|apply N.eqb_neq in E4].
  - subst n. reflexivity.
  - assert (n = 63) as -> by lia. reflexivity.
Qed.

Lemma b64_char_plain (n : N) :
  n < 64 ->
  is_ascii_whitespace (b64_char n) = false /\ (b64_char n =? "=")%char = false.
Proof.
  intros Hn. split.
  - unfold is_ascii_whitespace. rewrite (b64_char_code n Hn).
    repeat match goal with
           | |- context [if ?b then _ else _] => destruct b eqn:?
           end;
    repeat match goal with
           | H : (_ <? _) = true |- _ => apply N.ltb_lt in H
           | H : (_ <? _) = false |- _ => apply N.ltb_ge in H
           | H : (_ =? _) = true |- _ => apply N.eqb_eq in H
           | H : (_ =? _) = false |- _ => apply N.eqb_neq in H
           end;
    repeat rewrite orb_false_iff; repeat split; apply N.eqb_neq; lia.
  - apply Ascii.eqb_neq. intros E. apply (f_equal N_of_ascii) in E.
    rewrite (b64_char_code n Hn) in E. change (N_of_ascii "=") with 61 in E.
    repeat match goal with
           | H : context [if ?b then _ else _] |- _ => destruct b eqn:?
           end;
    repeat match goal with
           | H : (_ <? _) = true |- _ => apply N.ltb_lt in H
           | H : (_ <? _) = false |- _ => apply N.ltb_ge in H
           end; lia.
Qed.

Lemma list_ind3 (A : Type) (P : list A -> Prop) :
  P [] -> (forall a, P [a]) -> (forall a b, P [a; b]) ->
  (forall a b c l, P l -> P (a :: b :: c :: l)) ->
  forall l, P l.
Proof.
  intros H0 H1 H2 H3.
  assert (forall l, P l /\ (forall a, P (a :: l)) /\ (forall a b, P (a :: b :: l)))
    as H.
  { induction l as [|x l [IH0 [IH1 IH2]]]; repeat split; auto. }
  intros l. apply H.
Qed.

Lemma regroup (n : N) :
  (n / 262144) * 262144 + ((n / 4096) mod 64) * 4096 + ((n / 64) mod 64) * 64
  + n mod 64 = n.
Proof. lia. Qed.

Lemma encode_body_bound (l : list ascii) :
  Forall (fun s => s < 64) (encode_body l).
Proof.
  induction l as [|a|a b|a b c l IH] using list_ind3; cbn [encode_body].
  all: try pose proof (N_ascii_bounded a).
  all: try pose proof (N_ascii_bounded b).
  all: try pose proof (N_ascii_bounded c).
  all: repeat (apply Forall_cons; [lia|]); auto.
Qed.

Lemma ascii_of_code (x : N) (a : ascii) : x = N_of_ascii a -> ascii_of_N x = a.
Proof. intros ->. apply ascii_N_embedding. Qed.

Lemma decode_encode (l : list ascii) : decode_groups (encode_body l) = l.
Proof.
  induction l as [|a|a b|a b c l IH] using list_ind3; cbn [encode_body].
  - reflexivity.
  - pose proof (N_ascii_bounded a). cbn [decode_groups].
    f_equal. apply ascii_of_code. lia.
  - pose proof (N_ascii_bounded a). pose proof (N_ascii_bounded b).
    cbn [decode_groups].
    f_equal; [apply ascii_of_code; lia|].
    f_equal. apply ascii_of_code. lia.
  - pose proof (N_ascii_bounded a). pose proof (N_ascii_bounded b).
    pose proof (N_ascii_bounded c).
    cbn [decode_groups]. rewrite regroup, IH.
    f_equal; [apply ascii_of_code; lia|].
    f_equal; [apply ascii_of_code; lia|].
    f_equal. apply ascii_of_code. lia.
Qed.

Lemma encoded_shape (l : list ascii) :
  exists k : nat,
    (padding l = [] /\ List.length (encode_body l) = 4 * k)%nat
    \/ (padding l = ["="%char; "="%char] /\ List.length (encode_body l) = 4 * k + 2)%nat
    \/ (padding l = ["="%char] /\ List.length (encode_body l) = 4 * k + 3)%nat.
Proof.
  induction l as [|a|a b|a b c l [k IH]] using list_ind3.
  - exists 0%nat. left. split; reflexivity.
  - exists 0%nat. right; left. split; reflexivity.
  - exists 0%nat. right; right. split; reflexivity.
  - exists (S k).
    assert (padding (a :: b :: c :: l) = padding l) as ->.
    { unfold padding. cbn [List.length].
      replace (N.of_nat (S (S (S (List.length l)))) mod 3)
        with (N.of_nat (List.length l) mod 3) by lia.
      reflexivity. }
    cbn [encode_body List.length].
    destruct IH as [[Hp Hl]|[[Hp Hl]|[Hp Hl]]]; rewrite Hp, Hl;
      [left|right; left|right; right]; split; auto; lia.
Qed.

Lemma filter_all (A : Type) (f : A -> bool) (l : list A) :
  Forall (fun x => f x = true) l -> filter f l = l.
Proof.
  induction 1 as [|x l Hx _ IH]; cbn [filter]; [reflexivity|].
  rewrite Hx, IH. reflexivity.
Qed.

Lemma strip_padding_body (body pad : list ascii) :
  Forall (fun c => (c =? "=")%char = false) body ->
  pad = [] \/ pad = ["="%char; "="%char] \/ pad = ["="%char] ->
  strip_padding (body ++ pad) = body.
Proof.
  intros Hbody Hpad. unfold strip_padding.
  assert (forall c r, rev body = c :: r -> (c =? "=")%char = false) as Hlast.
  { intros c r E. rewrite Forall_forall in Hbody. apply Hbody.
    apply in_rev. rewrite E. left. reflexivity. }
  destruct Hpad as [-> | [-> | ->]]; rewrite rev_app_distr; simpl.
  - rewrite app_nil_r. destruct (rev body) as [|c r] eqn:E; [reflexivity|].
    rewrite (Hlast c r eq_refl). reflexivity.
  - apply rev_involutive.
  - destruct (rev body) as [|c r] eqn:E.
    + rewrite <- (rev_involutive body), E. reflexivity.
    + rewrite (Hlast c r eq_refl). rewrite <- E. apply rev_involutive.
Qed.

Lemma values_chars (l : list N) :
  Forall (fun s => s < 64) l -> values (map b64_char l) = Some l.
Proof.
  induction 1 as [|s l Hs _ IH]; cbn [map values]; [reflexivity|].
  rewrite (b64_value_char s Hs), IH. reflexivity.
Qed.

Lemma atob_btoa (s : string) : atob (btoa s) = Some s.
Proof.
  unfold atob, btoa. cbv zeta. rewrite list_ascii_of_string_of_list_ascii.
  set (l := list_ascii_of_string s).
  set (body := map b64_char (encode_body l)).
  assert (Forall (fun c => is_ascii_whitespace c = false /\ (c =? "=")%char = false) body)
    as Hbody.
  { subst body. apply Forall_forall. intros c Hc. apply in_map_iff in Hc.
    destruct Hc as [n [<- Hn]]. apply b64_char_plain.
    pose proof (encode_body_bound l) as Hb. rewrite Forall_forall in Hb. auto. }
  destruct (encoded_shape l) as [k Hk].
  assert (padding l = [] \/ padding l = ["="%char; "="%char] \/ padding l = ["="%char])
    as Hpad by (destruct Hk as [[? _]|[[? _]|[? _]]]; auto).
  assert (List.length body = List.length (encode_body l)) as Hlen
    by (subst body; apply length_map).
  rewrite filter_all.
  2:{ apply Forall_app. split.
      - eapply Forall_impl; [|exact Hbody]. intros c [-> _]. reflexivity.
      - destruct Hpad as [-> | [-> | ->]]; repeat constructor. }
  replace (N.of_nat (List.length (body ++ padding l)) mod 4 =? 0) with true.
  2:{ symmetry. apply N.eqb_eq. rewrite length_app, Hlen.
      destruct Hk as [[-> ->]|[[-> ->]|[-> ->]]]; cbn [List.length]; lia. }
  rewrite strip_padding_body; auto.
  2:{ eapply Forall_impl; [|exact Hbody]. intros c [_ H]. exact H. }
  replace (N.of_nat (List.length body) mod 4 =? 1) with false.
  2:{ symmetry. apply N.eqb_neq. rewrite Hlen.
      destruct Hk as [[_ ->]|[[_ ->]|[_ ->]]]; lia. }
  subst body. rewrite values_chars by apply encode_body_bound.
  rewrite decode_encode. subst l. rewrite string_of_list_ascii_of_string.
  reflexivity.
Qed.

End Base64Facts.

(** ** Persistence *)

Lemma binary_string_of_bytes (bytes : list byte) (acc : string) :
  fold_left (fun binary b => (binary ++ String (fromCharCode b) "")%string) bytes acc
  = (acc ++ string_of_list_ascii (map fromCharCode bytes))%string.
Proof.
  revert acc. induction bytes as [|b bytes IH]; intros acc; cbn [fold_left map].
  - cbn [string_of_list_ascii]. induction acc as [|c acc IHacc]; cbn [append].
    + reflexivity.
    + rewrite <- IHacc. reflexivity.
  - rewrite IH. cbn [string_of_list_ascii].
    induction acc as [|c acc IHacc]; cbn [append].
    + reflexivity.
    + rewrite IHacc. reflexivity.
Qed.

Lemma toUint8_charCode (b : byte) : toUint8 (charCode (fromCharCode b)) = b.
Proof.
  unfold toUint8, charCode, fromCharCode.
  pose proof (N_ascii_bounded (ascii_of_byte b)) as H.
  rewrite N.mod_small by exact H.
  rewrite ascii_N_embedding. apply byte_of_ascii_of_byte.
Qed.

Lemma base64ToArrayBuffer_arrayBufferToBase64 (buffer : ArrayBuffer) :
  base64ToArrayBuffer (arrayBufferToBase64 buffer) = Some buffer.
Proof.
  unfold base64ToArrayBuffer, arrayBufferToBase64. cbv zeta.
  rewrite Base64Facts.atob_btoa, binary_string_of_bytes.
  cbn [append]. rewrite list_ascii_of_string_of_list_ascii, map_map.
  f_equal. induction buffer as [|b buffer IH]; cbn [map]; [reflexivity|].
  rewrite toUint8_charCode, IH. reflexivity.
Qed.

(** C2. Base64 persistence round-trips: decoding the encoding of a buffer
    gives back a buffer of the same length with the same bytes, and the
    saved templates written to the store by [saveTemplate] come back from
    the effect that runs on mount with their binaries unchanged. *)
Theorem base64_persistence_roundtrip :
  (forall buffer : ArrayBuffer,
      base64ToArrayBuffer (arrayBufferToBase64 buffer) = Some buffer)
  /\ (forall buffer buffer' : ArrayBuffer,
         base64ToArrayBuffer (arrayBufferToBase64 buffer) = Some buffer' ->
         List.length buffer' = List.length buffer
         /\ forall i, nth_error buffer' i = nth_error buffer i)
  /\ (forall templates : list SavedTemplate,
         templatesWithBinary (templatesForStorage templates) = Some templates).
Proof.
  split; [|split].
  - exact base64ToArrayBuffer_arrayBufferToBase64.
  - intros buffer buffer' H.
    rewrite base64ToArrayBuffer_arrayBufferToBase64 in H.
    injection H as <-. split; reflexivity.
  - induction templates as [|t templates IH]; [reflexivity|].
    cbn [templatesForStorage map templatesWithBinary] in *.
    cbn [stored_binary stored_id stored_name stored_html stored_placeholders
         stored_uploadDate].
    rewrite base64ToArrayBuffer_arrayBufferToBase64.
    unfold templatesForStorage in IH. rewrite IH. destruct t; reflexivity.
Qed.

(** ** Plain data objects *)

Section ObjectFacts.

Context {A : Type}.

Lemma obj_get_In (o : object A) (key : string) :
  obj_get o key <> None <-> In key (Object_keys o).
Proof.
  induction o as [|[k v] o IH]; cbn [obj_get Object_keys map fst In].
  - split; [congruence|tauto].
  - destruct (String.eqb_spec k key) as [->|Hne].
    + split; [auto|discriminate].
    + rewrite IH. unfold Object_keys. split; [auto|intros [?|?]; congruence].
Qed.

Lemma obj_get_None (o : object A) (key : string) :
  obj_get o key = None <-> ~ In key (Object_keys o).
Proof.
  rewrite <- obj_get_In. destruct (obj_get o key); split; try congruence.
  intros H. exfalso. apply H. discriminate.
Qed.

Lemma obj_get_set (o : object A) (key key' : string) (v : A) :
  obj_get (obj_set o key v) key'
  = if (key =? key')%string then Some v else obj_get o key'.
Proof.
  induction o as [|[k w] o IH]; cbn [obj_set obj_get].
  - reflexivity.
  - destruct (String.eqb_spec k key) as [->|Hne]; cbn [obj_get].
    + destruct (String.eqb_spec key key'); reflexivity.
    + rewrite IH. destruct (String.eqb_spec k key') as [->|]; [|reflexivity].
      destruct (String.eqb_spec key key'); congruence.
Qed.

Lemma Object_keys_set (o : object A) (key : string) (v : A) :
  Object_keys (obj_set o key v)
  = if in_dec string_dec key (Object_keys o) then Object_keys o
    else Object_keys o ++ [key].
Proof.
  unfold Object_keys.
  induction o as [|[k w] o IH]; cbn [obj_set map fst].
  - destruct (in_dec string_dec key []) as [[]|]; reflexivity.
  - destruct (String.eqb_spec k key) as [->|Hne]; cbn [map fst].
    + destruct (in_dec string_dec key (key :: map fst o)) as [|n];
        [reflexivity|]. exfalso. apply n. left. reflexivity.
    + rewrite IH.
      destruct (in_dec string_dec key (map fst o)) as [i|n];
        destruct (in_dec string_dec key (k :: map fst o)) as [i'|n'];
        try reflexivity.
      * exfalso. apply n'. right. exact i.
      * destruct i' as [E|i']; [congruence|contradiction].
Qed.

Lemma obj_get_assign_all (g : string -> A) (keys : list string) (o : object A)
    (key : string) :
  obj_get (assign_all g keys o) key
  = if in_dec string_dec key keys then Some (g key) else obj_get o key.
Proof.
  unfold assign_all. revert o.
  induction keys as [|k keys IH]; intros o; cbn [fold_left].
  - reflexivity.
  - rewrite IH, obj_get_set.
    destruct (in_dec string_dec key keys) as [i|n];
      destruct (in_dec string_dec key (k :: keys)) as [i'|n']; try reflexivity.
    + exfalso. apply n'. right. exact i.
    + destruct i' as [->|i']; [|contradiction].
      rewrite String.eqb_refl. reflexivity.
    + destruct (String.eqb_spec k key) as [->|]; [|reflexivity].
      exfalso. apply n'. left. reflexivity.
Qed.

Lemma Object_keys_assign_all (g : string -> A) (keys : list string)
    (o : object A) :
  NoDup (Object_keys o ++ keys) ->
  Object_keys (assign_all g keys o) = Object_keys o ++ keys.
Proof.
  unfold assign_all. revert o.
  induction keys as [|k keys IH]; intros o Hnd; cbn [fold_left].
  - rewrite app_nil_r. reflexivity.
  - assert (~ In k (Object_keys o)) as Hk.
    { apply NoDup_remove_2 in Hnd. intros H. apply Hnd. apply in_or_app. auto. }
    rewrite IH; rewrite Object_keys_set;
      destruct (in_dec string_dec k (Object_keys o)); try contradiction.
    + rewrite <- app_assoc. reflexivity.
    + rewrite <- app_assoc. exact Hnd.
Qed.

End ObjectFacts.

(** ** Date coercion *)

Section DateCoercion.

Variable rt : Runtime.

Lemma processExcelData_row (jsonData : list CertificateData) :
  processExcelData rt jsonData
  = map (fun row => assign_all (fun key => coerce_cell rt (prop row key))
                      (Object_keys row) [])
        jsonData.
Proof.
  unfold processExcelData, assign_all. apply map_ext. intros row.
  generalize (@nil (string * value)) as acc.
  induction (Object_keys row) as [|k keys IH]; intros acc; cbn [fold_left].
  - reflexivity.
  - rewrite IH. f_equal. unfold coerce_cell, looks_like_date.
    destruct (prop row k) as [| |s|n]; try reflexivity.
    destruct ((1 <? n)%float && (n <? 73050)%float); reflexivity.
Qed.

(** C3. Date coercion: [processExcelData] keeps the number of rows and the
    keys of every row; a cell holding a number strictly between 1 and 73050
    becomes the date string of [excelDateToJSDate] for that serial, and
    every other cell keeps its value. *)
Theorem processExcelData_date_coercion (jsonData : list CertificateData) :
  List.length (processExcelData rt jsonData) = List.length jsonData
  /\ forall (i : nat) (row : CertificateData),
      nth_error jsonData i = Some row ->
      exists row' : CertificateData,
        nth_error (processExcelData rt jsonData) i = Some row'
        /\ (forall key, In key (Object_keys row') <-> In key (Object_keys row))
        /\ (NoDup (Object_keys row) -> Object_keys row' = Object_keys row)
        /\ (forall key n,
               obj_get row key = Some (VNum n) ->
               (1 <? n)%float = true -> (n <? 73050)%float = true ->
               obj_get row' key = Some (VStr (excelDateToJSDate rt n)))
        /\ (forall key n,
               obj_get row key = Some (VNum n) ->
               (1 <? n)%float = false \/ (n <? 73050)%float = false ->
               obj_get row' key = Some (VNum n))
        /\ (forall key v,
               obj_get row key = Some v -> (forall n, v <> VNum n) ->
               obj_get row' key = Some v)
        /\ (forall key, obj_get row key = None -> obj_get row' key = None).
Proof.
  rewrite processExcelData_row. split; [apply length_map|].
  intros i row Hrow.
  set (g := fun key => coerce_cell rt (prop row key)).
  exists (assign_all g (Object_keys row) []).
  assert (forall key,
             obj_get (assign_all g (Object_keys row) []) key
             = option_map (coerce_cell rt) (obj_get row key)) as Hget.
  { intros key. rewrite obj_get_assign_all.
    destruct (in_dec string_dec key (Object_keys row)) as [i'|n'].
    - apply obj_get_In in i'. subst g. cbv beta. unfold prop.
      destruct (obj_get row key); [reflexivity|congruence].
    - apply obj_get_None in n'. rewrite n'. reflexivity. }
  split; [|split; [|split; [|split; [|split; [|split]]]]].
  - rewrite nth_error_map, Hrow. reflexivity.
  - intros key. rewrite <- !obj_get_In, Hget.
    destruct (obj_get row key); cbn [option_map]; split; congruence.
  - intros Hnd. apply (Object_keys_assign_all g (Object_keys row) []). exact Hnd.
  - intros key n Hk H1 H2. rewrite Hget, Hk. cbn [option_map coerce_cell].
    rewrite H1, H2. reflexivity.
  - intros key n Hk H. rewrite Hget, Hk. cbn [option_map coerce_cell].
    destruct H as [-> | ->]; [reflexivity|].
    rewrite andb_false_r. reflexivity.
  - intros key v Hk Hv. rewrite Hget, Hk. cbn [option_map].
    destruct v; try reflexivity. exfalso. eapply Hv. reflexivity.
  - intros key Hk. rewrite Hget, Hk. reflexivity.
Qed.

End DateCoercion.

(** ** The placeholder scan *)

(** The loop unfolds as the [while] does. *)
Lemma scan_loop_while (text : string) (st : ScanState) :
  scan_loop text st
  = match scan_body text st with
    | Some st' => scan_loop text st'
    | None => {| lastIndex := 0; found := found st |}
    end.
Proof.
  funelim (scan_loop text st).
  - rewrite e. reflexivity.
  - rewrite e. reflexivity.
Qed.

(** An invariant of the body holds when the loop ends. *)
Lemma scan_loop_invariant (P : list string -> Prop) (text : string) :
  (forall st st', scan_body text st = Some st' -> P (found st) -> P (found st')) ->
  forall st, P (found st) -> P (found (scan_loop text st)).
Proof.
  intros Hbody st. funelim (scan_loop text st); intros HP.
  - apply H; [exact Hbody|]. eapply Hbody; eauto.
  - exact HP.
Qed.

Lemma Set_add_In (x y : string) (s : list string) :
  In y (Set_add x s) <-> y = x \/ In y s.
Proof.
  unfold Set_add. destruct (existsb (String.eqb x) s) eqn:E.
  - split; [auto|]. intros [->|H]; [|exact H].
    apply existsb_exists in E. destruct E as [z [Hz Ez]].
    apply String.eqb_eq in Ez. subst z. exact Hz.
  - rewrite in_app_iff. cbn [In]. split; intros [H|H]; auto.
    + destruct H as [->|[]]. auto.
Qed.


(** ** The render data of the export *)

Section RenderData.

Variable rt : Runtime.

Lemma toString_or_empty_cases :
  toString_or_empty rt VUndefined = ""
  /\ toString_or_empty rt VNull = ""
  /\ (forall s, toString_or_empty rt (VStr s) = s)
  /\ (forall n, toString_or_empty rt (VNum n) = Number_toString rt n).
Proof.
  unfold toString_or_empty, optional_toString, String_truthy.
  repeat split; try reflexivity; intros x.
  - destruct (String.eqb_spec x ""); [subst|]; reflexivity.
  - destruct (String.eqb_spec (Number_toString rt x) "") as [->|]; reflexivity.
Qed.








End RenderData.

(** ** The HTML merge *)

Lemma replace_loop_absent (pattern : list ascii) (replacement str : string)
    (rest : string) (pos : nat) :
  occursb pattern rest = false ->
  replace_loop pattern replacement str pos 0 rest = rest.
Proof.
  revert pos. induction rest as [|c r IH]; intros pos H; cbn [replace_loop].
  - reflexivity.
  - cbn [occursb] in H. apply orb_false_iff in H. destruct H as [H1 H2].
    rewrite H1, IH by exact H2. reflexivity.
Qed.

Lemma String_replace_absent (str : string) (pattern : list ascii)
    (replacement : string) :
  occursb pattern str = false -> String_replace str pattern replacement = str.
Proof. apply replace_loop_absent. Qed.

Lemma match_here_app (p q : list ascii) (s : string) :
  match_here (p ++ q) s = true -> match_here p s = true.
Proof.
  revert s. induction p as [|a p IH]; intros s; cbn [app match_here].
  - destruct s; reflexivity.
  - destruct s as [|c s]; [discriminate|].
    intros H. apply andb_true_iff in H. destruct H as [H1 H2].
    rewrite H1, (IH s H2). reflexivity.
Qed.

Lemma occursb_app (p q : list ascii) (s : string) :
  occursb p s = false -> occursb (p ++ q) s = false.
Proof.
  induction s as [|c s IH]; cbn [occursb]; intros H;
    apply orb_false_iff in H; destruct H as [H1 H2]; apply orb_false_iff.
  - split; [|reflexivity].
    destruct (match_here (p ++ q) EmptyString) eqn:E; [|reflexivity].
    apply match_here_app in E. congruence.
  - split; [|auto].
    destruct (match_here (p ++ q) (String c s)) eqn:E; [|reflexivity].
    apply match_here_app in E. congruence.
Qed.

Lemma occursb_cons (a : ascii) (p : list ascii) (s : string) :
  occursb p s = false -> occursb (a :: p) s = false.
Proof.
  induction s as [|c s IH]; cbn [occursb match_here]; intros H.
  - reflexivity.
  - apply orb_false_iff in H. destruct H as [H1 H2].
    rewrite (IH H2), orb_false_r.
    destruct (match_here p s) eqn:E; [|apply andb_false_r].
    exfalso. destruct s as [|c' s']; cbn [occursb] in H2;
      rewrite E in H2; discriminate.
Qed.

Lemma RegExp_literals_plain (key rest : string) :
  plain_key key = true ->
  RegExp_literals (key ++ rest)
  = option_map (app (list_ascii_of_string key)) (RegExp_literals rest).
Proof.
  unfold plain_key.
  induction key as [|c key IH]; cbn [append list_ascii_of_string forallb];
    intros H.
  - destruct (RegExp_literals rest); reflexivity.
  - apply andb_true_iff in H. destruct H as [Hc Hk].
    apply negb_true_iff in Hc. cbn [RegExp_literals].
    assert ((c =? "\")%char = false) as ->.
    { destruct (Ascii.eqb_spec c "\"%char) as [->|]; [|reflexivity].
      discriminate. }
    rewrite Hc, (IH Hk). destruct (RegExp_literals rest); reflexivity.
Qed.

(** The three patterns of a plain key. *)
Lemma RegExp_gi_plain (key : string) :
  plain_key key = true ->
  RegExp_gi ("\{" ++ key ++ "\}")
  = Some ("{"%char :: list_ascii_of_string key ++ ["}"%char])
  /\ RegExp_gi ("\{\{" ++ key ++ "\}\}")
     = Some ("{"%char :: "{"%char :: list_ascii_of_string key ++ ["}"%char; "}"%char])
  /\ RegExp_gi ("\[" ++ key ++ "\]")
     = Some ("["%char :: list_ascii_of_string key ++ ["]"%char]).
Proof.
  intros H. unfold RegExp_gi. cbn [append RegExp_literals].
  cbn. rewrite !(RegExp_literals_plain _ _ H). cbn. auto.
Qed.

(** *** A placeholder without a column stays in the merged text *)

Lemma all_ascii_In (a : ascii) : In a all_ascii.
Proof.
  unfold all_ascii. rewrite <- (ascii_nat_embedding a). apply in_map.
  apply in_seq. pose proof (nat_ascii_bounded a). lia.
Qed.

Lemma for_all_ascii (f : ascii -> bool) :
  forallb f all_ascii = true -> forall a, f a = true.
Proof. intros H a. rewrite forallb_forall in H. apply H. apply all_ascii_In. Qed.

(** Two characters match under the [i] flag when their lower cases agree. *)
Lemma canonicalize_lower (a b : ascii) :
  (canonicalize a =? canonicalize b)%char = (lower_char a =? lower_char b)%char.
Proof.
  assert (forall a,
             forallb (fun b => Bool.eqb (canonicalize a =? canonicalize b)%char
                                        (lower_char a =? lower_char b)%char)
                     all_ascii = true) as H.
  { apply for_all_ascii. vm_compute. reflexivity. }
  apply Bool.eqb_prop. exact (for_all_ascii _ (H a) b).
Qed.

(** A bracket matches no word character and no character of a plain key. *)
Lemma bracket_apart (a x : ascii) :
  is_bracket x = true ->
  is_word_char a = true \/ is_syntax_char a = false ->
  (canonicalize a =? canonicalize x)%char = false
  /\ (canonicalize x =? canonicalize a)%char = false.
Proof.
  assert (forall a,
             forallb (fun x =>
                        implb (is_bracket x
                               && (is_word_char a || negb (is_syntax_char a)))
                              (negb (canonicalize a =? canonicalize x)%char
                               && negb (canonicalize x =? canonicalize a)%char))
                     all_ascii = true) as H.
  { apply for_all_ascii. vm_compute. reflexivity. }
  intros Hx Ha. pose proof (for_all_ascii _ (H a) x) as E. cbv beta in E.
  rewrite Hx in E.
  assert (is_word_char a || negb (is_syntax_char a) = true) as Ha'.
  { destruct Ha as [-> | ->]; [reflexivity|apply orb_true_r]. }
  rewrite Ha' in E. cbn [andb implb] in E. apply andb_true_iff in E.
  destruct E as [E1 E2]. apply negb_true_iff in E1. apply negb_true_iff in E2.
  auto.
Qed.

Lemma append_length (u v : string) :
  String.length (u ++ v) = String.length u + String.length v.
Proof. induction u as [|c u IH]; cbn [append String.length]; lia. Qed.

Lemma append_assoc (u v w : string) : ((u ++ v) ++ w = u ++ (v ++ w))%string.
Proof. induction u as [|c u IH]; cbn [append]; [reflexivity|]. rewrite IH. reflexivity. Qed.

Section Keeps.

Variables (pattern : list ascii) (tok : string).

(** No match of the pattern starts inside [tok], and a match that starts
    before [tok] ends before it. *)
Hypothesis inside :
  forall v w post, tok = (v ++ w)%string -> w <> "" ->
                   match_here pattern (w ++ post) = false.
Hypothesis before :
  forall u post, match_here pattern (u ++ tok ++ post) = true ->
                 List.length pattern <= String.length u.

Lemma replace_loop_through (replacement str : string) (w v post : string)
    (pos : nat) :
  tok = (v ++ w)%string ->
  replace_loop pattern replacement str pos 0 (w ++ post)
  = (w ++ replace_loop pattern replacement str (pos + String.length w) 0 post)%string.
Proof.
  revert v pos. induction w as [|b w IH]; intros v pos Hv; cbn [append String.length].
  - rewrite Nat.add_0_r. reflexivity.
  - cbn [replace_loop].
    change (String b (w ++ post)) with (String b w ++ post)%string.
    rewrite (inside v (String b w) post Hv) by discriminate.
    rewrite (IH (v ++ String b "")%string).
    + replace (S pos + String.length w) with (pos + S (String.length w)) by lia.
      reflexivity.
    + rewrite Hv, append_assoc. reflexivity.
Qed.



End Keeps.

(** An opening bracket matches no word character and no closing bracket. *)
Lemma opener_apart (o b : ascii) :
  is_opener o = true -> is_word_char b || is_closer b = true ->
  (canonicalize o =? canonicalize b)%char = false.
Proof.
  assert (forall o,
             forallb (fun b =>
                        implb (is_opener o && (is_word_char b || is_closer b))
                              (negb (canonicalize o =? canonicalize b)%char))
                     all_ascii = true) as H.
  { apply for_all_ascii. vm_compute. reflexivity. }
  intros Ho Hb. pose proof (for_all_ascii _ (H o) b) as E. cbv beta in E.
  rewrite Ho, Hb in E. cbn [andb implb] in E. apply negb_true_iff in E. exact E.
Qed.

Lemma opener_bracket (o : ascii) : is_opener o = true -> is_bracket o = true.
Proof.
  unfold is_opener, is_bracket. cbn [existsb]. intros H.
  apply orb_true_iff in H. destruct H as [-> | ->];
    rewrite ?orb_true_r; reflexivity.
Qed.

Lemma closer_bracket (c : ascii) : is_closer c = true -> is_bracket c = true.
Proof.
  unfold is_closer, is_bracket. cbn [existsb]. intros H.
  apply orb_true_iff in H. destruct H as [-> | ->];
    rewrite ?orb_true_r; reflexivity.
Qed.

Lemma string_forallb_app (f : ascii -> bool) (u v : string) :
  string_forallb f (u ++ v) = string_forallb f u && string_forallb f v.
Proof.
  induction u as [|a u IH]; cbn [append string_forallb]; [reflexivity|].
  rewrite IH, andb_assoc. reflexivity.
Qed.

Lemma plain_key_chars (key : string) :
  plain_key key = string_forallb (fun a => negb (is_syntax_char a)) key.
Proof.
  unfold plain_key.
  induction key as [|a key IH]; cbn [list_ascii_of_string forallb string_forallb];
    [reflexivity|]. rewrite IH. reflexivity.
Qed.

(** A key that matches a word up to its closing bracket equals the word up
    to letter case. *)
Lemma match_key_word (key p : string) (c' c : ascii) (rest : list ascii)
    (post : string) :
  plain_key key = true -> string_forallb is_word_char p = true ->
  is_bracket c' = true -> is_bracket c = true ->
  match_here (list_ascii_of_string key ++ c' :: rest) (p ++ String c post) = true ->
  toLowerCase key = toLowerCase p.
Proof.
  rewrite plain_key_chars. intros Hkey Hp Hc' Hc. revert p Hp.
  induction key as [|a key IH]; intros p Hp;
    cbn [list_ascii_of_string app string_forallb] in *.
  - destruct p as [|b p]; [reflexivity|].
    cbn [append match_here string_forallb] in *.
    apply andb_true_iff in Hp. destruct Hp as [Hb _].
    destruct (bracket_apart b c' Hc' (or_introl Hb)) as [_ E]. rewrite E.
    discriminate.
  - apply andb_true_iff in Hkey. destruct Hkey as [Ha Hkey].
    apply negb_true_iff in Ha.
    destruct p as [|b p]; cbn [append match_here string_forallb toLowerCase] in *.
    + destruct (bracket_apart a c Hc (or_intror Ha)) as [E _]. rewrite E.
      discriminate.
    + apply andb_true_iff in Hp. destruct Hp as [_ Hp].
      intros H. apply andb_true_iff in H. destruct H as [H1 H2].
      rewrite canonicalize_lower in H1. apply Ascii.eqb_eq in H1.
      rewrite H1, (IH Hkey p Hp H2). reflexivity.
Qed.



Section Tokens.

Variables (o c : ascii) (p : string).
Hypothesis Ho : is_opener o = true.
Hypothesis Hc : is_closer c = true.
Hypothesis Hp : string_forallb is_word_char p = true.
Hypothesis Hne : p <> "".

Let tok : string := placeholder_text o p c.

Lemma tail_heads (v w : string) :
  (p ++ String c "")%string = (v ++ w)%string ->
  match w with
  | EmptyString => True
  | String b _ => is_word_char b || is_closer b = true
  end.
Proof.
  intros E.
  assert (string_forallb (fun b => is_word_char b || is_closer b)
            (p ++ String c "") = true) as H.
  { rewrite string_forallb_app. apply andb_true_iff. split.
    - clear - Hp. induction p as [|b q IH]; cbn [string_forallb] in *;
        [reflexivity|].
      apply andb_true_iff in Hp. destruct Hp as [Hb Hq].
      rewrite Hb, (IH Hq). reflexivity.
    - cbn [string_forallb]. rewrite Hc, orb_true_r. reflexivity. }
  rewrite E, string_forallb_app in H. apply andb_true_iff in H.
  destruct H as [_ H]. destruct w as [|b w]; [exact I|].
  cbn [string_forallb] in H. apply andb_true_iff in H. apply H.
Qed.

(** A pattern that starts with an opening bracket and does not match at
    the placeholder matches nowhere inside it. *)
Lemma inside_of (o' : ascii) (pattern : list ascii) :
  is_opener o' = true ->
  (forall post, match_here (o' :: pattern) (tok ++ post) = false) ->
  forall v w post, tok = (v ++ w)%string -> w <> "" ->
                   match_here (o' :: pattern) (w ++ post) = false.
Proof.
  intros Ho' Hat v w post E Hw.
  destruct v as [|a v]; cbn [append] in E.
  - subst w. apply Hat.
  - unfold tok, placeholder_text in E. injection E as _ E.
    pose proof (tail_heads v w E) as Hhead.
    destruct w as [|b w]; [congruence|]. cbn [append match_here].
    rewrite (opener_apart o' b Ho' Hhead). reflexivity.
Qed.

Variable key : string.
Hypothesis Hkey : plain_key key = true.
Hypothesis Hdiff : toLowerCase key <> toLowerCase p.

Lemma single_at (o' c' : ascii) (post : string) :
  is_closer c' = true ->
  match_here (o' :: list_ascii_of_string key ++ [c']) (tok ++ post) = false.
Proof.
  intros Hc'. unfold tok, placeholder_text. cbn [append match_here].
  destruct (canonicalize o' =? canonicalize o)%char; [|reflexivity].
  cbn [andb]. rewrite append_assoc. cbn [append].
  destruct (match_here _ _) eqn:E; [|reflexivity].
  exfalso. apply Hdiff.
  apply (match_key_word key p c' c [] post Hkey Hp
           (closer_bracket c' Hc') (closer_bracket c Hc) E).
Qed.




End Tokens.

Section MergeKeeps.

Variable rt : Runtime.
Variables (o c : ascii) (p : string).
Hypothesis Ho : is_opener o = true.
Hypothesis Hc : is_closer c = true.
Hypothesis Hp : string_forallb is_word_char p = true.
Hypothesis Hne : p <> "".



End MergeKeeps.

(** *** The three forms of a token *)

Lemma opener_only (o b : ascii) :
  is_opener o = true -> (b =? o)%char = false ->
  (canonicalize o =? canonicalize b)%char = false.
Proof.
  assert (forall o,
             forallb (fun b => implb (is_opener o && negb (b =? o)%char)
                                     (negb (canonicalize o =? canonicalize b)%char))
                     all_ascii = true) as H.
  { apply for_all_ascii. vm_compute. reflexivity. }
  intros Ho Hb. pose proof (for_all_ascii _ (H o) b) as E. cbv beta in E.
  rewrite Ho, Hb in E. cbn [andb negb implb] in E. apply negb_true_iff in E.
  exact E.
Qed.

Lemma canonicalize_refl (s : string) (t : string) :
  match_here (list_ascii_of_string s) (s ++ t) = true.
Proof.
  induction s as [|a s IH]; cbn [list_ascii_of_string append match_here].
  - reflexivity.
  - rewrite Ascii.eqb_refl, IH. reflexivity.
Qed.

Lemma chars_app (u v : string) :
  list_ascii_of_string (u ++ v)
  = list_ascii_of_string u ++ list_ascii_of_string v.
Proof.
  induction u as [|a u IH]; cbn [append list_ascii_of_string app];
    [reflexivity|]. rewrite IH. reflexivity.
Qed.

Lemma chars_length (s : string) :
  List.length (list_ascii_of_string s) = String.length s.
Proof. induction s as [|a s IH]; cbn; [reflexivity|]. rewrite IH. reflexivity. Qed.

Lemma GetSubstitution_ordinary (matched before after v : string) :
  string_forallb ordinary_char v = true ->
  GetSubstitution matched before after v = v.
Proof.
  induction v as [|a v IH]; cbn [string_forallb GetSubstitution]; intros H;
    [reflexivity|].
  apply andb_true_iff in H. destruct H as [Ha Hv].
  assert ((a =? "$")%char = false) as ->.
  { unfold ordinary_char in Ha. apply negb_true_iff in Ha.
    destruct (a =? "$")%char; [discriminate|reflexivity]. }
  rewrite (IH Hv). reflexivity.
Qed.

Lemma replace_loop_skip_all (pattern : list ascii) (replacement str rest : string)
    (pos skip : nat) :
  String.length rest <= skip ->
  replace_loop pattern replacement str pos skip rest = "".
Proof.
  revert pos skip. induction rest as [|a rest IH]; intros pos skip H;
    cbn [replace_loop]; [reflexivity|].
  cbn [String.length] in H. destruct skip as [|k]; [lia|].
  apply IH. lia.
Qed.

Lemma replace_loop_skip (pattern : list ascii) (replacement str u rest : string)
    (pos : nat) :
  replace_loop pattern replacement str pos (String.length u) (u ++ rest)
  = replace_loop pattern replacement str (pos + String.length u) 0 rest.
Proof.
  revert pos. induction u as [|a u IH]; intros pos; cbn [String.length append].
  - rewrite Nat.add_0_r. reflexivity.
  - cbn [replace_loop]. rewrite IH. f_equal. lia.
Qed.

(** A pattern whose first character matches no character of the text
    occurs nowhere in it. *)
Lemma occursb_head (x : ascii) (pattern : list ascii) (s : string) :
  string_forallb (fun b => negb (canonicalize x =? canonicalize b)%char) s = true ->
  occursb (x :: pattern) s = false.
Proof.
  induction s as [|b s IH]; cbn [string_forallb occursb match_here]; intros H.
  - reflexivity.
  - apply andb_true_iff in H. destruct H as [Hb Hs].
    apply negb_true_iff in Hb. rewrite Hb, (IH Hs). reflexivity.
Qed.

Lemma string_forallb_impl (f g : ascii -> bool) (s : string) :
  (forall a, f a = true -> g a = true) ->
  string_forallb f s = true -> string_forallb g s = true.
Proof.
  intros Hfg. induction s as [|a s IH]; cbn [string_forallb]; [reflexivity|].
  intros H. apply andb_true_iff in H. destruct H as [Ha Hs].
  rewrite (Hfg a Ha), (IH Hs). reflexivity.
Qed.

Lemma ordinary_no_opener (o : ascii) (v : string) :
  is_opener o = true -> string_forallb ordinary_char v = true ->
  string_forallb (fun b => negb (canonicalize o =? canonicalize b)%char) v = true.
Proof.
  intros Ho. apply string_forallb_impl. intros a Ha.
  apply negb_true_iff. apply opener_only; [exact Ho|].
  unfold ordinary_char in Ha. apply negb_true_iff in Ha.
  apply orb_false_iff in Ha. destruct Ha as [Ha H3].
  apply orb_false_iff in Ha. destruct Ha as [_ H2].
  unfold is_opener in Ho. apply orb_true_iff in Ho.
  destruct Ho as [Ho|Ho]; apply Ascii.eqb_eq in Ho; subst o; assumption.
Qed.

Lemma plain_no_opener (o : ascii) (key : string) :
  is_opener o = true -> plain_key key = true ->
  string_forallb (fun b => negb (canonicalize o =? canonicalize b)%char) key = true.
Proof.
  intros Ho. rewrite plain_key_chars. apply string_forallb_impl. intros a Ha.
  apply negb_true_iff in Ha. apply negb_true_iff.
  rewrite Ascii.eqb_sym.
  apply (bracket_apart a o (opener_bracket o Ho) (or_intror Ha)).
Qed.

Lemma append_nil_r (s : string) : (s ++ "")%string = s.
Proof. induction s as [|a s IH]; cbn [append]; [reflexivity|]. rewrite IH. reflexivity. Qed.

Lemma token_chars (o c : ascii) (key : string) :
  o :: list_ascii_of_string key ++ [c]
  = list_ascii_of_string (placeholder_text o key c).
Proof.
  unfold placeholder_text. cbn [list_ascii_of_string]. rewrite chars_app.
  reflexivity.
Qed.

(** A text that is one token of the key becomes the value. *)
Lemma String_replace_token (o c : ascii) (key v : string) :
  string_forallb ordinary_char v = true ->
  String_replace (placeholder_text o key c)
    (o :: list_ascii_of_string key ++ [c]) v = v.
Proof.
  intros Hv. unfold String_replace. rewrite token_chars.
  unfold placeholder_text at 3. cbn [replace_loop].
  change (String o (key ++ String c ""))%string with (placeholder_text o key c).
  rewrite <- (append_nil_r (placeholder_text o key c)) at 2.
  rewrite canonicalize_refl, GetSubstitution_ordinary by exact Hv.
  rewrite replace_loop_skip_all.
  - apply append_nil_r.
  - rewrite chars_length. unfold placeholder_text. cbn [String.length]. lia.
Qed.

Lemma key_head_apart (key : string) (c : ascii) (rest : string) :
  plain_key key = true -> is_closer c = true ->
  match_here (list_ascii_of_string key ++ [c]) (String "{" rest) = false.
Proof.
  rewrite plain_key_chars. intros Hkey Hc.
  destruct key as [|a key]; cbn [list_ascii_of_string app match_here].
  - rewrite Ascii.eqb_sym, (opener_apart "{" c eq_refl); [reflexivity|].
    rewrite Hc. apply orb_true_r.
  - cbn [string_forallb] in Hkey. apply andb_true_iff in Hkey.
    destruct Hkey as [Ha _]. apply negb_true_iff in Ha.
    destruct (bracket_apart a "{" eq_refl (or_intror Ha)) as [E _].
    rewrite E. reflexivity.
Qed.

(** The single-brace pattern takes the inside of a double-brace token and
    leaves its outer braces. *)
Lemma String_replace_inner (key v : string) :
  plain_key key = true -> string_forallb ordinary_char v = true ->
  String_replace ("{{" ++ key ++ "}}")
    ("{"%char :: list_ascii_of_string key ++ ["}"%char]) v
  = ("{" ++ v ++ "}")%string.
Proof.
  intros Hkey Hv. unfold String_replace.
  set (pattern := "{"%char :: list_ascii_of_string key ++ ["}"%char]).
  cbn [append]. cbn [replace_loop].
  assert (match_here pattern (String "{" (String "{" (key ++ "}}"))) = false) as ->.
  { subst pattern. cbn [match_here]. rewrite key_head_apart by auto.
    apply andb_false_r. }
  f_equal.
  assert (String "{" (key ++ "}}") = (placeholder_text "{" key "}" ++ "}")%string)
    as Einner.
  { unfold placeholder_text. cbn [append]. rewrite append_assoc. reflexivity. }
  assert (match_here pattern (String "{" (key ++ "}}")) = true) as ->.
  { rewrite Einner. subst pattern. rewrite token_chars. apply canonicalize_refl. }
  rewrite GetSubstitution_ordinary by exact Hv. f_equal.
  replace (key ++ "}}")%string with ((key ++ "}") ++ "}")%string
    by (rewrite append_assoc; reflexivity).
  replace (List.length pattern - 1) with (String.length (key ++ "}")%string).
  2:{ subst pattern. cbn [List.length]. rewrite length_app, chars_length.
      rewrite append_length. cbn [List.length String.length]. lia. }
  rewrite replace_loop_skip. cbn [replace_loop].
  subst pattern. cbn [match_here]. reflexivity.
Qed.

Section DoubleBrace.

Variable rt : Runtime.
Variables key v : string.
Hypothesis Hkey : plain_key key = true.
Hypothesis Hv : string_forallb ordinary_char v = true.

Lemma merge_key_value (merged : string) :
  merge_key rt [(key, VStr v)] merged key
  = Some (String_replace
            (String_replace
               (String_replace merged
                  ("{"%char :: list_ascii_of_string key ++ ["}"%char]) v)
               ("{"%char :: "{"%char :: list_ascii_of_string key ++ ["}"%char; "}"%char]) v)
            ("["%char :: list_ascii_of_string key ++ ["]"%char]) v).
Proof.
  unfold merge_key. destruct (RegExp_gi_plain key Hkey) as [-> [-> ->]].
  unfold prop. cbn [obj_get]. rewrite String.eqb_refl.
  destruct (toString_or_empty_cases rt) as [_ [_ [-> _]]]. reflexivity.
Qed.

Lemma value_no_opener (o : ascii) (pattern : list ascii) :
  is_opener o = true -> occursb (o :: pattern) v = false.
Proof. intros Ho. apply occursb_head. apply ordinary_no_opener; assumption. Qed.

(** C9. The double-brace form is not substituted as the other two are:
    for a record with one key and a value without dollars and opening
    brackets, the templates [{key}] and [[key]] become the value, and the
    template [{{key}}] becomes the value between braces, because the
    inner [{key}] is replaced first. *)
Theorem mergeCertificate_double_brace_keeps_braces :
  mergeCertificate rt ("{" ++ key ++ "}") [(key, VStr v)] = Some v
  /\ mergeCertificate rt ("[" ++ key ++ "]") [(key, VStr v)] = Some v
  /\ mergeCertificate rt ("{{" ++ key ++ "}}") [(key, VStr v)]
     = Some ("{" ++ v ++ "}")%string.
Proof.
  unfold mergeCertificate. cbn [Object_keys map fst fold_left].
  rewrite !merge_key_value. split; [|split]; f_equal.
  - change ("{" ++ key ++ "}")%string with (placeholder_text "{" key "}").
    rewrite String_replace_token by exact Hv.
    rewrite (String_replace_absent v _ _ (value_no_opener "{" _ eq_refl)).
    rewrite (String_replace_absent v _ _ (value_no_opener "[" _ eq_refl)).
    reflexivity.
  - change ("[" ++ key ++ "]")%string with (placeholder_text "[" key "]").
    assert (forall pattern,
               occursb ("{"%char :: pattern) (placeholder_text "[" key "]") = false)
      as Habsent.
    { intros pattern. apply occursb_head. unfold placeholder_text.
      cbn [string_forallb]. rewrite string_forallb_app.
      rewrite (plain_no_opener "{" key eq_refl Hkey). reflexivity. }
    rewrite !(String_replace_absent _ _ _ (Habsent _)).
    apply String_replace_token. exact Hv.
  - rewrite String_replace_inner by assumption.
    assert (forall o, is_opener o = true ->
              string_forallb
                (fun b => negb (canonicalize o =? canonicalize b)%char)
                (v ++ "}") = true) as Htail.
    { intros o Ho. rewrite string_forallb_app.
      rewrite (ordinary_no_opener o v Ho Hv). cbn [string_forallb andb].
      rewrite (opener_apart o "}" Ho eq_refl). reflexivity. }
    assert (occursb ("{"%char :: "{"%char
                       :: list_ascii_of_string key ++ ["}"%char; "}"%char])
              ("{" ++ v ++ "}") = false) as Hdouble.
    { cbn [append occursb match_here].
      rewrite (occursb_head "{" _ _ (Htail "{"%char eq_refl)).
      rewrite orb_false_r. apply andb_false_iff. right.
      destruct (v ++ "}")%string as [|b t] eqn:E; [reflexivity|].
      cbn [match_here]. pose proof (Htail "{"%char eq_refl) as H.
      try rewrite E in H. cbn [string_forallb] in H.
      apply andb_true_iff in H. destruct H as [H _].
      apply negb_true_iff in H. rewrite H. reflexivity. }
    rewrite (String_replace_absent _ _ _ Hdouble).
    apply String_replace_absent. apply occursb_head.
    cbn [append string_forallb]. rewrite (Htail "["%char eq_refl). reflexivity.
Qed.

End DoubleBrace.

Section MergeFacts.

Variable rt : Runtime.




End MergeFacts.

(** ** Spreadsheet upload *)

Section UploadFacts.

Variable rt : Runtime.

Lemma excel_onload_cases (bstr : string) (w : World) :
  excel_onload rt bstr w
  = match read_rows rt bstr with
    | Throw _ => (Ok tt, excel_alerted w)
    | Ok [] => (Ok tt, w)
    | Ok (first :: rest) =>
        (Ok tt, with_state (excel_loaded rt (first :: rest) first) w)
    end.
Proof.
  unfold excel_onload, try_catch, bind, lift.
  destruct (read_rows rt bstr) as [[|first rest]|e]; reflexivity.
Qed.

Lemma earlier_excel_onload_cases (bstr : string) (w : World) :
  EarlierRevision.excel_onload rt bstr w
  = match read_rows rt bstr with
    | Throw _ => (Ok tt, excel_alerted w)
    | Ok [] => (Ok tt, w)
    | Ok (first :: rest) =>
        (Ok tt,
         with_state
           (fun s =>
              setUploadStatus (fun prev => {| docx := docx prev; excel := true |})
                (setCurrentIndex 0
                   (setExcelColumns (Object_keys first)
                      (setData (first :: rest) s))))
           w)
    end.
Proof.
  unfold EarlierRevision.excel_onload, try_catch, bind, lift.
  destruct (read_rows rt bstr) as [[|first rest]|e]; reflexivity.
Qed.

(** C7. When reading the uploaded workbook throws, [handleExcelUpload]
    alerts the user and changes nothing of the state of the component:
    [data], [excelColumns], [currentIndex], [rangeEnd] and
    [uploadStatus.excel] keep their values. The same holds in the earlier
    revision. *)
Theorem handleExcelUpload_parse_error (bstr message : string) (w : World) :
  read_rows rt bstr = Throw message ->
  (let w' := snd (handleExcelUpload rt (Some bstr) w) in
   handleExcelUpload rt (Some bstr) w = (Ok tt, excel_alerted w)
   /\ alerts w' = alerts w ++ ["Error reading Excel file. Please try again."]
   /\ state w' = state w
   /\ data (state w') = data (state w)
   /\ excelColumns (state w') = excelColumns (state w)
   /\ currentIndex (state w') = currentIndex (state w)
   /\ rangeEnd (state w') = rangeEnd (state w)
   /\ excel (uploadStatus (state w')) = excel (uploadStatus (state w)))
  /\ EarlierRevision.handleExcelUpload rt (Some bstr) w = (Ok tt, excel_alerted w).
Proof.
  intros H. cbn [handleExcelUpload EarlierRevision.handleExcelUpload].
  rewrite excel_onload_cases, earlier_excel_onload_cases, H.
  cbn [snd excel_alerted state alerts]. repeat split; reflexivity.
Qed.

(** C10. A workbook that is read without error and has no data row is
    ignored: no alert, no change of [data], [excelColumns], [currentIndex]
    or [uploadStatus.excel]; the world stays as it was. The same holds in
    the earlier revision. *)
Theorem handleExcelUpload_empty_sheet (bstr : string) (w : World) :
  read_rows rt bstr = Ok [] ->
  (let w' := snd (handleExcelUpload rt (Some bstr) w) in
   handleExcelUpload rt (Some bstr) w = (Ok tt, w)
   /\ alerts w' = alerts w
   /\ data (state w') = data (state w)
   /\ excelColumns (state w') = excelColumns (state w)
   /\ currentIndex (state w') = currentIndex (state w)
   /\ excel (uploadStatus (state w')) = excel (uploadStatus (state w)))
  /\ EarlierRevision.handleExcelUpload rt (Some bstr) w = (Ok tt, w).
Proof.
  intros H. cbn [handleExcelUpload EarlierRevision.handleExcelUpload].
  rewrite excel_onload_cases, earlier_excel_onload_cases, H.
  cbn [snd]. repeat split; reflexivity.
Qed.

(** With at least one row, the upload fills the state. *)
Lemma handleExcelUpload_rows (bstr : string) (w : World)
    (first : CertificateData) (rest : list CertificateData) :
  read_rows rt bstr = Ok (first :: rest) ->
  let w' := snd (handleExcelUpload rt (Some bstr) w) in
  data (state w') = processExcelData rt (first :: rest)
  /\ excelColumns (state w') = Object_keys first
  /\ currentIndex (state w') = 0%Z
  /\ rangeEnd (state w') = Z.of_nat (List.length (first :: rest))
  /\ excel (uploadStatus (state w')) = true
  /\ alerts w' = alerts w.
Proof.
  intros H. cbn [handleExcelUpload]. rewrite excel_onload_cases, H.
  cbn. rewrite length_map. repeat split; reflexivity.
Qed.

End UploadFacts.

(** ** Timers *)

Lemma insert_timer_last (t : Timer) (queue : list Timer) :
  Forall (fun u => due_before u t) queue -> insert_timer t queue = queue ++ [t].
Proof.
  induction 1 as [|u queue Hu _ IH]; cbn [insert_timer app]; [reflexivity|].
  unfold due_before in Hu.
  replace (timer_delay t <? timer_delay u)%Z with false
    by (symmetry; apply Z.ltb_ge; exact Hu).
  rewrite IH. reflexivity.
Qed.

Lemma sorted_app_head (queue : list Timer) (t : Timer) (later : list Timer) :
  StronglySorted due_before (queue ++ t :: later) ->
  Forall (fun u => due_before u t) queue.
Proof.
  induction queue as [|u queue IH]; cbn [app]; intros H; [constructor|].
  apply StronglySorted_inv in H. destruct H as [Hs Hf]. constructor.
  - rewrite Forall_forall in Hf. apply Hf. apply in_or_app. right. left.
    reflexivity.
  - apply IH. exact Hs.
Qed.

(** Timers set in the order in which they are due keep that order. *)
Lemma insert_timers_sorted (new queue : list Timer) :
  StronglySorted due_before (queue ++ new) ->
  fold_left (fun q t => insert_timer t q) new queue = queue ++ new.
Proof.
  revert queue. induction new as [|t new IH]; intros queue H; cbn [fold_left].
  - rewrite app_nil_r. reflexivity.
  - rewrite insert_timer_last by (eapply sorted_app_head; exact H).
    rewrite IH; rewrite <- app_assoc; [reflexivity|exact H].
Qed.

Lemma insert_timer_perm (t : Timer) (queue : list Timer) :
  Permutation (insert_timer t queue) (t :: queue).
Proof.
  induction queue as [|u queue IH]; cbn [insert_timer]; [reflexivity|].
  destruct (timer_delay t <? timer_delay u)%Z; [reflexivity|].
  rewrite IH. apply perm_swap.
Qed.

(** Setting timers adds them to the pending ones and drops none. *)
Lemma insert_timers_perm (new queue : list Timer) :
  Permutation (fold_left (fun q t => insert_timer t q) new queue) (queue ++ new).
Proof.
  revert queue. induction new as [|t new IH]; intros queue; cbn [fold_left].
  - rewrite app_nil_r. reflexivity.
  - rewrite IH, insert_timer_perm. apply Permutation_middle.
Qed.

(** A [forEach] that only sets timers. *)
Lemma forEach_setTimeout {A : Type} (l : list A) (cb : A -> Callback)
    (delay : A -> Z) (w : World) :
  forEach l (fun x => setTimeout (cb x) (delay x)) w
  = (Ok tt,
     {| state := state w; alerts := alerts w; console_errors := console_errors w;
        timers :=
          fold_left (fun q t => insert_timer t q)
            (map (fun x => {| timer_delay := delay x; timer_callback := cb x |}) l)
            (timers w);
        downloads := downloads w |}).
Proof.
  revert w. induction l as [|x l IH]; intros w; cbn [forEach map fold_left].
  - destruct w; reflexivity.
  - unfold bind. cbn [setTimeout]. rewrite IH. reflexivity.
Qed.

Lemma Z_range_succ (lo : Z) (n : nat) :
  Z_range lo (S n) = lo :: Z_range (lo + 1) n.
Proof.
  unfold Z_range. cbn [seq map]. f_equal; [lia|].
  rewrite <- seq_shift, map_map. apply map_ext. intros k. lia.
Qed.

Lemma Z_range_In (lo : Z) (n : nat) (i : Z) :
  In i (Z_range lo n) <-> (lo <= i < lo + Z.of_nat n)%Z.
Proof.
  unfold Z_range. rewrite in_map_iff. split.
  - intros [k [<- Hk]]. apply in_seq in Hk. lia.
  - intros H. exists (Z.to_nat (i - lo)). split; [lia|]. apply in_seq. lia.
Qed.

Lemma Z_range_count (lo : Z) (n : nat) (i : Z) :
  count_occ Z.eq_dec (Z_range lo n) i
  = if ((lo <=? i) && (i <? lo + Z.of_nat n))%Z then 1 else 0.
Proof.
  revert lo. induction n as [|n IH]; intros lo.
  - cbn. destruct (lo <=? i)%Z eqn:E1; destruct (i <? lo + 0)%Z eqn:E2;
      try reflexivity. apply Z.leb_le in E1. apply Z.ltb_lt in E2. lia.
  - rewrite Z_range_succ. cbn [count_occ]. rewrite IH.
    destruct (Z.eq_dec lo i) as [->|Hne].
    + replace (i + 1 <=? i)%Z with false by (symmetry; apply Z.leb_gt; lia).
      replace (i <=? i)%Z with true by (symmetry; apply Z.leb_le; lia).
      replace (i <? i + Z.of_nat (S n))%Z with true
        by (symmetry; apply Z.ltb_lt; lia).
      reflexivity.
    + destruct (lo + 1 <=? i)%Z eqn:E1; destruct (lo <=? i)%Z eqn:E2;
        destruct (i <? lo + 1 + Z.of_nat n)%Z eqn:E3;
        destruct (i <? lo + Z.of_nat (S n))%Z eqn:E4; try reflexivity;
        repeat match goal with
               | H : (_ <=? _)%Z = true |- _ => apply Z.leb_le in H
               | H : (_ <=? _)%Z = false |- _ => apply Z.leb_gt in H
               | H : (_ <? _)%Z = true |- _ => apply Z.ltb_lt in H
               | H : (_ <? _)%Z = false |- _ => apply Z.ltb_ge in H
               end; lia.
Qed.

(** Timers built from increasing integers with a non-decreasing delay are
    in the order in which they are due. *)
Lemma timers_of_range_sorted (mk : Z -> Timer) (lo : Z) (n : nat) :
  (forall i j, (i <= j)%Z -> due_before (mk i) (mk j)) ->
  StronglySorted due_before (map mk (Z_range lo n)).
Proof.
  intros Hmono. revert lo. induction n as [|n IH]; intros lo.
  - constructor.
  - rewrite Z_range_succ. cbn [map]. constructor; [apply IH|].
    apply Forall_forall. intros t Ht. apply in_map_iff in Ht.
    destruct Ht as [j [<- Hj]]. apply Z_range_In in Hj. apply Hmono. lia.
Qed.

Lemma entries_range {A : Type} (l : list A) :
  entries l = combine (Z_range 0 (List.length l)) l.
Proof. reflexivity. Qed.

Lemma entries_nth_error {A : Type} (l : list A) (i : nat) :
  nth_error (entries l) i
  = option_map (fun x => (Z.of_nat i, x)) (nth_error l i).
Proof.
  unfold entries.
  assert (forall k (l : list A) i,
             nth_error (combine (map Z.of_nat (seq k (List.length l))) l) i
             = option_map (fun x => (Z.of_nat (k + i), x)) (nth_error l i)) as H.
  { clear. intros k l. revert k. induction l as [|x l IH]; intros k i.
    - destruct i; reflexivity.
    - cbn [List.length seq map combine]. destruct i as [|i]; cbn [nth_error].
      + rewrite Nat.add_0_r. reflexivity.
      + rewrite IH. replace (S k + i) with (k + S i) by lia. reflexivity. }
  apply (H 0).
Qed.

(** ** Range export *)

Lemma range_loop_for (s : AppState) (i : Z) (w : World) :
  range_loop s i w
  = if (i <? rangeEnd s)%Z
    then range_loop s (i + 1)
           (snd (setTimeout (timer_callback (range_timer s i))
                            (timer_delay (range_timer s i)) w))
    else w.
Proof.
  funelim (range_loop s i w).
  - rewrite e. reflexivity.
  - rewrite e. reflexivity.
Qed.

Lemma range_loop_timers (s : AppState) (n : nat) (i : Z) (w : World) :
  n = Z.to_nat (rangeEnd s - i) ->
  range_loop s i w
  = {| state := state w; alerts := alerts w; console_errors := console_errors w;
       timers := fold_left (fun q t => insert_timer t q)
                   (map (range_timer s) (Z_range i n)) (timers w);
       downloads := downloads w |}.
Proof.
  revert i w. induction n as [|n IH]; intros i w Hn; rewrite range_loop_for.
  - replace (i <? rangeEnd s)%Z with false by (symmetry; apply Z.ltb_ge; lia).
    destruct w; reflexivity.
  - replace (i <? rangeEnd s)%Z with true by (symmetry; apply Z.ltb_lt; lia).
    rewrite IH by lia. rewrite Z_range_succ. reflexivity.
Qed.

Lemma range_timers_sorted (s : AppState) (lo : Z) (n : nat) :
  StronglySorted due_before (map (range_timer s) (Z_range lo n)).
Proof.
  apply timers_of_range_sorted. intros i j Hij.
  unfold due_before, range_timer. cbn [timer_delay]. lia.
Qed.

(** C5. Range export validation: [handleDownloadRange] alerts, and sets no
    timer, exactly when [rangeStart < 1] or [rangeEnd > data.length] or
    [rangeStart > rangeEnd]; otherwise it sets one timer for each 1-based
    index from [rangeStart] to [rangeEnd], [rangeEnd - rangeStart + 1] of
    them, each for the record at that index, and closes the range dialog. *)
Theorem handleDownloadRange_validation (w : World) :
  let s := state w in
  let w' := snd (handleDownloadRange w) in
  let scheduled :=
    map (range_timer s)
      (Z_range (rangeStart s - 1) (Z.to_nat (rangeEnd s - rangeStart s + 1))) in
  fst (handleDownloadRange w) = Ok tt
  /\ (invalid_range s = true <->
      (rangeStart s < 1 \/ rangeEnd s > Z.of_nat (List.length (data s))
       \/ rangeStart s > rangeEnd s)%Z)
  /\ (invalid_range s = true ->
      alerts w' = alerts w ++ ["Invalid range. Please check your input."]
      /\ timers w' = timers w /\ downloads w' = downloads w /\ state w' = s)
  /\ (invalid_range s = false ->
      alerts w' = alerts w
      /\ downloads w' = downloads w
      /\ state w' = setShowRangeDialog false s
      /\ showRangeDialog (state w') = false
      /\ timers w' = fold_left (fun q t => insert_timer t q) scheduled (timers w)
      /\ Permutation (timers w') (timers w ++ scheduled)
      /\ (timers w = [] -> timers w' = scheduled)
      /\ Z.of_nat (List.length scheduled) = (rangeEnd s - rangeStart s + 1)%Z
      /\ (forall k : Z,
             count_occ Z.eq_dec
               (map (fun t => (cb_idx (timer_callback t) + 1)%Z) scheduled) k
             = if ((rangeStart s <=? k) && (k <=? rangeEnd s))%Z then 1 else 0)
      /\ (forall t, In t scheduled ->
             exists record,
               cb_record (timer_callback t) = Some record
               /\ nth_error (data s) (Z.to_nat (cb_idx (timer_callback t)))
                  = Some record)).
Proof.
  intros s w' scheduled.
  assert (invalid_range s = true <->
          (rangeStart s < 1 \/ rangeEnd s > Z.of_nat (List.length (data s))
           \/ rangeStart s > rangeEnd s)%Z) as Hiff.
  { unfold invalid_range. rewrite !orb_true_iff, Z.ltb_lt, !Z.gtb_gt. tauto. }
  assert (handleDownloadRange w
          = if invalid_range s
            then alert "Invalid range. Please check your input." w
            else (Ok tt,
                  with_state (setShowRangeDialog false)
                    (range_loop s (rangeStart s - 1) w))) as Hrun.
  { unfold handleDownloadRange, bind, get_state. fold s.
    destruct (invalid_range s); reflexivity. }
  subst w'. rewrite Hrun.
  destruct (invalid_range s) eqn:Hinv.
  - cbn [alert fst snd alerts timers downloads state].
    split; [reflexivity|]. split; [exact Hiff|].
    split; [auto|discriminate].
  - rewrite (range_loop_timers s (Z.to_nat (rangeEnd s - rangeStart s + 1)))
      by (f_equal; lia).
    fold scheduled.
    cbn [app fst snd with_state alerts timers downloads state].
    assert (rangeStart s >= 1 /\ rangeEnd s <= Z.of_nat (List.length (data s))
            /\ rangeStart s <= rangeEnd s)%Z as [H1 [H2 H3]].
    { destruct (Z.lt_ge_cases (rangeStart s) 1);
        destruct (Z.lt_ge_cases (Z.of_nat (List.length (data s))) (rangeEnd s));
        destruct (Z.lt_ge_cases (rangeEnd s) (rangeStart s));
        try lia; exfalso;
        assert (invalid_range s = true) by (apply Hiff; lia); congruence. }
    split; [reflexivity|]. split; [exact Hiff|]. split; [discriminate|].
    intros _.
    split; [reflexivity|]. split; [reflexivity|]. split; [reflexivity|].
    split; [reflexivity|]. split; [reflexivity|].
    split; [apply insert_timers_perm|].
    split; [|split; [|split]].
    + intros Hq. rewrite Hq. apply (insert_timers_sorted _ []).
      apply range_timers_sorted.
    + subst scheduled. rewrite length_map. unfold Z_range.
      rewrite length_map, length_seq. lia.
    + intros k. subst scheduled. rewrite map_map.
      cbn [range_timer timer_callback cb_idx].
      rewrite <- (map_map (fun i => i) (fun i => (i + 1)%Z)), map_id.
      assert (map (fun i => (i + 1)%Z)
                (Z_range (rangeStart s - 1)
                   (Z.to_nat (rangeEnd s - rangeStart s + 1)))
              = Z_range (rangeStart s)
                  (Z.to_nat (rangeEnd s - rangeStart s + 1))) as ->.
      { unfold Z_range. rewrite map_map. apply map_ext. intros; lia. }
      rewrite Z_range_count.
      replace (rangeStart s + Z.of_nat (Z.to_nat (rangeEnd s - rangeStart s + 1)))%Z
        with (rangeEnd s + 1)%Z by lia.
      destruct (rangeStart s <=? k)%Z; [|reflexivity]. cbn [andb].
      destruct (k <? rangeEnd s + 1)%Z eqn:E1; destruct (k <=? rangeEnd s)%Z eqn:E2;
        try reflexivity.
      * apply Z.ltb_lt in E1. apply Z.leb_gt in E2. lia.
      * apply Z.ltb_ge in E1. apply Z.leb_le in E2. lia.
    + intros t Ht. subst scheduled. apply in_map_iff in Ht.
      destruct Ht as [i [<- Hi]].
      apply Z_range_In in Hi. cbn [range_timer timer_callback cb_record cb_idx].
      unfold at_index.
      replace (i <? 0)%Z with false by (symmetry; apply Z.ltb_ge; lia).
      destruct (nth_error (data s) (Z.to_nat i)) as [record|] eqn:E.
      * exists record. auto.
      * apply nth_error_None in E. lia.
Qed.

(** ** Download of all records *)

Section DownloadFacts.

Variable rt : Runtime.

Lemma run_callback_cases (t : Timer) (w : World) :
  run_callback rt (timer_callback t) w
  = (Ok tt,
     {| state := state w; alerts := alerts w;
        console_errors := console_errors w ++ logged rt t;
        timers := timers w;
        downloads := downloads w ++ downloaded rt t |}).
Proof.
  unfold run_callback, try_catch, bind, lift, logged, downloaded.
  destruct (certificate_file rt (timer_callback t)) as [file|e];
    cbn [downloadDocx saveAs console_error]; rewrite app_nil_r;
    destruct w; reflexivity.
Qed.

Lemma run_timers_all (w : World) :
  run_timers rt w
  = {| state := state w; alerts := alerts w;
       console_errors := console_errors w ++ flat_map (logged rt) (timers w);
       timers := [];
       downloads := downloads w ++ flat_map (downloaded rt) (timers w) |}.
Proof.
  unfold run_timers.
  generalize (timers w) as ts.
  generalize (console_errors w) as errs. generalize (downloads w) as files.
  intros files errs ts. revert files errs.
  induction ts as [|t ts IH]; intros files errs; cbn [fold_left flat_map].
  - rewrite !app_nil_r. reflexivity.
  - rewrite run_callback_cases. cbn [snd state alerts console_errors timers downloads].
    rewrite IH, <- !app_assoc. reflexivity.
Qed.

Lemma all_timers_sorted (s : AppState) (l : list CertificateData) (k : nat) :
  StronglySorted due_before
    (map (all_timer s) (combine (map Z.of_nat (seq k (List.length l))) l))
  /\ Forall (fun t => (Z.of_nat k * 500 <= timer_delay t)%Z)
       (map (all_timer s) (combine (map Z.of_nat (seq k (List.length l))) l)).
Proof.
  revert k. induction l as [|x l IH]; intros k;
    cbn [List.length seq map combine].
  - split; constructor.
  - destruct (IH (S k)) as [Hs Hf]. split.
    + constructor; [exact Hs|].
      eapply Forall_impl; [|exact Hf]. intros t Ht. cbv beta in Ht.
      unfold due_before. cbn [all_timer timer_delay fst]. lia.
    + constructor; [cbn [all_timer timer_delay fst]; lia|].
      eapply Forall_impl; [|exact Hf]. intros t Ht. cbv beta in Ht. lia.
Qed.

Lemma certificate_name_cases (record : CertificateData) (idx : Z) :
  (truthy (prop record "name") = true ->
   certificate_name record idx = prop record "name")
  /\ (truthy (prop record "name") = false ->
      truthy (prop record "Name") = true ->
      certificate_name record idx = prop record "Name")
  /\ (truthy (prop record "name") = false ->
      truthy (prop record "Name") = false ->
      certificate_name record idx
      = VStr ("certificate_" ++ Z_toString (idx + 1))).
Proof.
  unfold certificate_name, js_or.
  repeat split; intros H; try intros H'; rewrite H; try rewrite H'; reflexivity.
Qed.

Lemma forEach_ext {A : Type} (l : list A) (f g : A -> M unit) :
  (forall x, f x = g x) -> forEach l f = forEach l g.
Proof.
  intros H. induction l as [|x l IH]; cbn [forEach]; [reflexivity|].
  rewrite H, IH. reflexivity.
Qed.

Lemma handleDownloadAll_timers (w : World) :
  handleDownloadAll w
  = (Ok tt,
     {| state := state w; alerts := alerts w; console_errors := console_errors w;
        timers := fold_left (fun q t => insert_timer t q)
                    (map (all_timer (state w)) (entries (data (state w))))
                    (timers w);
        downloads := downloads w |}).
Proof.
  unfold handleDownloadAll, bind, get_state.
  rewrite (forEach_ext _ _
             (fun e => setTimeout (timer_callback (all_timer (state w) e))
                                  (timer_delay (all_timer (state w) e))))
    by (intros [idx record]; reflexivity).
  rewrite forEach_setTimeout.
  rewrite (map_ext _ (all_timer (state w))) by (intros [idx record]; reflexivity).
  reflexivity.
Qed.

(** C6, as the code has it. [handleDownloadAll] sets one timer per record,
    in record order, due 500 ms apart. A timer that fires generates the
    document of its record and downloads it under the record's [name] when
    that is truthy, else under its [Name] when that is truthy, else as
    certificate_<index + 1>; when the generation throws, the error is
    logged, nothing is downloaded for that record, and the other timers are
    not affected. *)
Theorem handleDownloadAll_one_per_record (w : World) :
  let s := state w in
  let w1 := snd (handleDownloadAll w) in
  let w2 := run_timers rt w1 in
  let scheduled := map (all_timer s) (entries (data s)) in
  fst (handleDownloadAll w) = Ok tt
  /\ timers w1 = fold_left (fun q t => insert_timer t q) scheduled (timers w)
  /\ Permutation (timers w1) (timers w ++ scheduled)
  /\ List.length scheduled = List.length (data s)
  /\ (forall i record,
         nth_error (data s) i = Some record ->
         nth_error scheduled i = Some (all_timer s (Z.of_nat i, record)))
  /\ state w1 = s /\ alerts w1 = alerts w /\ downloads w1 = downloads w
  /\ console_errors w1 = console_errors w
  /\ (timers w = [] ->
      timers w1 = scheduled
      /\ downloads w2 = downloads w ++ flat_map (downloaded rt) scheduled
      /\ console_errors w2 = console_errors w ++ flat_map (logged rt) scheduled
      /\ timers w2 = [] /\ state w2 = s /\ alerts w2 = alerts w)
  /\ (forall idx record blob,
         generateDocx rt (docxBinary s) (placeholders s) record = Ok blob ->
         exists filename,
           value_toString rt (certificate_name record idx) = Ok filename
           /\ downloaded rt (all_timer s (idx, record))
              = [(blob, (filename ++ ".docx")%string)]
           /\ logged rt (all_timer s (idx, record)) = [])
  /\ (forall idx record message,
         generateDocx rt (docxBinary s) (placeholders s) record = Throw message ->
         downloaded rt (all_timer s (idx, record)) = []
         /\ logged rt (all_timer s (idx, record))
            = [("Error generating certificate " ++ Z_toString (idx + 1) ++ ":")%string])
  /\ (forall idx record,
         (truthy (prop record "name") = true ->
          certificate_name record idx = prop record "name")
         /\ (truthy (prop record "name") = false ->
             truthy (prop record "Name") = true ->
             certificate_name record idx = prop record "Name")
         /\ (truthy (prop record "name") = false ->
             truthy (prop record "Name") = false ->
             certificate_name record idx
             = VStr ("certificate_" ++ Z_toString (idx + 1)))).
Proof.
  intros s w1 w2 scheduled. subst w2 w1.
  rewrite run_timers_all, (handleDownloadAll_timers w).
  cbn [fst snd state alerts console_errors timers downloads].
  fold s. fold scheduled.
  split; [reflexivity|]. split; [reflexivity|].
  split; [apply insert_timers_perm|].
  split.
  { subst scheduled. rewrite length_map. unfold entries.
    rewrite length_combine, length_map, length_seq. lia. }
  split.
  { intros i record Hi. subst scheduled.
    rewrite nth_error_map, entries_nth_error, Hi. reflexivity. }
  split; [reflexivity|]. split; [reflexivity|]. split; [reflexivity|].
  split; [reflexivity|].
  split.
  { intros Hq. rewrite Hq.
    rewrite (insert_timers_sorted scheduled [])
      by (apply (all_timers_sorted s (data s) 0)).
    cbn [app]. repeat split; reflexivity. }
  split; [|split].
  - intros idx record blob Hgen.
    assert (exists filename,
               value_toString rt (certificate_name record idx) = Ok filename)
      as [filename Hname].
    { unfold certificate_name, js_or, value_toString.
      destruct (prop record "name") as [| |s1|n1] eqn:E1; cbn [truthy];
        try (destruct (prop record "Name") as [| |s2|n2] eqn:E2; cbn [truthy]);
        repeat match goal with
               | |- context [if ?b then _ else _] => destruct b
               end; cbn [optional_toString]; eauto. }
    exists filename. unfold downloaded, logged, certificate_file.
    cbn [all_timer timer_callback cb_record cb_docxBinary cb_placeholders cb_idx
         fst snd].
    rewrite Hgen, Hname. auto.
  - intros idx record message Hgen. unfold downloaded, logged, certificate_file.
    cbn [all_timer timer_callback cb_record cb_docxBinary cb_placeholders cb_idx
         fst snd].
    rewrite Hgen. split; reflexivity.
  - intros idx record. apply certificate_name_cases.
Qed.

End DownloadFacts.

(** ** Runs of the merge and of the scan *)







(** ** Saved templates *)

Lemma trimEnd_empty (s : string) :
  trimEnd s = "" <-> string_forallb is_white_space s = true.
Proof.
  induction s as [|c s IH]; cbn [trimEnd string_forallb]; [tauto|].
  destruct (trimEnd s) as [|d r] eqn:E.
  - destruct (is_white_space c); cbn [andb].
    + split; [intros _; apply IH; reflexivity|reflexivity].
    + split; discriminate.
  - split; [discriminate|]. intros H. apply andb_true_iff in H.
    destruct H as [_ H]. apply IH in H. discriminate.
Qed.

Lemma trimStart_white (s : string) :
  string_forallb is_white_space (trimStart s) = string_forallb is_white_space s.
Proof.
  induction s as [|c s IH]; cbn [trimStart string_forallb]; [reflexivity|].
  destruct (is_white_space c) eqn:E; cbn [andb string_forallb].
  - exact IH.
  - rewrite E. reflexivity.
Qed.

(** A name is blank for [saveTemplate] when it holds white space only. *)
Lemma trim_empty (s : string) :
  String_truthy (trim s) = false <-> string_forallb is_white_space s = true.
Proof.
  unfold String_truthy, trim. rewrite negb_false_iff, String.eqb_eq.
  rewrite trimEnd_empty. rewrite trimStart_white. tauto.
Qed.

Lemma templatesWithBinary_templatesForStorage (templates : list SavedTemplate) :
  templatesWithBinary (templatesForStorage templates) = Some templates.
Proof.
  induction templates as [|t templates IH]; [reflexivity|].
  cbn [templatesForStorage map templatesWithBinary] in *.
  cbn [stored_binary stored_id stored_name stored_html stored_placeholders
       stored_uploadDate].
  rewrite base64ToArrayBuffer_arrayBufferToBase64.
  unfold templatesForStorage in IH. rewrite IH. destruct t; reflexivity.
Qed.

Section TemplateFacts.

Variable rt : Runtime.
Variable env : Environment.

(** X6. [saveTemplate] saves nothing when the name holds white space only
    or when no template binary is loaded: state and storage stay as they
    are and one alert is shown, the one about the name when both apply. *)
Theorem saveTemplate_refuses (now : number) (uploadDate : string) (p : Page) :
  let s := state (world p) in
  string_forallb is_white_space (templateName s) = true \/ docxBinary s = None ->
  saveTemplate rt env now uploadDate p
  = (Ok tt,
     handle (alert (if string_forallb is_white_space (templateName s)
                    then "Please enter a template name"
                    else "No template to save")) p).
Proof.
  intros s H. unfold saveTemplate, page_bind, in_world, get_state.
  fold s. destruct (string_forallb is_white_space (templateName s)) eqn:E.
  - apply trim_empty in E. rewrite E. reflexivity.
  - destruct H as [H|H]; [discriminate|].
    assert (String_truthy (trim (templateName s)) = true) as ->.
    { destruct (String_truthy (trim (templateName s))) eqn:T; [reflexivity|].
      apply trim_empty in T. congruence. }
    cbn [negb]. rewrite H. reflexivity.
Qed.

(** X7. A saved template survives a reload of the page. When the name is
    not blank, a binary is loaded and the storage takes the write,
    [saveTemplate] appends the template to the list, selects it and closes
    the dialog; the mount effect of a fresh component then reads the same
    list back from the storage, and [loadTemplate] of the new entry loads
    the binary, the HTML and the placeholders that were saved. *)
Theorem saved_template_survives_reload (now : number) (uploadDate : string)
    (p : Page) (binary : ArrayBuffer) :
  let s := state (world p) in
  let new := saved_template rt now uploadDate binary s in
  let p' := snd (saveTemplate rt env now uploadDate p) in
  string_forallb is_white_space (templateName s) = false ->
  docxBinary s = Some binary ->
  localStorage_write env (templatesForStorage (savedTemplates s ++ [new])) = Ok tt ->
  fst (saveTemplate rt env now uploadDate p) = Ok tt
  /\ savedTemplates (state (world p')) = savedTemplates s ++ [new]
  /\ selectedTemplateId (state (world p')) = Some (Number_toString rt now)
  /\ showSaveDialog (state (world p')) = false
  /\ alerts (world p') = alerts (world p)
  /\ exists q,
       load_saved_templates (fresh_page (certificateTemplates p')) = (Ok tt, q)
       /\ savedTemplates (state (world q)) = savedTemplates s ++ [new]
       /\ let s2 :=
            state (world (step rt env q
                            (LoadTemplate (List.length (savedTemplates s))))) in
          docxBinary s2 = Some binary
          /\ docxHtml s2 = docxHtml s /\ docxTemplate s2 = docxHtml s
          /\ placeholders s2 = placeholders s
          /\ docx (uploadStatus s2) = true
          /\ selectedTemplateId s2 = Some (Number_toString rt now).
Proof.
  intros s new p' Hname Hbin Hwrite. subst p'.
  unfold saveTemplate, page_bind, in_world, get_state. fold s.
  assert (String_truthy (trim (templateName s)) = true) as ->.
  { destruct (String_truthy (trim (templateName s))) eqn:T; [reflexivity|].
    apply trim_empty in T. congruence. }
  cbn [negb]. rewrite Hbin. fold (saved_template rt now uploadDate binary s). fold new.
  cbn [set_state world certificateTemplates]. unfold localStorage_setItem.
  rewrite Hwrite. cbn [fst snd world certificateTemplates with_state state alerts
                       setSavedTemplates setShowSaveDialog setSelectedTemplateId
                       savedTemplates selectedTemplateId showSaveDialog tpl_id new saved_template].
  repeat (split; [reflexivity|]).
  unfold load_saved_templates, page_bind, localStorage_getItem, fresh_page.
  cbn [certificateTemplates]. rewrite templatesWithBinary_templatesForStorage.
  eexists. split; [reflexivity|]. split; [reflexivity|].
  cbn [step in_world set_state world with_state state certificateTemplates
       setSavedTemplates savedTemplates].
  rewrite nth_error_app2 by lia. rewrite Nat.sub_diag. cbn [nth_error].
  cbn. repeat split; reflexivity.
Qed.

(** X8. When the write to the local storage throws, [saveTemplate] ends
    with that error after the list in memory has got the new template: the
    storage keeps the old list, the dialog stays open and the selection is
    unchanged. *)
Theorem saveTemplate_storage_full (now : number) (uploadDate : string)
    (p : Page) (binary : ArrayBuffer) (error : string) :
  let s := state (world p) in
  let new := saved_template rt now uploadDate binary s in
  let p' := snd (saveTemplate rt env now uploadDate p) in
  let s' := state (world p') in
  string_forallb is_white_space (templateName s) = false ->
  docxBinary s = Some binary ->
  localStorage_write env (templatesForStorage (savedTemplates s ++ [new]))
  = Throw error ->
  fst (saveTemplate rt env now uploadDate p) = Throw error
  /\ s' = setSavedTemplates (savedTemplates s ++ [new]) s
  /\ savedTemplates s' = savedTemplates s ++ [new]
  /\ certificateTemplates p' = certificateTemplates p
  /\ showSaveDialog s' = showSaveDialog s
  /\ selectedTemplateId s' = selectedTemplateId s
  /\ alerts (world p') = alerts (world p).
Proof.
  intros s new p' s' Hname Hbin Hwrite. subst s' p'.
  unfold saveTemplate, page_bind, in_world, get_state. fold s.
  assert (String_truthy (trim (templateName s)) = true) as ->.
  { destruct (String_truthy (trim (templateName s))) eqn:T; [reflexivity|].
    apply trim_empty in T. congruence. }
  cbn [negb]. rewrite Hbin. fold (saved_template rt now uploadDate binary s). fold new.
  cbn [set_state world certificateTemplates]. unfold localStorage_setItem.
  rewrite Hwrite. cbn. repeat split; reflexivity.
Qed.

Lemma without_id_In (id : string) (l : list SavedTemplate) (t : SavedTemplate) :
  In t (without_id id l) <-> In t l /\ tpl_id t <> id.
Proof.
  unfold without_id. rewrite filter_In, negb_true_iff, String.eqb_neq. tauto.
Qed.

(** X9. [deleteTemplate], confirmed and written: every saved template of
    the given id is removed and the others stay in their order, the storage
    holds the new list, and a reload would show it. When the deleted
    template was the selected one, the template is unloaded (no binary, no
    HTML, no placeholders, not ready); otherwise the loaded template is
    untouched. Without the confirmation nothing happens. *)
Theorem deleteTemplate_confirmed (id : string) (p : Page) :
  let s := state (world p) in
  let updated := without_id id (savedTemplates s) in
  let p' := snd (deleteTemplate env id true p) in
  let s' := state (world p') in
  localStorage_write env (templatesForStorage updated) = Ok tt ->
  fst (deleteTemplate env id true p) = Ok tt
  /\ deleteTemplate env id false p = (Ok tt, p)
  /\ savedTemplates s' = updated
  /\ (forall t, In t (savedTemplates s') <-> In t (savedTemplates s) /\ tpl_id t <> id)
  /\ certificateTemplates p' = Some (templatesForStorage updated)
  /\ reloaded p' = Some (savedTemplates s')
  /\ (selectedTemplateId s = Some id ->
      s' = unloaded (setSavedTemplates updated s)
      /\ docxBinary s' = None /\ placeholders s' = [] /\ docxHtml s' = ""
      /\ selectedTemplateId s' = None /\ isReady s' = false)
  /\ (selectedTemplateId s <> Some id -> s' = setSavedTemplates updated s)
  /\ data s' = data s /\ currentIndex s' = currentIndex s
  /\ excel (uploadStatus s') = excel (uploadStatus s)
  /\ alerts (world p') = alerts (world p)
  /\ timers (world p') = timers (world p)
  /\ downloads (world p') = downloads (world p).
Proof.
  intros s updated p' s' Hwrite. subst s' p'.
  unfold deleteTemplate, page_bind, in_world, get_state. cbn [negb].
  fold s. fold (without_id id (savedTemplates s)). fold updated.
  cbn [set_state world certificateTemplates]. unfold localStorage_setItem.
  rewrite Hwrite. cbn [world certificateTemplates].
  assert (forall t, In t updated <-> In t (savedTemplates s) /\ tpl_id t <> id)
    as Hin by (intros t; apply without_id_In).
  destruct (selectedTemplateId s) as [selected|] eqn:Hsel.
  - destruct (String.eqb_spec selected id) as [->|Hne].
    + cbn. unfold reloaded. cbn [certificateTemplates].
      rewrite templatesWithBinary_templatesForStorage.
      repeat (split; [first [reflexivity | exact Hin]|]).
      split; [intros _; repeat split; reflexivity|].
      split; [congruence|]. repeat split; reflexivity.
    + cbn. unfold reloaded. cbn [certificateTemplates].
      rewrite templatesWithBinary_templatesForStorage.
      repeat (split; [first [reflexivity | exact Hin]|]).
      split; [intros H; congruence|].
      split; [reflexivity|]. repeat split; reflexivity.
  - cbn. unfold reloaded. cbn [certificateTemplates].
    rewrite templatesWithBinary_templatesForStorage.
    repeat (split; [first [reflexivity | exact Hin]|]).
    split; [discriminate|].
    split; [reflexivity|]. repeat split; reflexivity.
Qed.

(** X10. When the write to the local storage throws, [deleteTemplate]
    stops after the list in memory has lost the template: the storage
    still holds it, and a selected template stays loaded and selected
    although no saved template has its id any more. *)
Theorem deleteTemplate_storage_full (id : string) (p : Page) (error : string) :
  let s := state (world p) in
  let updated := without_id id (savedTemplates s) in
  let p' := snd (deleteTemplate env id true p) in
  let s' := state (world p') in
  localStorage_write env (templatesForStorage updated) = Throw error ->
  fst (deleteTemplate env id true p) = Throw error
  /\ s' = setSavedTemplates updated s
  /\ certificateTemplates p' = certificateTemplates p
  /\ (selectedTemplateId s = Some id ->
      selectedTemplateId s' = Some id
      /\ docxBinary s' = docxBinary s
      /\ forall t, In t (savedTemplates s') -> tpl_id t <> id).
Proof.
  intros s updated p' s' Hwrite. subst s' p'.
  unfold deleteTemplate, page_bind, in_world, get_state. cbn [negb].
  fold s. fold (without_id id (savedTemplates s)). fold updated.
  cbn [set_state world certificateTemplates]. unfold localStorage_setItem.
  rewrite Hwrite. cbn [fst snd world certificateTemplates with_state state].
  repeat (split; [reflexivity|]).
  intros Hsel. cbn [setSavedTemplates selectedTemplateId docxBinary savedTemplates].
  repeat (split; [first [reflexivity | assumption]|]).
  intros t Ht. apply without_id_In in Ht. tauto.
Qed.

End TemplateFacts.

(** ** Template upload *)

Lemma Set_add_NoDup (x : string) (s : list string) :
  NoDup s -> NoDup (Set_add x s).
Proof.
  intros H. unfold Set_add. destruct (existsb (String.eqb x) s) eqn:E; [exact H|].
  apply NoDup_app; [exact H|repeat constructor; intros []|].
  intros y Hy [<-|[]].
  assert (existsb (String.eqb x) s = true) as E'; [|congruence].
  apply existsb_exists. exists x. split; [exact Hy|apply String.eqb_refl].
Qed.

Lemma extractPlaceholders_NoDup (text : string) : NoDup (extractPlaceholders text).
Proof.
  unfold extractPlaceholders. apply (scan_loop_invariant (@NoDup string) text).
  - intros st st' Hbody IH. unfold scan_body in Hbody.
    destruct (placeholderRegex_exec text (lastIndex st)) as [m|]; [|discriminate].
    injection Hbody as <-. cbn [found].
    destruct (group_or (group_or (m_1 m) (m_2 m)) (m_3 m)) as [p|]; [|exact IH].
    destruct (String_truthy p); [|exact IH]. apply Set_add_NoDup. exact IH.
  - constructor.
Qed.

Lemma substring_all (a b : string) :
  substring 0 (String.length a) (a ++ b) = a.
Proof.
  induction a as [|c a IH]; cbn [String.length append substring].
  - destruct b; reflexivity.
  - rewrite IH. reflexivity.
Qed.

Lemma substring_none (n : nat) (s : string) : substring n 0 s = "".
Proof.
  revert n. induction s as [|c s IH]; intros [|n]; cbn [substring];
    try reflexivity. apply IH.
Qed.

(** The extension [.docx] cannot begin inside a name that does not hold it
    and end in an extension put after that name. *)
Lemma prefix_docx_app (s : string) :
  s <> "" -> prefix ".docx" s = false -> prefix ".docx" (s ++ ".docx") = false.
Proof.
  intros Hs H.
  destruct s as [|c1 [|c2 [|c3 [|c4 [|c5 r]]]]]; [congruence|..];
    cbn [append prefix] in *;
    repeat match goal with
           | |- context [ascii_dec ?a ?b] =>
               destruct (ascii_dec a b) as [<-|]; try reflexivity; try discriminate
           | H : context [ascii_dec ?a ?b] |- _ =>
               destruct (ascii_dec a b) as [<-|]; try reflexivity; try discriminate
           end.
  destruct r; discriminate.
Qed.

Lemma indexOf_docx_suffix (base : string) (pos : nat) :
  indexOf ".docx" base pos = None ->
  indexOf ".docx" (base ++ ".docx") pos = Some (pos + String.length base).
Proof.
  revert pos. induction base as [|c base IH]; intros pos H.
  - cbn. f_equal. lia.
  - cbn [indexOf] in H.
    destruct (prefix ".docx" (String c base)) eqn:E; [discriminate|].
    change (indexOf ".docx" (String c base ++ ".docx") pos)
      with (if prefix ".docx" (String c base ++ ".docx") then Some pos
            else indexOf ".docx" (base ++ ".docx") (S pos)).
    rewrite prefix_docx_app by (congruence || exact E).
    rewrite IH by exact H. cbn [String.length]. f_equal. lia.
Qed.

(** A file name that ends in [.docx], and holds no other [.docx], loses
    its extension; a name without [.docx] stays as it is. *)
Lemma String_replace_first_docx (base : string) :
  indexOf ".docx" base 0 = None ->
  String_replace_first (base ++ ".docx") ".docx" "" = base
  /\ String_replace_first base ".docx" "" = base.
Proof.
  intros H. unfold String_replace_first. rewrite H.
  rewrite (indexOf_docx_suffix _ _ H). split; [|reflexivity].
  cbn [Nat.add GetSubstitution]. rewrite substring_all.
  replace (String.length (base ++ ".docx") - (String.length base + String.length ".docx"))
    with 0 by (rewrite append_length; lia).
  rewrite substring_none. cbn [append]. apply append_nil_r.
Qed.

Section UploadTemplateFacts.

Variable env : Environment.

(** The handler is the sequence of its pieces. *)
Lemma handleDocxUpload_pieces (file : File) (w : World) :
  handleDocxUpload env (Some file) w
  = bind (docx_resume_read (file_arrayBuffer file))
      (fun read =>
         match read with
         | Some arrayBuffer => docx_resume_converted env (file_name file) arrayBuffer
         | None => ret tt
         end) w.
Proof.
  unfold handleDocxUpload, docx_resume_read, docx_resume_converted, try_catch,
    bind, lift, ret.
  destruct (file_arrayBuffer file) as [b|e]; cbn [set_state]; [|reflexivity].
  destruct (mammoth_convertToHtml env b) as [html|e]; reflexivity.
Qed.

(** X5. [handleDocxUpload] is not all-or-nothing. Without a file it does
    nothing. When reading the file fails the state is unchanged; when the
    conversion to HTML fails the new binary is already loaded; when the text
    of the document cannot be taken, the binary and the HTML are the new
    ones. In each of these cases the error is logged and alerted once, and
    the placeholders, the upload marks, the selection, the template name
    and the save dialog keep their previous values. *)
Theorem handleDocxUpload_failure (file : File) (w : World) :
  let w' := snd (handleDocxUpload env (Some file) w) in
  let s := state w in
  fst (handleDocxUpload env (Some file) w) = Ok tt
  /\ handleDocxUpload env None w = (Ok tt, w)
  /\ (forall e, file_arrayBuffer file = Throw e ->
      state w' = s /\ docx_alerted w w')
  /\ (forall b e,
         file_arrayBuffer file = Ok b -> mammoth_convertToHtml env b = Throw e ->
         state w' = setDocxBinary (Some b) s /\ docx_alerted w w')
  /\ (forall b html e,
         file_arrayBuffer file = Ok b -> mammoth_convertToHtml env b = Ok html ->
         Docxtemplater_getFullText env b = Throw e ->
         state w' = setDocxTemplate html (setDocxHtml html (setDocxBinary (Some b) s))
         /\ docx_alerted w w')
  /\ ((forall b html text,
          file_arrayBuffer file = Ok b -> mammoth_convertToHtml env b = Ok html ->
          Docxtemplater_getFullText env b = Ok text -> False) ->
      placeholders (state w') = placeholders s
      /\ uploadStatus (state w') = uploadStatus s
      /\ selectedTemplateId (state w') = selectedTemplateId s
      /\ templateName (state w') = templateName s
      /\ showSaveDialog (state w') = showSaveDialog s
      /\ data (state w') = data s
      /\ docx_alerted w w').
Proof.
  intros w' s. subst w'.
  unfold handleDocxUpload, docx_converted, try_catch, bind, lift, ret, docx_alerted.
  destruct (file_arrayBuffer file) as [b|e] eqn:Eb; cbn [set_state].
  - destruct (mammoth_convertToHtml env b) as [html|e] eqn:Eh; cbn [set_state].
    + destruct (Docxtemplater_getFullText env b) as [text|e] eqn:Et; cbn [set_state].
      * split; [reflexivity|]. split; [reflexivity|].
        split; [discriminate|].
        split; [intros ? ? H; injection H as <-; congruence|].
        split; [intros ? ? ? H; injection H as <-; congruence|].
        intros H. exfalso. exact (H b html text eq_refl Eh Et).
      * split; [reflexivity|]. split; [reflexivity|].
        split; [discriminate|].
        split; [intros ? ? H; injection H as <-; congruence|].
        split.
        { intros b' html' e' H H1 H2. injection H as <-.
          rewrite Eh in H1. injection H1 as <-. cbn. auto. }
        intros _. cbn. repeat split; reflexivity.
    + split; [reflexivity|]. split; [reflexivity|].
      split; [discriminate|].
      split.
      { intros b' e' H H1. injection H as <-. cbn. auto. }
      split; [intros ? ? ? H; injection H as <-; congruence|].
      intros _. cbn. repeat split; reflexivity.
  - split; [reflexivity|]. split; [reflexivity|].
    split; [intros e' _; cbn; auto|].
    split; [discriminate|]. split; [discriminate|].
    intros _. cbn. repeat split; reflexivity.
Qed.

(** X4. A template file that is read, converted and scanned without an
    error: [handleDocxUpload] loads its binary and its HTML, stores the
    placeholders of its text without duplicates, marks the template as
    uploaded, clears the selection and opens the save dialog with the file
    name as the proposed name, the extension [.docx] taken off when the
    name ends in it (a name without [.docx] is proposed as it is). The
    spreadsheet side and the saved templates are untouched, and nothing is
    alerted. *)
Theorem handleDocxUpload_success (file : File) (w : World)
    (b : ArrayBuffer) (html text : string) :
  let w' := snd (handleDocxUpload env (Some file) w) in
  let s := state w in
  let s' := state w' in
  file_arrayBuffer file = Ok b ->
  mammoth_convertToHtml env b = Ok html ->
  Docxtemplater_getFullText env b = Ok text ->
  docxBinary s' = Some b /\ docxHtml s' = html /\ docxTemplate s' = html
  /\ placeholders s' = extractPlaceholders text
  /\ NoDup (placeholders s')
  /\ docx (uploadStatus s') = true
  /\ excel (uploadStatus s') = excel (uploadStatus s)
  /\ selectedTemplateId s' = None
  /\ showSaveDialog s' = true
  /\ (forall base, indexOf ".docx" base 0 = None ->
                   (file_name file = (base ++ ".docx")%string \/ file_name file = base) ->
                   templateName s' = base)
  /\ data s' = data s /\ currentIndex s' = currentIndex s
  /\ savedTemplates s' = savedTemplates s
  /\ alerts w' = alerts w /\ console_errors w' = console_errors w
  /\ timers w' = timers w /\ downloads w' = downloads w.
Proof.
  intros w' s s' Hb Hh Ht. subst s' w'.
  unfold handleDocxUpload, docx_converted, try_catch, bind, lift, ret.
  rewrite Hb. cbn [set_state]. rewrite Hh. cbn [set_state]. rewrite Ht.
  cbn. repeat (split; [reflexivity|]).
  split; [apply extractPlaceholders_NoDup|].
  repeat (split; [reflexivity|]).
  split; [|repeat split; reflexivity].
  intros base Hbase [->| ->]; apply String_replace_first_docx; exact Hbase.
Qed.

End UploadTemplateFacts.

(** ** The component as a whole *)

Section Invariants.

Variable rt : Runtime.
Variable env : Environment.

Lemma handleDownloadRange_state (w : World) :
  state (snd (handleDownloadRange w)) = state w
  \/ state (snd (handleDownloadRange w)) = setShowRangeDialog false (state w).
Proof.
  unfold handleDownloadRange, bind, get_state.
  destruct (invalid_range (state w)); [left; reflexivity|right].
  rewrite (range_loop_timers _ _ _ _ eq_refl). reflexivity.
Qed.

Lemma fire_state (n : nat) (w : World) : state (snd (fire rt n w)) = state w.
Proof.
  unfold fire. destruct (nth_error (timers w) n) as [t|]; [|reflexivity].
  rewrite run_callback_cases. reflexivity.
Qed.

Lemma handleDownloadCurrent_state (w : World) :
  state (snd (handleDownloadCurrent rt w)) = state w.
Proof.
  unfold handleDownloadCurrent, bind, get_state, try_catch, lift.
  destruct (certificate_file rt _) as [file|e]; reflexivity.
Qed.

(** What an event can do to the rows, the index of the preview and the
    mark of the spreadsheet. *)
Lemma step_rows (p : Page) (ev : Event) :
  let s := state (world p) in
  let s' := state (world (step rt env p ev)) in
  (data s' = data s /\ currentIndex s' = currentIndex s
   /\ excel (uploadStatus s') = excel (uploadStatus s))
  \/ ((exists first rest, data s' = processExcelData rt (first :: rest))
      /\ currentIndex s' = 0%Z /\ excel (uploadStatus s') = true)
  \/ (data s' = data s /\ excel (uploadStatus s') = excel (uploadStatus s)
      /\ (currentIndex s' = Z.max 0 (currentIndex s - 1)
          \/ currentIndex s'
             = Z.min (Z.of_nat (List.length (data s)) - 1) (currentIndex s + 1))).
Proof.
  intros s s'. subst s s'. destruct ev; cbn [step handle world].
  - left. unfold docx_resume_read, try_catch, bind, lift, ret.
    destruct read; cbn; auto.
  - left. unfold docx_resume_converted, docx_converted, try_catch, bind, lift, ret.
    destruct (mammoth_convertToHtml env arrayBuffer); cbn; auto.
    destruct (Docxtemplater_getFullText env arrayBuffer); cbn; auto.
  - cbn [handleExcelUpload]. rewrite excel_onload_cases.
    destruct (read_rows rt bstr) as [[|first rest]|e]; cbn; auto.
    right. left. split; [exists first, rest; reflexivity|auto].
  - left. unfold saveTemplate, page_bind, in_world, get_state.
    destruct (negb _); [cbn; auto|].
    destruct (docxBinary (state (world p))); [|cbn; auto].
    cbn [set_state world certificateTemplates]. unfold localStorage_setItem.
    destruct (localStorage_write env _); cbn; auto.
  - left. destruct (nth_error _ n); cbn; auto.
  - left. unfold deleteTemplate, page_bind, in_world, get_state.
    destruct confirmed; cbn [negb]; [|cbn; auto].
    cbn [set_state world certificateTemplates]. unfold localStorage_setItem.
    destruct (localStorage_write env _); [|cbn; auto].
    cbn [world certificateTemplates with_state state].
    destruct (selectedTemplateId (state (world p))) as [selected|]; [|cbn; auto].
    cbn [setSavedTemplates selectedTemplateId].
    destruct (selected =? id)%string; cbn; auto.
  - left. cbn; auto.
  - left. cbn; auto.
  - right. right. cbn; auto.
  - right. right. cbn; auto.
  - left. rewrite handleDownloadCurrent_state. auto.
  - left. rewrite handleDownloadAll_timers. cbn; auto.
  - left. destruct (handleDownloadRange_state (world p)) as [-> | ->]; cbn; auto.
  - left. cbn; auto.
  - left. cbn; auto.
  - left. cbn; auto.
  - left. rewrite fire_state. auto.
Qed.

Lemma mount_state (item : option (list StoredTemplate)) (p : Page) :
  load_saved_templates (fresh_page item) = (Ok tt, p) ->
  certificateTemplates p = item
  /\ exists l, reloaded p = Some l
               /\ state (world p) = setSavedTemplates l initial_state
               /\ (item = None -> state (world p) = initial_state).
Proof.
  unfold load_saved_templates, page_bind, localStorage_getItem, fresh_page, reloaded.
  cbn [certificateTemplates]. destruct item as [templates|].
  - destruct (templatesWithBinary templates) as [l|] eqn:E; [|discriminate].
    intros H. injection H as <-. cbn [certificateTemplates]. split; [reflexivity|].
    exists l. split; [exact E|]. split; [reflexivity|discriminate].
  - intros H. injection H as <-. split; [reflexivity|].
    exists []. repeat split; reflexivity.
Qed.

Lemma reachable_preview_in_bounds (p : Page) :
  reachable rt env p -> preview_in_bounds (state (world p)).
Proof.
  intros H. induction H as [item p Hmount|p ev _ IH].
  - apply mount_state in Hmount. destruct Hmount as [_ [l [_ [-> _]]]].
    intros E. discriminate.
  - pose proof (step_rows p ev) as Hstep. cbv zeta in Hstep.
    unfold preview_in_bounds in *.
    destruct Hstep as [[Hd [Hi He]]|[[[first [rest Hd]] [Hi He]]|[Hd [He Hi]]]].
    + rewrite Hd, Hi, He. exact IH.
    + intros _. rewrite Hd, Hi. cbn [processExcelData map List.length].
      split; [discriminate|lia].
    + rewrite Hd, He. intros E. destruct (IH E) as [Hne Hb].
      split; [exact Hne|]. destruct Hi as [-> | ->]; lia.
Qed.

(** The merge throws no SyntaxError when the column names are free of the
    syntax characters of regular expressions. *)
Lemma mergeCertificate_plain (template : string) (record : CertificateData) :
  (forall key, In key (Object_keys record) -> plain_key key = true) ->
  exists merged, mergeCertificate rt template record = Some merged.
Proof.
  unfold mergeCertificate. revert template.
  induction (Object_keys record) as [|key keys IH]; intros template H;
    cbn [fold_left].
  - exists template. reflexivity.
  - unfold merge_key at 2.
    destruct (RegExp_gi_plain key (H key (or_introl eq_refl))) as [-> [-> ->]].
    apply IH. intros k Hk. apply H. right. exact Hk.
Qed.

(** X17. Whatever the sequence of events, once a spreadsheet is marked as
    loaded the rows are not empty and the index of the preview is the index
    of a row: when the component is ready, [data[currentIndex]] is a record,
    and the preview is its merge (which throws no SyntaxError when the
    column names are free of the syntax characters of regular
    expressions). *)
Theorem preview_index_in_bounds (p : Page) :
  reachable rt env p ->
  let s := state (world p) in
  preview_in_bounds s
  /\ (isReady s = true ->
      exists record,
        at_index (data s) (currentIndex s) = Some record
        /\ In record (data s)
        /\ ((forall key, In key (Object_keys record) -> plain_key key = true) ->
            exists merged,
              preview rt s = Some merged
              /\ mergeCertificate rt (docxHtml s) record = Some merged)).
Proof.
  intros H. cbv zeta. pose proof (reachable_preview_in_bounds p H) as Hinv.
  split; [exact Hinv|].
  intros Hready. unfold isReady in Hready. apply andb_true_iff in Hready.
  destruct Hready as [_ He]. destruct (Hinv He) as [_ Hb].
  unfold preview, at_index.
  replace (currentIndex (state (world p)) <? 0)%Z with false
    by (symmetry; apply Z.ltb_ge; lia).
  destruct (nth_error (data (state (world p)))
              (Z.to_nat (currentIndex (state (world p))))) as [record|] eqn:E.
  - exists record. split; [reflexivity|].
    split; [eapply nth_error_In; exact E|].
    intros Hkeys.
    destruct (mergeCertificate_plain (docxHtml (state (world p))) record Hkeys)
      as [merged Hm].
    exists merged. auto.
  - apply nth_error_None in E. lia.
Qed.




(** What an event can do to the list of saved templates and to the local
    storage, when the storage takes every write. *)
Lemma step_templates (p : Page) (ev : Event) :
  storage_accepts env ->
  let s := state (world p) in
  let p' := step rt env p ev in
  (savedTemplates (state (world p')) = savedTemplates s
   /\ certificateTemplates p' = certificateTemplates p)
  \/ certificateTemplates p'
     = Some (templatesForStorage (savedTemplates (state (world p')))).
Proof.
  intros Hacc s p'. subst s p'. destruct ev; cbn [step handle world certificateTemplates].
  - left. unfold docx_resume_read, try_catch, bind, lift, ret.
    destruct read; cbn; auto.
  - left. unfold docx_resume_converted, docx_converted, try_catch, bind, lift, ret.
    destruct (mammoth_convertToHtml env arrayBuffer); cbn; auto.
    destruct (Docxtemplater_getFullText env arrayBuffer); cbn; auto.
  - left. cbn [handleExcelUpload]. rewrite excel_onload_cases.
    destruct (read_rows rt bstr) as [[|first rest]|e]; cbn; auto.
  - unfold saveTemplate, page_bind, in_world, get_state.
    destruct (negb _); [left; cbn; auto|].
    destruct (docxBinary (state (world p))); [|left; cbn; auto].
    cbn [set_state world certificateTemplates]. unfold localStorage_setItem.
    rewrite Hacc. right. reflexivity.
  - left. destruct (nth_error _ n); cbn; auto.
  - unfold deleteTemplate, page_bind, in_world, get_state.
    destruct confirmed; cbn [negb]; [|left; cbn; auto].
    cbn [set_state world certificateTemplates]. unfold localStorage_setItem.
    rewrite Hacc. right.
    cbn [world certificateTemplates with_state state].
    destruct (selectedTemplateId (state (world p))) as [selected|]; [|reflexivity].
    cbn [setSavedTemplates selectedTemplateId].
    destruct (selected =? id)%string; reflexivity.
  - left. cbn; auto.
  - left. cbn; auto.
  - left. cbn; auto.
  - left. cbn; auto.
  - left. rewrite handleDownloadCurrent_state. auto.
  - left. rewrite handleDownloadAll_timers. cbn; auto.
  - left. destruct (handleDownloadRange_state (world p)) as [-> | ->]; cbn; auto.
  - left. cbn; auto.
  - left. cbn; auto.
  - left. cbn; auto.
  - left. rewrite fire_state. auto.
Qed.

(** X20. Whatever the sequence of events, as long as the local storage
    takes every write: the local storage holds the list of saved templates
    that the component shows, so that a reload of the page shows the same
    list, binaries included. *)
Theorem storage_mirrors_saved_templates (p : Page) :
  storage_accepts env ->
  reachable rt env p ->
  reloaded p = Some (savedTemplates (state (world p)))
  /\ exists q,
       load_saved_templates (fresh_page (certificateTemplates p)) = (Ok tt, q)
       /\ savedTemplates (state (world q)) = savedTemplates (state (world p)).
Proof.
  intros Hacc H.
  assert (reloaded p = Some (savedTemplates (state (world p)))) as Hinv.
  { induction H as [item p Hmount|p ev _ IH].
    - apply mount_state in Hmount. destruct Hmount as [_ [l [-> [-> _]]]].
      reflexivity.
    - destruct (step_templates p ev Hacc) as [[Hs Hc]| Hc]; unfold reloaded in *.
      + rewrite Hs, Hc. exact IH.
      + rewrite Hc. apply templatesWithBinary_templatesForStorage. }
  split; [exact Hinv|].
  unfold load_saved_templates, page_bind, localStorage_getItem, fresh_page.
  cbn [certificateTemplates]. unfold reloaded in Hinv.
  destruct (certificateTemplates p) as [templates|].
  - rewrite Hinv. eexists. split; reflexivity.
  - eexists. split; [reflexivity|]. cbn. congruence.
Qed.

Lemma step_selection (p : Page) (ev : Event) :
  storage_accepts env ->
  selection_saved (state (world p)) ->
  selection_saved (state (world (step rt env p ev))).
Proof.
  intros Hacc Hinv. unfold selection_saved in *.
  destruct ev; cbn [step handle world].
  - unfold docx_resume_read, try_catch, bind, lift, ret.
    destruct read; cbn; [|exact Hinv].
    intros id Hid. destruct (Hinv id Hid) as [_ Ht]. split; [discriminate|exact Ht].
  - unfold docx_resume_converted, docx_converted, try_catch, bind, lift, ret.
    destruct (mammoth_convertToHtml env arrayBuffer); cbn; [|exact Hinv].
    destruct (Docxtemplater_getFullText env arrayBuffer); cbn; [discriminate|exact Hinv].
  - cbn [handleExcelUpload]. rewrite excel_onload_cases.
    destruct (read_rows rt bstr) as [[|first rest]|e]; cbn; exact Hinv.
  - unfold saveTemplate, page_bind, in_world, get_state.
    destruct (negb _); [cbn; exact Hinv|].
    destruct (docxBinary (state (world p))) as [binary|] eqn:Hbin;
      [|cbn; rewrite Hbin; exact Hinv].
    cbn [set_state world certificateTemplates]. unfold localStorage_setItem.
    rewrite Hacc. cbn. intros id Hid. injection Hid as <-.
    rewrite Hbin. split; [discriminate|].
    eexists. split; [apply in_or_app; right; left; reflexivity|reflexivity].
  - destruct (nth_error _ n) as [template|] eqn:E; [|exact Hinv].
    cbn. intros id Hid. injection Hid as <-. split; [discriminate|].
    exists template. split; [eapply nth_error_In; exact E|reflexivity].
  - unfold deleteTemplate, page_bind, in_world, get_state.
    destruct confirmed; cbn [negb]; [|cbn; exact Hinv].
    cbn [set_state world certificateTemplates]. unfold localStorage_setItem.
    rewrite Hacc. cbn [world certificateTemplates with_state state].
    destruct (selectedTemplateId (state (world p))) as [selected|] eqn:Hsel.
    + cbn [setSavedTemplates selectedTemplateId].
      destruct (String.eqb_spec selected id) as [->|Hne]; cbn; [discriminate|].
      intros id' Hid'. rewrite Hsel in Hid'. injection Hid' as <-.
      destruct (Hinv selected eq_refl) as [Hb [t [Ht Hi]]].
      split; [exact Hb|]. exists t. split; [|exact Hi].
      apply without_id_In. split; [exact Ht|congruence].
    + cbn. intros id' Hid'. congruence.
  - cbn. exact Hinv.
  - cbn. exact Hinv.
  - cbn. exact Hinv.
  - cbn. exact Hinv.
  - rewrite handleDownloadCurrent_state. exact Hinv.
  - rewrite handleDownloadAll_timers. cbn. exact Hinv.
  - destruct (handleDownloadRange_state (world p)) as [-> | ->]; cbn; exact Hinv.
  - cbn. exact Hinv.
  - cbn. exact Hinv.
  - cbn. exact Hinv.
  - rewrite fire_state. exact Hinv.
Qed.

(** X19. Whatever the sequence of events, as long as the local storage
    takes every write: a selected template id is the id of a saved
    template, and a template binary is loaded. *)
Theorem selected_template_is_saved (p : Page) :
  storage_accepts env ->
  reachable rt env p ->
  selection_saved (state (world p)).
Proof.
  intros Hacc H. induction H as [item p Hmount|p ev _ IH].
  - apply mount_state in Hmount. destruct Hmount as [_ [l [_ [-> _]]]].
    intros id Hid. discriminate.
  - apply step_selection; assumption.
Qed.

End Invariants.

(** ** The single download and the default range *)

Section SingleDownload.

Variable rt : Runtime.

(** The name of a certificate is never undefined: the last alternative is
    a string. *)
Lemma certificate_name_toString (record : CertificateData) (idx : Z) :
  exists filename, value_toString rt (certificate_name record idx) = Ok filename.
Proof.
  unfold certificate_name, js_or, value_toString.
  destruct (truthy (prop record "name")) eqn:E1.
  - destruct (prop record "name"); try discriminate; eexists; reflexivity.
  - destruct (truthy (prop record "Name")) eqn:E2.
    + destruct (prop record "Name"); try discriminate; eexists; reflexivity.
    + eexists; reflexivity.
Qed.

(** X14. [handleDownloadCurrent] never throws, sets no timer and changes no
    state. It downloads one file, the one that the timer of
    [handleDownloadAll] for the same record would download, when the record
    of the preview exists and its document is generated; when no template
    is loaded, when there is no such record, or when the generation throws,
    it downloads nothing, logs the error and shows one alert. *)
Theorem handleDownloadCurrent_one_file (w : World) :
  let s := state w in
  let w' := snd (handleDownloadCurrent rt w) in
  let failed :=
    alerts w'
    = alerts w ++ ["Error generating certificate. Please check your template and data."]
    /\ console_errors w' = console_errors w ++ ["Error generating DOCX:"]
    /\ downloads w' = downloads w in
  fst (handleDownloadCurrent rt w) = Ok tt
  /\ state w' = s /\ timers w' = timers w
  /\ (docxBinary s = None -> failed)
  /\ (at_index (data s) (currentIndex s) = None -> failed)
  /\ (forall record message,
         at_index (data s) (currentIndex s) = Some record ->
         generateDocx rt (docxBinary s) (placeholders s) record = Throw message ->
         failed)
  /\ (forall record blob,
         at_index (data s) (currentIndex s) = Some record ->
         generateDocx rt (docxBinary s) (placeholders s) record = Ok blob ->
         exists filename,
           value_toString rt (certificate_name record (currentIndex s)) = Ok filename
           /\ downloads w' = downloads w ++ [(blob, (filename ++ ".docx")%string)]
           /\ downloads w'
              = downloads w ++ downloaded rt (all_timer s (currentIndex s, record))
           /\ alerts w' = alerts w /\ console_errors w' = console_errors w).
Proof.
  intros s w' failed. subst failed w'.
  unfold handleDownloadCurrent, bind, get_state, try_catch, lift. fold s.
  unfold downloaded, certificate_file.
  cbn [cb_record cb_docxBinary cb_placeholders cb_idx all_timer timer_callback fst snd].
  destruct (at_index (data s) (currentIndex s)) as [record|] eqn:Hrec.
  - destruct (generateDocx rt (docxBinary s) (placeholders s) record) as [blob|e] eqn:Hgen.
    + destruct (certificate_name_toString record (currentIndex s)) as [filename Hname].
      rewrite Hname. cbn.
      repeat (split; [reflexivity|]).
      split.
      { intros Hbin. unfold generateDocx in Hgen. rewrite Hbin in Hgen. discriminate. }
      split; [discriminate|].
      split.
      { intros record' message H. injection H as <-. congruence. }
      intros record' blob' H1 H2. injection H1 as <-.
      rewrite Hgen in H2. injection H2 as <-.
      exists filename. rewrite Hgen, Hname. repeat split; reflexivity.
    + cbn. repeat (split; [reflexivity|]).
      split; [intros _; repeat split; reflexivity|].
      split; [discriminate|].
      split; [intros; repeat split; reflexivity|].
      intros record' blob' H1 H2. injection H1 as <-. congruence.
  - cbn. repeat (split; [reflexivity|]).
    split; [intros _; repeat split; reflexivity|].
    split; [intros _; repeat split; reflexivity|].
    split; discriminate.
Qed.

Lemma range_timers_all (s : AppState) :
  rangeStart s = 1%Z ->
  map (range_timer s) (Z_range 0 (List.length (data s)))
  = map (all_timer s) (entries (data s)).
Proof.
  intros Hstart. apply nth_error_ext. intros i.
  rewrite !nth_error_map, entries_nth_error.
  unfold Z_range. rewrite nth_error_map.
  destruct (nth_error (data s) i) as [record|] eqn:E.
  - assert (i < List.length (data s)) as Hi by (apply nth_error_Some; congruence).
    rewrite nth_error_seq. replace (i <? List.length (data s))%nat with true
      by (symmetry; apply Nat.ltb_lt; exact Hi).
    cbn [option_map]. f_equal. unfold range_timer, all_timer. cbn [fst snd].
    rewrite Hstart. f_equal; [lia|]. f_equal.
    unfold at_index. replace (0 + Z.of_nat (0 + i) <? 0)%Z with false
      by (symmetry; apply Z.ltb_ge; lia).
    replace (Z.to_nat (0 + Z.of_nat (0 + i))) with i by lia. exact E.
  - apply nth_error_None in E. rewrite nth_error_seq.
    replace (i <? List.length (data s))%nat with false
      by (symmetry; apply Nat.ltb_ge; exact E).
    reflexivity.
Qed.

(** X16. With the start of the range at 1, its initial value, and the end
    at the number of rows, where a spreadsheet upload puts it,
    [handleDownloadRange] sets the timers that [handleDownloadAll] sets and
    closes the dialog: right after an upload the default range is the
    whole spreadsheet. *)
Theorem default_range_downloads_all (w : World) :
  let s := state w in
  rangeStart s = 1%Z ->
  (rangeEnd s = Z.of_nat (List.length (data s)) -> data s <> [] ->
   handleDownloadRange w
   = (Ok tt, with_state (setShowRangeDialog false) (snd (handleDownloadAll w))))
  /\ (forall bstr first rest,
         read_rows rt bstr = Ok (first :: rest) ->
         let w1 := snd (handleExcelUpload rt (Some bstr) w) in
         handleDownloadRange w1
         = (Ok tt, with_state (setShowRangeDialog false) (snd (handleDownloadAll w1)))).
Proof.
  intros s Hstart.
  assert (forall w : World,
             rangeStart (state w) = 1%Z ->
             rangeEnd (state w) = Z.of_nat (List.length (data (state w))) ->
             data (state w) <> [] ->
             handleDownloadRange w
             = (Ok tt, with_state (setShowRangeDialog false) (snd (handleDownloadAll w))))
    as Hall.
  { clear. intros w Hstart Hend Hdata.
    unfold handleDownloadRange, bind, get_state.
    assert (invalid_range (state w) = false) as ->.
    { unfold invalid_range. rewrite Hstart, Hend.
      destruct (data (state w)); [congruence|]. cbn [List.length].
      apply orb_false_iff. split; [apply orb_false_iff; split|].
      - reflexivity.
      - rewrite Z.gtb_ltb. apply Z.ltb_ge. lia.
      - rewrite Z.gtb_ltb. apply Z.ltb_ge. lia. }
    rewrite (range_loop_timers _ _ _ _ eq_refl). rewrite handleDownloadAll_timers.
    cbn [set_state snd with_state state alerts console_errors timers downloads].
    rewrite Hstart, Hend. replace (1 - 1)%Z with 0%Z by lia.
    replace (Z.to_nat (Z.of_nat (List.length (data (state w))) - 0))
      with (List.length (data (state w))) by lia.
    rewrite range_timers_all by exact Hstart. reflexivity. }
  split; [apply Hall; exact Hstart|].
  intros bstr first rest Hrows w1. subst w1.
  cbn [handleExcelUpload]. rewrite excel_onload_cases, Hrows.
  apply Hall; cbn.
  - exact Hstart.
  - reflexivity.
  - discriminate.
Qed.

End SingleDownload.

(** ** What the placeholder scan finds *)

Lemma prefix_app (a s : string) :
  prefix a s = true <-> exists rest, s = (a ++ rest)%string.
Proof.
  revert s. induction a as [|c a IH]; intros s.
  - split; [intros _; exists s; reflexivity|]. intros _. destruct s; reflexivity.
  - destruct s as [|d s]; cbn [prefix append].
    + split; [discriminate|]. intros [rest H]. discriminate.
    + destruct (ascii_dec c d) as [<-|Hne].
      * rewrite IH. split; intros [rest H]; exists rest; congruence.
      * split; [discriminate|]. intros [rest H]. congruence.
Qed.

Lemma drop_app (a b : string) : drop (String.length a) (a ++ b) = b.
Proof.
  induction a as [|c a IH]; cbn [String.length append drop]; [|exact IH].
  destruct b; reflexivity.
Qed.

Lemma drop_app_le (n : nat) (a b : string) :
  n <= String.length a -> drop n (a ++ b) = (drop n a ++ b)%string.
Proof.
  revert a. induction n as [|n IH]; intros a H.
  - destruct a; cbn [drop append]; [destruct b|]; reflexivity.
  - destruct a as [|c a]; cbn [String.length] in H; [lia|].
    cbn [drop append]. apply IH. lia.
Qed.

Lemma drop_drop (a b : nat) (s : string) : drop a (drop b s) = drop (b + a) s.
Proof.
  revert s. induction b as [|b IH]; intros s; cbn [Nat.add].
  - destruct s; reflexivity.
  - destruct s as [|c s]; cbn [drop]; [destruct a; reflexivity|apply IH].
Qed.

Lemma drop_split (n : nat) (s : string) : exists pre, s = (pre ++ drop n s)%string.
Proof.
  revert s. induction n as [|n IH]; intros s.
  - exists "". destruct s; reflexivity.
  - destruct s as [|c s]; cbn [drop]; [exists ""; reflexivity|].
    destruct (IH s) as [pre H]. exists (String c pre). cbn [append]. congruence.
Qed.

Lemma drop_length (n : nat) (s : string) :
  String.length s < n -> drop n s = "".
Proof.
  revert s. induction n as [|n IH]; intros s H; [lia|].
  destruct s as [|c s]; cbn [drop]; [reflexivity|].
  apply IH. cbn [String.length] in H. lia.
Qed.

(** *** The pattern at one position *)

Lemma word_plus_then_sound (close s w : string) (n : nat) :
  word_plus_then close s = Some (w, n) ->
  w <> "" /\ string_forallb is_word_char w = true
  /\ n = String.length w + String.length close
  /\ exists rest, s = (w ++ close ++ rest)%string.
Proof.
  revert w n. induction s as [|c r IH]; intros w n; cbn [word_plus_then];
    [discriminate|].
  destruct (is_word_char c) eqn:Hc; [|discriminate].
  destruct (word_plus_then close r) as [[w' n']|].
  - intros H. injection H as <- <-.
    destruct (IH w' n' eq_refl) as [_ [Hw [Hn [rest Hr]]]].
    split; [discriminate|]. cbn [string_forallb String.length append].
    rewrite Hc, Hw. repeat split; [lia|]. exists rest. congruence.
  - destruct (prefix close r) eqn:Hp; [|discriminate].
    intros H. injection H as <- <-. apply prefix_app in Hp.
    destruct Hp as [rest Hr]. split; [discriminate|].
    cbn [string_forallb String.length append]. rewrite Hc.
    repeat split. exists rest. congruence.
Qed.

Lemma word_plus_then_complete (c : ascii) (cl w rest : string) :
  is_word_char c = false ->
  w <> "" -> string_forallb is_word_char w = true ->
  word_plus_then (String c cl) (w ++ String c (cl ++ rest))
  = Some (w, String.length w + String.length (String c cl)).
Proof.
  intros Hc Hne Hw. induction w as [|a w IH]; [congruence|].
  cbn [string_forallb] in Hw. apply andb_true_iff in Hw. destruct Hw as [Ha Hw].
  cbn [append word_plus_then]. rewrite Ha.
  destruct w as [|b w].
  - cbn [append word_plus_then]. rewrite Hc.
    assert (prefix (String c cl) (String c (cl ++ rest)) = true) as ->.
    { apply prefix_app. exists rest. reflexivity. }
    reflexivity.
  - rewrite IH by (discriminate || exact Hw). reflexivity.
Qed.

Lemma group_or_Some (w : string) (b : option string) :
  w <> "" -> group_or (Some w) b = Some w.
Proof.
  intros H. unfold group_or, String_truthy.
  destruct (String.eqb_spec w ""); [congruence|reflexivity].
Qed.

Lemma delimited_sound (f : Form) (s w : string) (n : nat) :
  delimited (form_open f) (form_close f) s = Some (w, n) ->
  w <> "" /\ string_forallb is_word_char w = true
  /\ n = String.length (form_open f) + String.length w + String.length (form_close f)
  /\ exists rest, s = (form_open f ++ w ++ form_close f ++ rest)%string.
Proof.
  unfold delimited. destruct (prefix (form_open f) s) eqn:Hp; [|discriminate].
  apply prefix_app in Hp. destruct Hp as [r ->]. rewrite drop_app.
  destruct (word_plus_then (form_close f) r) as [[w' n']|] eqn:E; [|discriminate].
  intros H. injection H as <- <-. apply word_plus_then_sound in E.
  destruct E as [Hne [Hw [-> [rest ->]]]].
  repeat split; try assumption; [lia|]. exists rest. reflexivity.
Qed.

Lemma delimited_complete (f : Form) (w rest : string) :
  w <> "" -> string_forallb is_word_char w = true ->
  delimited (form_open f) (form_close f)
    (form_open f ++ w ++ form_close f ++ rest)
  = Some (w, String.length (form_open f)
             + (String.length w + String.length (form_close f))).
Proof.
  intros Hne Hw. unfold delimited.
  assert (prefix (form_open f) (form_open f ++ w ++ form_close f ++ rest) = true)
    as -> by (apply prefix_app; eexists; reflexivity).
  rewrite drop_app.
  destruct f; cbn [form_close append];
    [pose proof (word_plus_then_complete "}" "" w rest eq_refl Hne Hw) as E
    |pose proof (word_plus_then_complete "}" "}" w rest eq_refl Hne Hw) as E
    |pose proof (word_plus_then_complete "]" "" w rest eq_refl Hne Hw) as E];
    cbn [append] in E; rewrite E; reflexivity.
Qed.

Lemma placeholder_here_sound (i : nat) (s : string) (m : RegExpMatch) :
  placeholder_here i s = Some m ->
  m_index m = i
  /\ exists f w rest,
       w <> "" /\ string_forallb is_word_char w = true
       /\ group m = Some w
       /\ s = (form_open f ++ w ++ form_close f ++ rest)%string
       /\ m_length m
          = String.length (form_open f) + String.length w
            + String.length (form_close f).
Proof.
  unfold placeholder_here.
  destruct (delimited "{" "}" s) as [[w n]|] eqn:E1.
  - intros H. injection H as <-. split; [reflexivity|].
    apply (delimited_sound Single) in E1. destruct E1 as [Hne [Hw [Hn [rest Hs]]]].
    exists Single, w, rest. unfold group. cbn [m_1 m_2 m_3 m_length].
    rewrite !group_or_Some by exact Hne. repeat split; auto.
  - destruct (delimited "{{" "}}" s) as [[w n]|] eqn:E2.
    + intros H. injection H as <-. split; [reflexivity|].
      apply (delimited_sound Double) in E2. destruct E2 as [Hne [Hw [Hn [rest Hs]]]].
      exists Double, w, rest. unfold group. cbn [m_1 m_2 m_3 m_length].
      change (group_or None (Some w)) with (Some w).
      rewrite group_or_Some by exact Hne. repeat split; auto.
    + destruct (delimited "[" "]" s) as [[w n]|] eqn:E3; [|discriminate].
      intros H. injection H as <-. split; [reflexivity|].
      apply (delimited_sound Square) in E3. destruct E3 as [Hne [Hw [Hn [rest Hs]]]].
      exists Square, w, rest. unfold group, group_or. cbn [m_1 m_2 m_3 m_length].
      repeat split; auto.
Qed.

Lemma placeholder_here_complete (i : nat) (o c : ascii) (p rest : string) :
  (o = "{"%char /\ c = "}"%char) \/ (o = "["%char /\ c = "]"%char) ->
  p <> "" -> string_forallb is_word_char p = true ->
  exists m, placeholder_here i (placeholder_text o p c ++ rest) = Some m
            /\ group m = Some p.
Proof.
  intros Hoc Hne Hw. unfold placeholder_here, placeholder_text.
  assert (forall o c, (String o (p ++ String c "") ++ rest)%string
                      = (String o "" ++ p ++ String c "" ++ rest)%string) as Eq.
  { intros o' c'. cbn [append]. rewrite append_assoc. reflexivity. }
  rewrite Eq. destruct Hoc as [[-> ->]|[-> ->]].
  - rewrite (delimited_complete Single) by assumption.
    eexists. split; [reflexivity|]. unfold group. cbn [m_1 m_2 m_3].
    rewrite !group_or_Some by exact Hne. reflexivity.
  - assert (forall close, delimited "{" close ("[" ++ p ++ "]" ++ rest) = None) as ->
      by reflexivity.
    assert (forall close, delimited "{{" close ("[" ++ p ++ "]" ++ rest) = None) as ->
      by reflexivity.
    rewrite (delimited_complete Square) by assumption.
    eexists. split; [reflexivity|]. reflexivity.
Qed.

(** *** The scan of a whole text *)

Lemma word_char_no_opener (a : ascii) :
  is_word_char a = true -> negb (is_opener a) = true.
Proof.
  intros H. unfold is_opener.
  destruct (Ascii.eqb_spec a "{") as [->|_]; [discriminate|].
  destruct (Ascii.eqb_spec a "[") as [->|_]; [discriminate|reflexivity].
Qed.

(** A run without an opening bracket ends before the next one begins. *)
Lemma no_opener_prefix (y rest u x : string) (o : ascii) :
  string_forallb (fun a => negb (is_opener a)) y = true ->
  is_opener o = true ->
  (y ++ rest)%string = (u ++ String o x)%string ->
  String.length y <= String.length u.
Proof.
  intros Hy Ho. revert u. induction y as [|a y IH]; intros u H;
    cbn [String.length]; [lia|].
  cbn [string_forallb] in Hy. apply andb_true_iff in Hy. destruct Hy as [Ha Hy].
  destruct u as [|b u]; cbn [append String.length] in *.
  - injection H as -> _. rewrite Ho in Ha. discriminate.
  - injection H as _ H. specialize (IH Hy u H). lia.
Qed.

Lemma word_run_unique (w p : string) (c1 c2 : ascii) (r1 r2 : string) :
  string_forallb is_word_char w = true -> string_forallb is_word_char p = true ->
  is_word_char c1 = false -> is_word_char c2 = false ->
  (w ++ String c1 r1)%string = (p ++ String c2 r2)%string -> w = p.
Proof.
  intros Hw Hp H1 H2. revert p Hp.
  induction w as [|a w IH]; intros [|b p] Hp H; cbn [append string_forallb] in *.
  - reflexivity.
  - injection H as -> _. apply andb_true_iff in Hp. destruct Hp as [Hb _]. congruence.
  - injection H as -> _. apply andb_true_iff in Hw. destruct Hw as [Ha _]. congruence.
  - injection H as -> H. apply andb_true_iff in Hw. apply andb_true_iff in Hp.
    f_equal. apply IH; tauto.
Qed.

Lemma search_sound (s : string) (i : nat) (m : RegExpMatch) :
  search s i = Some m -> exists k, placeholder_here (i + k) (drop k s) = Some m.
Proof.
  revert i. induction s as [|c r IH]; intros i; cbn [search].
  - destruct (placeholder_here i "") eqn:E; [|discriminate].
    intros H. injection H as <-. exists 0. rewrite Nat.add_0_r. exact E.
  - destruct (placeholder_here i (String c r)) eqn:E.
    + intros H. injection H as <-. exists 0. rewrite Nat.add_0_r. exact E.
    + intros H. destruct (IH _ H) as [k Hk]. exists (S k).
      cbn [drop]. replace (i + S k) with (S i + k) by lia. exact Hk.
Qed.

(** A match that begins before a placeholder and does not end before it
    is the double-brace form around it. *)
Lemma match_overlaps (f : Form) (w rest u post : string) (o c : ascii) (p : string) :
  (o = "{"%char /\ c = "}"%char) \/ (o = "["%char /\ c = "]"%char) ->
  string_forallb is_word_char w = true -> string_forallb is_word_char p = true ->
  (form_open f ++ w ++ form_close f ++ rest)%string
  = (u ++ placeholder_text o p c ++ post)%string ->
  u <> "" ->
  String.length u
  < String.length (form_open f) + String.length w + String.length (form_close f) ->
  w = p.
Proof.
  intros Hoc Hw Hp H Hu Hlen.
  assert (is_opener o = true) as Ho by (destruct Hoc as [[-> _]|[-> _]]; reflexivity).
  assert (forall cl : string,
             string_forallb (fun a => negb (is_opener a)) cl = true ->
             string_forallb (fun a => negb (is_opener a)) (w ++ cl) = true) as Hrun.
  { intros cl Hcl. rewrite string_forallb_app, Hcl, andb_true_r.
    eapply string_forallb_impl; [|exact Hw]. apply word_char_no_opener. }
  destruct u as [|a u]; [congruence|]. unfold placeholder_text in H.
  destruct f; cbn [form_open form_close append String.length] in *.
  - injection H as _ H. exfalso.
    assert (String.length (w ++ "}") <= String.length u) as L.
    { eapply no_opener_prefix; [apply Hrun; reflexivity|exact Ho|].
      rewrite append_assoc. exact H. }
    rewrite append_length in L. cbn [String.length] in L. lia.
  - injection H as _ H. destruct u as [|b u]; cbn [append String.length] in *.
    + injection H as Eo H. destruct Hoc as [[_ ->]|[-> _]]; [|discriminate].
      rewrite append_assoc in H. cbn [append] in H.
      eapply word_run_unique; [exact Hw|exact Hp| | |exact H]; reflexivity.
    + injection H as _ H. exfalso.
      assert (String.length (w ++ "}}") <= String.length u) as L.
      { eapply no_opener_prefix; [apply Hrun; reflexivity|exact Ho|].
        rewrite append_assoc. exact H. }
      rewrite append_length in L. cbn [String.length] in L. lia.
  - injection H as _ H. exfalso.
    assert (String.length (w ++ "]") <= String.length u) as L.
    { eapply no_opener_prefix; [apply Hrun; reflexivity|exact Ho|].
      rewrite append_assoc. exact H. }
    rewrite append_length in L. cbn [String.length] in L. lia.
Qed.

(** From a position before a placeholder, the search finds a match that
    holds the placeholder or ends before it. *)
Lemma search_finds (u : string) (i : nat) (o c : ascii) (p post : string) :
  (o = "{"%char /\ c = "}"%char) \/ (o = "["%char /\ c = "]"%char) ->
  p <> "" -> string_forallb is_word_char p = true ->
  exists m,
    search (u ++ placeholder_text o p c ++ post) i = Some m
    /\ (group m = Some p
        \/ exists u', drop (m_end m - i) (u ++ placeholder_text o p c ++ post)
                      = (u' ++ placeholder_text o p c ++ post)%string).
Proof.
  intros Hoc Hne Hp. revert i. induction u as [|a u IH]; intros i.
  - destruct (placeholder_here_complete i o c p post Hoc Hne Hp) as [m [Hm Hg]].
    exists m. split; [|left; exact Hg].
    cbn [append]. unfold placeholder_text in *. cbn [append search] in *.
    rewrite Hm. reflexivity.
  - cbn [append search].
    destruct (placeholder_here i (String a (u ++ placeholder_text o p c ++ post)))
      as [m|] eqn:E.
    + exists m. split; [reflexivity|].
      apply placeholder_here_sound in E.
      destruct E as [Hi [f [w [rest [Hwne [Hw [Hg [Hs Hl]]]]]]]].
      unfold m_end. rewrite Hi. replace (i + m_length m - i) with (m_length m) by lia.
      destruct (Nat.le_gt_cases (m_length m) (String.length (String a u))) as [Hle|Hgt].
      * right. exists (drop (m_length m) (String a u)).
        change (String a (u ++ placeholder_text o p c ++ post))
          with (String a u ++ placeholder_text o p c ++ post)%string.
        apply drop_app_le. exact Hle.
      * left. rewrite Hg. f_equal.
        change (String a (u ++ placeholder_text o p c ++ post))
          with (String a u ++ placeholder_text o p c ++ post)%string in Hs.
        symmetry in Hs.
        eapply (match_overlaps f w rest (String a u) post o c p Hoc Hw Hp Hs);
          [discriminate|lia].
    + destruct (IH (S i)) as [m [Hm Hd]]. exists m. split; [exact Hm|].
      destruct Hd as [Hg|[u' Hu']]; [left; exact Hg|right].
      exists u'. apply search_progress in Hm.
      replace (m_end m - i) with (S (m_end m - S i)) by lia.
      cbn [drop]. exact Hu'.
Qed.

Lemma scan_loop_finds (text : string) (o c : ascii) (p post : string) :
  (o = "{"%char /\ c = "}"%char) \/ (o = "["%char /\ c = "]"%char) ->
  p <> "" -> string_forallb is_word_char p = true ->
  forall (n : nat) (st : ScanState),
    S (String.length text) - lastIndex st < n ->
    In p (found st)
    \/ (exists u, drop (lastIndex st) text
                  = (u ++ placeholder_text o p c ++ post)%string) ->
    In p (found (scan_loop text st)).
Proof.
  intros Hoc Hne Hp. induction n as [|n IH]; intros st Hn H; [lia|].
  rewrite scan_loop_while. destruct (scan_body text st) as [st'|] eqn:E.
  - apply IH; [apply scan_body_progress in E; lia|].
    unfold scan_body in E.
    destruct (placeholderRegex_exec text (lastIndex st)) as [m|] eqn:Em;
      [|discriminate].
    injection E as <-. cbn [found lastIndex]. fold (group m).
    destruct H as [H|[u Hu]].
    + left. destruct (group m) as [q|]; [|exact H].
      destruct (String_truthy q); [|exact H]. apply Set_add_In. right. exact H.
    + unfold placeholderRegex_exec in Em.
      destruct (String.length text <? lastIndex st)%nat; [discriminate|].
      rewrite Hu in Em.
      destruct (search_finds u (lastIndex st) o c p post Hoc Hne Hp) as [m' [Hm' Hd]].
      rewrite Hm' in Em. injection Em as ->.
      destruct Hd as [Hg|[u' Hu']].
      * left. rewrite Hg. unfold String_truthy.
        destruct (String.eqb_spec p ""); [congruence|]. cbn [negb].
        apply Set_add_In. left. reflexivity.
      * right. exists u'. rewrite <- Hu in Hu'. rewrite drop_drop in Hu'.
        apply search_progress in Hm'.
        replace (lastIndex st + (m_end m - lastIndex st)) with (m_end m) in Hu' by lia.
        exact Hu'.
  - cbn [found]. destruct H as [H|[u Hu]]; [exact H|]. exfalso.
    unfold scan_body in E.
    destruct (placeholderRegex_exec text (lastIndex st)) as [m|] eqn:Em;
      [discriminate|].
    unfold placeholderRegex_exec in Em.
    destruct (String.length text <? lastIndex st)%nat eqn:L.
    + apply Nat.ltb_lt in L. rewrite drop_length in Hu by exact L.
      destruct u; discriminate.
    + rewrite Hu in Em.
      destruct (search_finds u (lastIndex st) o c p post Hoc Hne Hp) as [m' [Hm' _]].
      congruence.
Qed.

(** X1. The placeholder scan of [handleDocxUpload] finds each placeholder
    once, and finds exactly the non-empty words that stand in the text
    between braces or between square brackets: [{word}] (also inside
    [{{word}}]) or [[word]]. *)
Theorem extractPlaceholders_exact (text : string) :
  NoDup (extractPlaceholders text)
  /\ forall p,
       In p (extractPlaceholders text)
       <-> p <> "" /\ string_forallb is_word_char p = true
           /\ exists pre post,
                text = (pre ++ placeholder_text "{" p "}" ++ post)%string
                \/ text = (pre ++ placeholder_text "[" p "]" ++ post)%string.
Proof.
  split; [apply extractPlaceholders_NoDup|]. intros p. split.
  - unfold extractPlaceholders.
    apply (scan_loop_invariant
             (fun found =>
                In p found ->
                p <> "" /\ string_forallb is_word_char p = true
                /\ exists pre post,
                     text = (pre ++ placeholder_text "{" p "}" ++ post)%string
                     \/ text = (pre ++ placeholder_text "[" p "]" ++ post)%string)
             text); [|intros []].
    intros st st' Hbody IH Hin. unfold scan_body in Hbody.
    destruct (placeholderRegex_exec text (lastIndex st)) as [m|] eqn:Em;
      [|discriminate].
    injection Hbody as <-. cbn [found] in Hin. fold (group m) in Hin.
    unfold placeholderRegex_exec in Em.
    destruct (String.length text <? lastIndex st)%nat; [discriminate|].
    apply search_sound in Em. destruct Em as [k Hk].
    apply placeholder_here_sound in Hk.
    destruct Hk as [_ [f [w [rest [Hwne [Hw [Hg [Hs _]]]]]]]].
    rewrite Hg in Hin. unfold String_truthy in Hin.
    destruct (String.eqb_spec w ""); [congruence|]. cbn [negb] in Hin.
    apply Set_add_In in Hin. destruct Hin as [->|Hin]; [|exact (IH Hin)].
    split; [exact Hwne|]. split; [exact Hw|].
    rewrite drop_drop in Hs.
    destruct (drop_split (lastIndex st + k) text) as [pre Hpre]. rewrite Hs in Hpre.
    unfold placeholder_text.
    destruct f; cbn [form_open form_close append] in Hpre.
    + exists pre, rest. left. rewrite Hpre. cbn [append].
      rewrite append_assoc. reflexivity.
    + exists (pre ++ "{")%string, (String "}" rest). left. rewrite Hpre.
      rewrite !append_assoc. cbn [append]. rewrite append_assoc. reflexivity.
    + exists pre, rest. right. rewrite Hpre. cbn [append].
      rewrite append_assoc. reflexivity.
  - intros [Hne [Hw [pre [post H]]]]. unfold extractPlaceholders.
    destruct H as [H|H].
    + apply (scan_loop_finds text "{" "}" p post (or_introl (conj eq_refl eq_refl))
               Hne Hw (S (S (String.length text)))); cbn [lastIndex]; [lia|].
      right. exists pre. rewrite H. destruct pre; reflexivity.
    + apply (scan_loop_finds text "[" "]" p post (or_intror (conj eq_refl eq_refl))
               Hne Hw (S (S (String.length text)))); cbn [lastIndex]; [lia|].
      right. exists pre. rewrite H. destruct pre; reflexivity.
Qed.

(** ** The preview of a template *)

Lemma no_opener_apart (o b : ascii) :
  is_opener o = true -> negb (is_opener b) = true ->
  (canonicalize o =? canonicalize b)%char = false.
Proof.
  intros Ho Hb. apply opener_only; [exact Ho|].
  apply negb_true_iff in Hb. unfold is_opener in *.
  apply orb_false_iff in Hb. destruct Hb as [H1 H2].
  apply orb_true_iff in Ho.
  destruct Ho as [Ho|Ho]; apply Ascii.eqb_eq in Ho; subst o; assumption.
Qed.

Lemma toLowerCase_match (key p : string) (c : ascii) (post : string) :
  toLowerCase key = toLowerCase p ->
  match_here (list_ascii_of_string key ++ [c]) (p ++ String c post) = true
  /\ String.length key = String.length p.
Proof.
  revert p. induction key as [|a key IH]; intros [|b p] H;
    cbn [toLowerCase list_ascii_of_string app append match_here String.length] in *;
    try discriminate.
  - rewrite Ascii.eqb_refl. auto.
  - injection H as Hab H. destruct (IH p H) as [-> ->].
    rewrite canonicalize_lower, Hab, Ascii.eqb_refl. auto.
Qed.

Lemma ordinary_opener_free (v : string) :
  string_forallb ordinary_char v = true -> opener_free v = true.
Proof.
  apply string_forallb_impl. intros a Ha. unfold ordinary_char in Ha.
  apply negb_true_iff in Ha. apply negb_true_iff. unfold is_opener.
  apply orb_false_iff in Ha. destruct Ha as [Ha H3].
  apply orb_false_iff in Ha. destruct Ha as [_ H2]. rewrite H2, H3. reflexivity.
Qed.

(** The text copied while no match starts in it. *)
Lemma occursb_through (pattern : list ascii) (tok rest : string) :
  (forall v w post, tok = (v ++ w)%string -> w <> "" ->
                    match_here pattern (w ++ post) = false) ->
  occursb pattern (tok ++ rest) = occursb pattern rest.
Proof.
  intros Hin.
  assert (forall w v, tok = (v ++ w)%string ->
                      occursb pattern (w ++ rest) = occursb pattern rest) as H.
  { induction w as [|b w IH]; intros v Hv; [reflexivity|].
    change (String b w ++ rest)%string with (String b (w ++ rest)).
    cbn [occursb].
    change (String b (w ++ rest)) with (String b w ++ rest)%string.
    rewrite (Hin v (String b w) rest Hv) by discriminate.
    apply (IH (v ++ String b "")%string). rewrite Hv, append_assoc. reflexivity. }
  apply (H tok ""). reflexivity.
Qed.

Section PieceReplace.

Variables (b0 : Bracket) (key : string).
Hypothesis Hkey : plain_key key = true.

Lemma bracket_open_opener (b : Bracket) : is_opener (bracket_open b) = true.
Proof. destruct b; reflexivity. Qed.

Lemma bracket_close_closer (b : Bracket) : is_closer (bracket_close b) = true.
Proof. destruct b; reflexivity. Qed.

(** No match of the pattern of the key starts in a piece that is not a
    placeholder of the key. *)
Lemma piece_inside (x : Piece) :
  well_formed x = true -> piece_matches b0 key x = false ->
  forall v w post, piece_text x = (v ++ w)%string -> w <> "" ->
                   match_here (token_pattern b0 key) (w ++ post) = false.
Proof.
  intros Hwf Hno. destruct x as [s|b p]; cbn [piece_text well_formed] in *.
  - intros v w post E Hw. unfold opener_free in Hwf.
    rewrite E, string_forallb_app in Hwf. apply andb_true_iff in Hwf.
    destruct Hwf as [_ Hwf]. destruct w as [|a w]; [congruence|].
    cbn [string_forallb] in Hwf. apply andb_true_iff in Hwf. destruct Hwf as [Ha _].
    unfold token_pattern. cbn [append match_here].
    rewrite (no_opener_apart _ a (bracket_open_opener b0) Ha). reflexivity.
  - apply (inside_of (bracket_open b) (bracket_close b) p
             (bracket_close_closer b) Hwf (bracket_open b0) _
             (bracket_open_opener b0)).
    intros post. cbn [piece_matches] in Hno. apply andb_false_iff in Hno.
    destruct Hno as [Hb|Hp].
    + unfold placeholder_text. cbn [append match_here].
      rewrite opener_only; [reflexivity|apply bracket_open_opener|].
      destruct b, b0; try discriminate; reflexivity.
    + apply (single_at (bracket_open b) (bracket_close b) p
               (bracket_close_closer b) Hwf key Hkey).
      * apply String.eqb_neq. exact Hp.
      * apply bracket_close_closer.
Qed.

Variable v : string.

Lemma replace_piece (x : Piece) (rest str : string) (pos : nat) :
  well_formed x = true ->
  (piece_matches b0 key x = true -> string_forallb ordinary_char v = true) ->
  exists pos',
    replace_loop (token_pattern b0 key) v str pos 0 (piece_text x ++ rest)
    = (piece_text (replaced b0 key v x)
       ++ replace_loop (token_pattern b0 key) v str pos' 0 rest)%string.
Proof.
  intros Hwf Hv. unfold replaced.
  destruct (piece_matches b0 key x) eqn:Hm.
  - destruct x as [s|b p]; [discriminate|]. cbn [piece_matches] in Hm.
    apply andb_true_iff in Hm. destruct Hm as [Hb Hp].
    apply String.eqb_eq in Hp.
    assert (b = b0) as -> by (destruct b, b0; try discriminate; reflexivity).
    cbn [piece_text]. unfold placeholder_text at 1. cbn [append replace_loop].
    destruct (toLowerCase_match key p (bracket_close b0) rest Hp) as [Hmatch Hlen].
    assert (match_here (token_pattern b0 key)
              (String (bracket_open b0) ((p ++ String (bracket_close b0) "") ++ rest))
            = true) as ->.
    { unfold token_pattern. cbn [match_here]. rewrite Ascii.eqb_refl. cbn [andb].
      rewrite append_assoc. exact Hmatch. }
    rewrite GetSubstitution_ordinary by (apply Hv; reflexivity).
    replace (List.length (token_pattern b0 key) - 1)
      with (String.length (p ++ String (bracket_close b0) ""))
      by (unfold token_pattern; cbn [List.length];
          rewrite length_app, chars_length, append_length;
          cbn [List.length String.length]; lia).
    rewrite replace_loop_skip. eexists. reflexivity.
  - eexists.
    apply (replace_loop_through (token_pattern b0 key) (piece_text x)
             (piece_inside x Hwf Hm) v str (piece_text x) "" rest pos).
    reflexivity.
Qed.

Lemma replace_pieces (l : list Piece) (str : string) (pos : nat) :
  forallb well_formed l = true ->
  (existsb (piece_matches b0 key) l = true ->
   string_forallb ordinary_char v = true) ->
  replace_loop (token_pattern b0 key) v str pos 0 (pieces_text l)
  = pieces_text (map (replaced b0 key v) l).
Proof.
  revert pos. induction l as [|x l IH]; intros pos Hwf Hv;
    cbn [pieces_text map forallb existsb] in *; [reflexivity|].
  apply andb_true_iff in Hwf. destruct Hwf as [Hx Hl].
  destruct (replace_piece x (pieces_text l) str pos Hx) as [pos' ->].
  - intros Hm. apply Hv. rewrite Hm. reflexivity.
  - rewrite IH; [reflexivity|exact Hl|].
    intros Hm. apply Hv. rewrite Hm. apply orb_true_r.
Qed.

Lemma String_replace_pieces (l : list Piece) :
  forallb well_formed l = true ->
  (existsb (piece_matches b0 key) l = true ->
   string_forallb ordinary_char v = true) ->
  String_replace (pieces_text l) (token_pattern b0 key) v
  = pieces_text (map (replaced b0 key v) l).
Proof. apply replace_pieces. Qed.

(** The pattern of the key occurs nowhere when no piece is a placeholder
    of the key. *)
Lemma occursb_pieces (l : list Piece) :
  forallb well_formed l = true ->
  existsb (piece_matches b0 key) l = false ->
  occursb (token_pattern b0 key) (pieces_text l) = false.
Proof.
  induction l as [|x l IH]; intros Hwf Hno; cbn [pieces_text forallb existsb] in *;
    [reflexivity|].
  apply andb_true_iff in Hwf. destruct Hwf as [Hx Hl].
  apply orb_false_iff in Hno. destruct Hno as [Hm Hno].
  rewrite (occursb_through _ _ _ (piece_inside x Hx Hm)). apply IH; assumption.
Qed.

Lemma replaced_well_formed (l : list Piece) :
  forallb well_formed l = true ->
  (existsb (piece_matches b0 key) l = true ->
   string_forallb ordinary_char v = true) ->
  forallb well_formed (map (replaced b0 key v) l) = true.
Proof.
  induction l as [|x l IH]; intros Hwf Hv; cbn [map forallb existsb] in *;
    [reflexivity|].
  apply andb_true_iff in Hwf. destruct Hwf as [Hx Hl].
  apply andb_true_iff. split.
  - unfold replaced. destruct (piece_matches b0 key x) eqn:Hm; [|exact Hx].
    cbn [well_formed]. apply ordinary_opener_free. apply Hv. reflexivity.
  - apply IH; [exact Hl|]. intros Hm. apply Hv. rewrite Hm. apply orb_true_r.
Qed.

Lemma replaced_no_match (l : list Piece) :
  existsb (piece_matches b0 key) (map (replaced b0 key v) l) = false.
Proof.
  induction l as [|x l IH]; cbn [map existsb]; [reflexivity|].
  rewrite IH, orb_false_r. unfold replaced.
  destruct (piece_matches b0 key x) eqn:Hm; [reflexivity|exact Hm].
Qed.

End PieceReplace.

Section MergePieces.

Variable rt : Runtime.
Variable record : CertificateData.

Lemma existsb_replaced (b0 b1 : Bracket) (key v : string) (l : list Piece) :
  existsb (piece_matches b1 key) (map (replaced b0 key v) l) = true ->
  existsb (piece_matches b1 key) l = true.
Proof.
  induction l as [|x l IH]; cbn [map existsb]; [auto|].
  intros H. apply orb_true_iff in H. apply orb_true_iff.
  destruct H as [H|H]; [left|right; auto].
  unfold replaced in H. destruct (piece_matches b0 key x); [discriminate|exact H].
Qed.

(** One key: its tokens in braces and in square brackets are replaced by
    its value. *)
Lemma merge_key_pieces (l : list Piece) (key : string) :
  forallb well_formed l = true -> plain_key key = true ->
  (existsb (piece_matches Curly key) l || existsb (piece_matches Squared key) l = true ->
   string_forallb ordinary_char (toString_or_empty rt (prop record key)) = true) ->
  merge_key rt record (pieces_text l) key
  = Some (pieces_text
            (map (replaced Squared key (toString_or_empty rt (prop record key)))
               (map (replaced Curly key (toString_or_empty rt (prop record key))) l))).
Proof.
  intros Hwf Hkey Hv. unfold merge_key.
  destruct (RegExp_gi_plain key Hkey) as [-> [-> ->]].
  set (v := toString_or_empty rt (prop record key)) in *.
  change ("{"%char :: list_ascii_of_string key ++ ["}"%char])
    with (token_pattern Curly key).
  change ("["%char :: list_ascii_of_string key ++ ["]"%char])
    with (token_pattern Squared key).
  assert (existsb (piece_matches Curly key) l = true ->
          string_forallb ordinary_char v = true) as Hv1
    by (intros H; apply Hv; rewrite H; reflexivity).
  rewrite (String_replace_pieces Curly key Hkey v l Hwf Hv1).
  set (l1 := map (replaced Curly key v) l).
  assert (forallb well_formed l1 = true) as Hwf1
    by (apply replaced_well_formed; assumption).
  assert (occursb (token_pattern Curly key) (pieces_text l1) = false) as Hsingle.
  { apply occursb_pieces; [exact Hkey|exact Hwf1|]. apply replaced_no_match. }
  assert (occursb ("{"%char :: "{"%char
                     :: list_ascii_of_string key ++ ["}"%char; "}"%char])
            (pieces_text l1) = false) as Hdouble.
  { apply occursb_cons.
    change ("{"%char :: list_ascii_of_string key ++ ["}"%char; "}"%char])
      with (("{"%char :: list_ascii_of_string key)
              ++ (["}"%char] ++ ["}"%char])).
    rewrite app_assoc. apply occursb_app. exact Hsingle. }
  rewrite (String_replace_absent (pieces_text l1) _ _ Hdouble).
  rewrite (String_replace_pieces Squared key Hkey v l1 Hwf1); [reflexivity|].
  intros H. apply Hv. subst l1. apply existsb_replaced in H. rewrite H.
  apply orb_true_r.
Qed.

Lemma merge_keys_pieces (keys : list string) (l : list Piece) :
  forallb well_formed l = true ->
  (forall key, In key keys -> plain_key key = true) ->
  (forall b p key,
      In (Placeholder b p) l ->
      find (fun key => (toLowerCase key =? toLowerCase p)%string) keys = Some key ->
      string_forallb ordinary_char (toString_or_empty rt (prop record key)) = true) ->
  fold_left (fun merged key =>
               match merged with
               | Some merged => merge_key rt record merged key
               | None => None
               end) keys (Some (pieces_text l))
  = Some (pieces_text
            (map (fun x =>
                    match x with
                    | Plain _ => x
                    | Placeholder b p =>
                        match find (fun key => (toLowerCase key =? toLowerCase p)%string)
                                keys with
                        | Some key => Plain (toString_or_empty rt (prop record key))
                        | None => x
                        end
                    end) l)).
Proof.
  revert l. induction keys as [|key keys IH]; intros l Hwf Hkeys Hv;
    cbn [fold_left find].
  - f_equal. f_equal. rewrite <- (map_id l) at 1. apply map_ext.
    intros [s|b p]; reflexivity.
  - set (v := toString_or_empty rt (prop record key)).
    assert (existsb (piece_matches Curly key) l
            || existsb (piece_matches Squared key) l = true ->
            string_forallb ordinary_char v = true) as Hv0.
    { intros H. apply orb_true_iff in H.
      assert (exists b p, In (Placeholder b p) l
                          /\ (toLowerCase key =? toLowerCase p)%string = true)
        as [b [p [Hin Hp]]].
      { destruct H as [H|H]; apply existsb_exists in H;
          destruct H as [[s|b p] [Hin Hm]]; try discriminate;
          cbn [piece_matches] in Hm; apply andb_true_iff in Hm;
          destruct Hm as [_ Hm]; exists b, p; auto. }
      apply (Hv b p key Hin). cbn [find]. rewrite Hp. reflexivity. }
    rewrite (merge_key_pieces l key Hwf (Hkeys key (or_introl eq_refl)) Hv0).
    fold v.
    set (l2 := map (replaced Squared key v) (map (replaced Curly key v) l)).
    assert (l2 = map (fun x =>
                        match x with
                        | Plain _ => x
                        | Placeholder b p =>
                            if (toLowerCase key =? toLowerCase p)%string
                            then Plain v else x
                        end) l) as El2.
    { subst l2. rewrite map_map. apply map_ext. intros [s|b p]; [reflexivity|].
      unfold replaced.
      destruct b; cbn [piece_matches Bracket_eqb andb];
        destruct (toLowerCase key =? toLowerCase p)%string eqn:Hp;
        cbn [piece_matches Bracket_eqb andb]; rewrite ?Hp; reflexivity. }
    rewrite IH.
    + f_equal. f_equal. rewrite El2, map_map. apply map_ext.
      intros [s|b p]; [reflexivity|].
      destruct (toLowerCase key =? toLowerCase p)%string; reflexivity.
    + subst l2. apply replaced_well_formed;
        [apply replaced_well_formed; [exact Hwf|]|].
      * intros H. apply Hv0. rewrite H. reflexivity.
      * intros H. apply Hv0. apply existsb_replaced in H. rewrite H.
        apply orb_true_r.
    + intros k Hk. apply Hkeys. right. exact Hk.
    + intros b p k Hin Hfind. rewrite El2 in Hin. apply in_map_iff in Hin.
      destruct Hin as [[s|b' p'] [E Hin]]; [discriminate|].
      destruct (toLowerCase key =? toLowerCase p')%string eqn:Hp; [discriminate|].
      injection E as -> ->. apply (Hv b p k Hin). cbn [find]. rewrite Hp.
      exact Hfind.
Qed.

(** X2. The preview of a template made of text without opening brackets
    and of placeholders [{p}] and [[p]], for a record whose column names
    are free of the syntax characters of regular expressions: every
    placeholder is replaced by the value of the first column that equals
    [p] up to letter case, the column the export takes too, when these
    values hold no dollar and no opening bracket; a placeholder without
    such a column stays as it is, and so does the text around. *)
Theorem mergeCertificate_fills_template (l : list Piece) :
  forallb well_formed l = true ->
  (forall key, In key (Object_keys record) -> plain_key key = true) ->
  (forall b p key,
      In (Placeholder b p) l -> matchingKey record p = Some key ->
      string_forallb ordinary_char (toString_or_empty rt (prop record key)) = true) ->
  mergeCertificate rt (pieces_text l) record
  = Some (pieces_text (map (filled rt record) l)).
Proof.
  intros Hwf Hkeys Hv. unfold mergeCertificate.
  rewrite (merge_keys_pieces (Object_keys record) l Hwf Hkeys Hv).
  reflexivity.
Qed.

End MergePieces.

(** ** The stored text of a binary *)

Lemma btoa_length (l : list ascii) :
  List.length (map Base64.b64_char (Base64.encode_body l) ++ Base64.padding l)
  = 4 * ((List.length l + 2) / 3).
Proof.
  induction l as [|a|a b|a b c l IH] using Base64Facts.list_ind3.
  - reflexivity.
  - reflexivity.
  - reflexivity.
  - assert (Base64.padding (a :: b :: c :: l) = Base64.padding l) as ->.
    { unfold Base64.padding. cbn [List.length].
      replace (N.of_nat (S (S (S (List.length l)))) mod 3)%N
        with (N.of_nat (List.length l) mod 3)%N by lia.
      reflexivity. }
    cbn [Base64.encode_body map app List.length]. rewrite IH.
    replace (S (S (S (List.length l))) + 2) with (List.length l + 2 + 1 * 3) by lia.
    rewrite Nat.div_add by lia. lia.
Qed.

Lemma string_of_list_ascii_length (l : list ascii) :
  String.length (string_of_list_ascii l) = List.length l.
Proof. induction l as [|a l IH]; cbn; [reflexivity|]. rewrite IH. reflexivity. Qed.

Lemma string_forallb_chars (f : ascii -> bool) (l : list ascii) :
  string_forallb f (string_of_list_ascii l) = forallb f l.
Proof. induction l as [|a l IH]; cbn; [reflexivity|]. rewrite IH. reflexivity. Qed.

(** X12. The text stored for a binary of n bytes has 4 * ceil(n / 3)
    characters, each of the base64 alphabet or the padding sign. *)
Theorem arrayBufferToBase64_size (buffer : ArrayBuffer) :
  String.length (arrayBufferToBase64 buffer) = 4 * ((List.length buffer + 2) / 3)
  /\ string_forallb is_base64_char (arrayBufferToBase64 buffer) = true.
Proof.
  unfold arrayBufferToBase64. rewrite binary_string_of_bytes. cbn [append].
  unfold Base64.btoa. rewrite list_ascii_of_string_of_list_ascii. split.
  - rewrite string_of_list_ascii_length, btoa_length, length_map. reflexivity.
  - rewrite string_forallb_chars, forallb_app. apply andb_true_iff. split.
    + apply forallb_forall. intros x Hx. apply in_map_iff in Hx.
      destruct Hx as [n [<- Hn]]. unfold is_base64_char.
      rewrite Base64Facts.b64_value_char; [reflexivity|].
      pose proof (Base64Facts.encode_body_bound (map fromCharCode buffer)) as Hb.
      rewrite Forall_forall in Hb. apply Hb. exact Hn.
    + unfold Base64.padding.
      destruct (N.of_nat (List.length (map fromCharCode buffer)) mod 3)%N
        as [|q]; [reflexivity|].
      destruct q as [q|q|]; try reflexivity; destruct q; reflexivity.
Qed.

(** ** A damaged item in the local storage *)

Lemma strip_padding_In (c : ascii) (l : list ascii) :
  In c l -> c <> "="%char -> In c (Base64.strip_padding l).
Proof.
  intros Hin Hc. unfold Base64.strip_padding.
  assert (In c (rev l)) as Hrev by (apply in_rev in Hin; exact Hin).
  destruct (rev l) as [|c1 r1]; [exact Hin|].
  destruct (Ascii.eqb_spec c1 "=") as [->|_]; [|exact Hin].
  destruct Hrev as [E|Hrev]; [congruence|].
  destruct r1 as [|c2 r2]; [destruct Hrev|].
  destruct (Ascii.eqb_spec c2 "=") as [->|_].
  - destruct Hrev as [E|Hrev]; [congruence|]. apply in_rev in Hrev. exact Hrev.
  - apply in_rev in Hrev. exact Hrev.
Qed.

Lemma values_None (c : ascii) (l : list ascii) :
  In c l -> Base64.b64_value c = None -> Base64.values l = None.
Proof.
  intros Hin Hc. induction l as [|a l IH]; [destruct Hin|].
  cbn [Base64.values]. destruct Hin as [->|Hin].
  - rewrite Hc. reflexivity.
  - rewrite (IH Hin). destruct (Base64.b64_value a); reflexivity.
Qed.

Lemma atob_invalid (s : string) (c : ascii) :
  In c (list_ascii_of_string s) ->
  Base64.b64_value c = None -> Base64.is_ascii_whitespace c = false ->
  c <> "="%char ->
  Base64.atob s = None.
Proof.
  intros Hin Hv Hw Hc. unfold Base64.atob. cbv zeta.
  set (d0 := filter _ (list_ascii_of_string s)).
  assert (In c d0) as H0.
  { subst d0. apply filter_In. split; [exact Hin|]. rewrite Hw. reflexivity. }
  set (d := if (N.of_nat (List.length d0) mod 4 =? 0)%N
            then Base64.strip_padding d0 else d0).
  assert (In c d) as Hd.
  { subst d. destruct (N.of_nat (List.length d0) mod 4 =? 0)%N; [|exact H0].
    apply strip_padding_In; assumption. }
  destruct (N.of_nat (List.length d) mod 4 =? 1)%N; [reflexivity|].
  rewrite (values_None c d Hd Hv). reflexivity.
Qed.

Lemma templatesWithBinary_None (templates : list StoredTemplate) :
  templatesWithBinary templates = None
  <-> exists t, In t templates /\ base64ToArrayBuffer (stored_binary t) = None.
Proof.
  induction templates as [|t templates IH]; cbn [templatesWithBinary].
  - split; [discriminate|]. intros [t [[] _]].
  - destruct (base64ToArrayBuffer (stored_binary t)) as [b|] eqn:E.
    + destruct (templatesWithBinary templates) as [r|].
      * split; [discriminate|]. intros [t' [[<-|Hin] Ht']]; [congruence|].
        assert (@None (list SavedTemplate) = None) as H by reflexivity.
        destruct IH as [_ IH]. discriminate IH. exists t'. auto.
      * split; [|reflexivity]. intros _. destruct IH as [IH _].
        destruct (IH eq_refl) as [t' [Hin Ht']]. exists t'. split; [right|]; auto.
    + split; [|reflexivity]. intros _. exists t. split; [left; reflexivity|exact E].
Qed.

(** X11. One damaged entry stops the mount effect: when the binary of some
    stored template is not valid base64 (for instance when it holds a
    character outside the alphabet that is neither white space nor the
    padding sign), the effect throws and none of the stored templates is
    listed. *)
Theorem damaged_item_stops_mount (templates : list StoredTemplate) :
  (templatesWithBinary templates = None
   <-> exists t, In t templates /\ base64ToArrayBuffer (stored_binary t) = None)
  /\ (templatesWithBinary templates = None ->
      load_saved_templates (fresh_page (Some templates))
      = (Throw "InvalidCharacterError", fresh_page (Some templates)))
  /\ (forall t c,
         In t templates -> In c (list_ascii_of_string (stored_binary t)) ->
         Base64.b64_value c = None -> Base64.is_ascii_whitespace c = false ->
         c <> "="%char ->
         load_saved_templates (fresh_page (Some templates))
         = (Throw "InvalidCharacterError", fresh_page (Some templates))).
Proof.
  assert (templatesWithBinary templates = None ->
          load_saved_templates (fresh_page (Some templates))
          = (Throw "InvalidCharacterError", fresh_page (Some templates))) as Hthrow.
  { intros H. unfold load_saved_templates, page_bind, localStorage_getItem, fresh_page.
    cbn [certificateTemplates]. rewrite H. reflexivity. }
  split; [apply templatesWithBinary_None|]. split; [exact Hthrow|].
  intros t c Ht Hc Hv Hw Hne. apply Hthrow. apply templatesWithBinary_None.
  exists t. split; [exact Ht|]. unfold base64ToArrayBuffer.
  rewrite (atob_invalid _ c Hc Hv Hw Hne). reflexivity.
Qed.

(** ** The range export, its timers fired *)

Section RangeDownloads.

Variable rt : Runtime.

(** X15. A valid range export, its timers fired: the files of the records
    of the range are downloaded in index order, one for each record whose
    document is generated, named as by [handleDownloadAll]; a record whose
    generation throws is logged and skipped. *)
Theorem handleDownloadRange_downloads (w : World) :
  let s := state w in
  let w2 := run_timers rt (snd (handleDownloadRange w)) in
  let scheduled :=
    map (range_timer s)
      (Z_range (rangeStart s - 1) (Z.to_nat (rangeEnd s - rangeStart s + 1))) in
  invalid_range s = false -> timers w = [] ->
  downloads w2 = downloads w ++ flat_map (downloaded rt) scheduled
  /\ console_errors w2 = console_errors w ++ flat_map (logged rt) scheduled
  /\ timers w2 = [] /\ alerts w2 = alerts w
  /\ state w2 = setShowRangeDialog false s
  /\ (forall i record blob,
         (rangeStart s <= i + 1 <= rangeEnd s)%Z ->
         at_index (data s) i = Some record ->
         generateDocx rt (docxBinary s) (placeholders s) record = Ok blob ->
         exists filename,
           value_toString rt (certificate_name record i) = Ok filename
           /\ In (blob, (filename ++ ".docx")%string) (downloads w2))
  /\ List.length (downloads w2) <= List.length (downloads w) + List.length scheduled.
Proof.
  intros s w2 scheduled Hvalid Hq. subst w2.
  unfold handleDownloadRange, bind, get_state. fold s. rewrite Hvalid.
  rewrite (range_loop_timers s (Z.to_nat (rangeEnd s - rangeStart s + 1)))
    by (f_equal; lia).
  fold scheduled. rewrite Hq.
  rewrite (insert_timers_sorted scheduled []) by apply range_timers_sorted.
  cbn [app set_state snd with_state state alerts console_errors timers downloads].
  rewrite run_timers_all.
  cbn [with_state state alerts console_errors timers downloads].
  repeat (split; [reflexivity|]). split.
  - intros i record blob Hi Hrec Hgen.
    destruct (certificate_name_toString rt record i) as [filename Hname].
    exists filename. split; [exact Hname|].
    apply in_or_app. right. apply in_flat_map.
    exists (range_timer s i). split.
    + apply in_map. apply Z_range_In. lia.
    + unfold downloaded, certificate_file.
      cbn [range_timer timer_callback cb_record cb_docxBinary cb_placeholders cb_idx].
      rewrite Hrec, Hgen, Hname. left. reflexivity.
  - rewrite length_app. apply Nat.add_le_mono_l.
    generalize scheduled. intros l.
    induction l as [|t l IH]; cbn [flat_map List.length]; [lia|].
    rewrite length_app. unfold downloaded at 1.
    destruct (certificate_file rt (timer_callback t)); cbn [List.length]; lia.
Qed.

End RangeDownloads.

(** ** A spreadsheet that is read *)

Section SpreadsheetRead.

Variable rt : Runtime.

(** X13. A spreadsheet that is read and has at least one row: the rows are
    stored after the date coercion, the columns are the keys of the first
    row as read, the preview goes to the first row, the end of the range is
    the number of rows and the start of the range is left as it was; the
    template side is untouched and nothing is alerted. *)
Theorem handleExcelUpload_success (bstr : string) (w : World)
    (first : CertificateData) (rest : list CertificateData) :
  read_rows rt bstr = Ok (first :: rest) ->
  let s := state w in
  let w' := snd (handleExcelUpload rt (Some bstr) w) in
  let s' := state w' in
  fst (handleExcelUpload rt (Some bstr) w) = Ok tt
  /\ data s' = processExcelData rt (first :: rest)
  /\ List.length (data s') = S (List.length rest)
  /\ excelColumns s' = Object_keys first
  /\ currentIndex s' = 0%Z
  /\ rangeEnd s' = Z.of_nat (List.length (data s'))
  /\ rangeStart s' = rangeStart s
  /\ excel (uploadStatus s') = true
  /\ docx (uploadStatus s') = docx (uploadStatus s)
  /\ docxBinary s' = docxBinary s /\ docxHtml s' = docxHtml s
  /\ placeholders s' = placeholders s
  /\ savedTemplates s' = savedTemplates s
  /\ selectedTemplateId s' = selectedTemplateId s
  /\ preview_in_bounds s'
  /\ alerts w' = alerts w /\ console_errors w' = console_errors w
  /\ timers w' = timers w /\ downloads w' = downloads w.
Proof.
  intros H s w' s'. subst s' w'. cbn [handleExcelUpload].
  rewrite excel_onload_cases, H.
  cbn [fst snd with_state state alerts console_errors timers downloads].
  unfold excel_loaded, preview_in_bounds. cbn. rewrite !length_map.
  repeat (split; [reflexivity|]).
  split; [|repeat split; reflexivity].
  intros _. split; [discriminate|lia].
Qed.

End SpreadsheetRead.

(** ** The render data holds the placeholders and nothing else *)

Section RenderKeys.

Variable rt : Runtime.


End RenderKeys.

(** ** A template deleted while another is being read *)

Section UploadRace.

Variable rt : Runtime.
Variable env : Environment.

(** X21. The pieces of [handleDocxUpload] can be overtaken: when the
    selected template is deleted after the uploaded file has been read and
    before its conversion has ended, the upload still ends as a success,
    with the template marked as uploaded, its HTML and placeholders loaded
    and the save dialog open, but with no binary; a download then fails
    with the alert. Run without interruption, the same upload leaves the
    binary loaded. *)
Theorem upload_races_with_delete (p : Page) (id name : string)
    (b : ArrayBuffer) (html text : string) :
  let p1 := step rt env p (DocxRead (Ok b)) in
  let p2 := step rt env p1 (DeleteTemplate id true) in
  let p3 := step rt env p2 (DocxConverted name b) in
  let s3 := state (world p3) in
  let w4 := snd (handleDownloadCurrent rt (world p3)) in
  selectedTemplateId (state (world p)) = Some id ->
  localStorage_write env
    (templatesForStorage (without_id id (savedTemplates (state (world p))))) = Ok tt ->
  mammoth_convertToHtml env b = Ok html ->
  Docxtemplater_getFullText env b = Ok text ->
  docxBinary (state (world p1)) = Some b
  /\ docxBinary s3 = None
  /\ docx (uploadStatus s3) = true
  /\ isReady s3 = excel (uploadStatus (state (world p)))
  /\ docxHtml s3 = html
  /\ placeholders s3 = extractPlaceholders text
  /\ showSaveDialog s3 = true
  /\ downloads w4 = downloads (world p3)
  /\ alerts w4
     = alerts (world p3)
       ++ ["Error generating certificate. Please check your template and data."]
  /\ docxBinary (state (snd (handleDocxUpload env
                               (Some {| file_name := name; file_arrayBuffer := Ok b |})
                               (world p))))
     = Some b.
Proof.
  intros p1 p2 p3 s3 w4 Hsel Hwrite Hhtml Htext.
  assert (state (world p3)
          = setShowSaveDialog true
              (setTemplateName (String_replace_first name ".docx" "")
                 (setSelectedTemplateId None
                    (setUploadStatus (fun prev => {| docx := true; excel := excel prev |})
                       (setPlaceholders (extractPlaceholders text)
                          (setDocxTemplate html
                             (setDocxHtml html
                                (unloaded
                                   (setSavedTemplates
                                      (without_id id (savedTemplates (state (world p))))
                                      (setDocxBinary (Some b) (state (world p)))))))))))
          /\ alerts (world p3) = alerts (world p)
          /\ downloads (world p3) = downloads (world p)) as [Hs3 [Ha3 Hd3]].
  { subst p3 p2 p1. cbn [step].
    unfold handle, docx_resume_read, try_catch, bind, lift, ret, deleteTemplate,
      page_bind, in_world, get_state, localStorage_setItem.
    cbn [negb set_state fst snd world certificateTemplates with_state state
         setDocxBinary savedTemplates selectedTemplateId].
    fold (without_id id (savedTemplates (state (world p)))).
    rewrite Hwrite.
    cbn [set_state fst snd world certificateTemplates with_state state
         setSavedTemplates setDocxBinary savedTemplates selectedTemplateId].
    rewrite Hsel, String.eqb_refl.
    cbn [set_state fst snd world certificateTemplates with_state state].
    unfold docx_resume_converted, docx_converted, try_catch, bind, lift, ret.
    rewrite Hhtml. cbn [set_state]. rewrite Htext. cbn. auto. }
  subst s3 w4.
  unfold handleDownloadCurrent, bind, get_state, try_catch, lift, certificate_file.
  cbn [cb_record cb_docxBinary cb_placeholders cb_idx]. rewrite Hs3.
  cbn [docxBinary setShowSaveDialog setTemplateName setSelectedTemplateId
       setUploadStatus setPlaceholders setDocxTemplate setDocxHtml unloaded
       setSavedTemplates setDocxBinary uploadStatus docx excel isReady docxHtml
       placeholders showSaveDialog data currentIndex].
  split.
  { subst p1. cbn [step]. unfold handle, docx_resume_read, try_catch, bind, lift, ret.
    reflexivity. }
  repeat (split; [reflexivity|]).
  assert (forall record,
             generateDocx rt None (extractPlaceholders text) record
             = Throw "No template loaded") as Hgen by reflexivity.
  destruct (at_index (data (state (world p))) (currentIndex (state (world p))))
    as [record|].
  - rewrite Hgen. cbn. split; [reflexivity|]. split; [reflexivity|].
    unfold handleDocxUpload, docx_converted, try_catch, bind, lift, ret.
    cbn [file_arrayBuffer file_name set_state]. rewrite Hhtml. cbn [set_state].
    rewrite Htext. reflexivity.
  - cbn. split; [reflexivity|]. split; [reflexivity|].
    unfold handleDocxUpload, docx_converted, try_catch, bind, lift, ret.
    cbn [file_arrayBuffer file_name set_state]. rewrite Hhtml. cbn [set_state].
    rewrite Htext. reflexivity.
Qed.

End UploadRace.


(** ** The component on the sample host *)

Module Examples.

Import SampleHost Samples.

Example arrayBufferToBase64_zip_header :
  arrayBufferToBase64 [x50; x4b; x03; x04; x14] = "UEsDBBQ="
  /\ base64ToArrayBuffer "UEsD BBQ=" = Some [x50; x4b; x03; x04; x14]
  /\ base64ToArrayBuffer "UEsDB" = None.
Proof. vm_compute. auto. Qed.

Example excelDateToJSDate_sample :
  excelDateToJSDate runtime 45000%float = "March 15, 2023"
  /\ excelDateToJSDate runtime 45000.75%float = "March 15, 2023"
  /\ excelDateToJSDate runtime 36585%float = "February 29, 2000".
Proof. vm_compute. auto. Qed.

Example processExcelData_sample :
  processExcelData runtime [ann; zero]
  = [[("Name", VStr "Ann"); ("degree", VStr "MSc");
      ("date", VStr "March 15, 2023")];
     zero].
Proof. vm_compute. reflexivity. Qed.

Example extractPlaceholders_sample :
  extractPlaceholders "Dear {name}, {{degree}} on [date] {Name} {name} {a b} {}"
  = ["name"; "degree"; "date"; "Name"].
Proof. vm_compute. reflexivity. Qed.

Example mergeCertificate_sample :
  mergeCertificate runtime "<p>{NAME}, {Degree} [DATE] {city}</p>" ann
  = Some "<p>Ann, MSc 45000 {city}</p>".
Proof. vm_compute. reflexivity. Qed.

Example templateData_sample :
  templateData runtime ["NAME"; "city"; "date"] ann
  = [("NAME", "Ann"); ("city", ""); ("date", "45000")].
Proof. vm_compute. reflexivity. Qed.


Lemma mergeCertificate_double_brace_witness :
  plain_key "name" = true
  /\ string_forallb ordinary_char "Bob" = true
  /\ mergeCertificate runtime "{name}" [("name", VStr "Bob")] = Some "Bob"
  /\ mergeCertificate runtime "[name]" [("name", VStr "Bob")] = Some "Bob"
  /\ mergeCertificate runtime "{{name}}" [("name", VStr "Bob")] = Some "{Bob}".
Proof.
  split; [reflexivity|]. split; [reflexivity|].
  apply (mergeCertificate_double_brace_keeps_braces runtime "name" "Bob"
           eq_refl eq_refl).
Defined.

(** A record whose [name] is the number 0 is downloaded as certificate_2
    (its index plus one), not under its name. *)
Lemma handleDownloadAll_falsy_name :
  obj_get zero "name" = Some (VNum 0%float)
  /\ downloads
       (run_timers runtime
          (snd (handleDownloadAll
                  (world_of
                     {| data := [[("name", VStr "Cy")]; zero];
                        docxTemplate := ""; docxHtml := "";
                        docxBinary := Some (list_byte_of_string "To {name}");
                        currentIndex := 0;
                        uploadStatus := {| docx := true; excel := true |};
                        placeholders := ["name"]; excelColumns := ["name"];
                        savedTemplates := []; selectedTemplateId := None;
                        templateName := ""; showSaveDialog := false;
                        showRangeDialog := false; rangeStart := 1;
                        rangeEnd := 2 |}))))
     = [(list_byte_of_string "To Cy", "Cy.docx");
        (list_byte_of_string "To 0", "certificate_2.docx")].
Proof. vm_compute. auto. Qed.


Example handleDownloadRange_sample :
  invalid_range loaded = false
  /\ timers (snd (handleDownloadRange (world_of loaded)))
     = map (range_timer loaded) [1%Z; 2%Z]
  /\ showRangeDialog (state (snd (handleDownloadRange (world_of loaded)))) = false.
Proof. vm_compute. auto. Qed.

Example handleDownloadAll_sample :
  downloads (run_timers runtime (snd (handleDownloadAll (world_of loaded))))
  = [(list_byte_of_string "Dear Ann, ", "Ann.docx");
     (list_byte_of_string "Dear 0, ", "certificate_2.docx");
     (list_byte_of_string "Dear Cy, ", "Cy.docx")].
Proof. vm_compute. reflexivity. Qed.

Lemma handleExcelUpload_parse_error_witness :
  read_rows runtime "" = Throw "File is empty"
  /\ handleExcelUpload runtime (Some "") (world_of loaded)
     = (Ok tt, excel_alerted (world_of loaded)).
Proof.
  split; [reflexivity|].
  apply (handleExcelUpload_parse_error runtime "" "File is empty"
           (world_of loaded) eq_refl).
Defined.

Lemma handleExcelUpload_empty_sheet_witness :
  read_rows runtime ";" = Ok []
  /\ handleExcelUpload runtime (Some ";") (world_of loaded)
     = (Ok tt, world_of loaded).
Proof.
  split; [reflexivity|].
  apply (handleExcelUpload_empty_sheet runtime ";" (world_of loaded) eq_refl).
Defined.

Import SampleBrowser Scenes.

Example extractPlaceholders_double_brace :
  extractPlaceholders "{{name}} [Date] {name} {first name}" = ["name"; "Date"].
Proof. vm_compute. reflexivity. Qed.

Lemma mergeCertificate_fills_template_witness :
  mergeCertificate runtime "Dear {NAME}, [Degree] of {city}}." ann
  = Some "Dear Ann, MSc of {city}}.".
Proof.
  refine (mergeCertificate_fills_template runtime ann
            [Plain "Dear "; Placeholder Curly "NAME"; Plain ", ";
             Placeholder Squared "Degree"; Plain " of ";
             Placeholder Curly "city"; Plain "}."] _ _ _).
  - reflexivity.
  - intros key [<-|[<-|[<-|[]]]]; reflexivity.
  - intros b p key Hin H.
    repeat (destruct Hin as [Hin|Hin];
            [try discriminate; injection Hin as <- <-; vm_compute in H;
             try discriminate; injection H as <-; reflexivity|]).
    destruct Hin.
Defined.

Lemma handleDocxUpload_success_witness :
  templateName
    (state (snd (handleDocxUpload environment (Some letter_file)
                   (world_of initial_state))))
  = "letter".
Proof.
  destruct (handleDocxUpload_success environment letter_file
              (world_of initial_state) letter
              "<p>Dear {NAME}, {city}</p>" "Dear {NAME}, {city}"
              eq_refl eq_refl eq_refl)
    as [_ [_ [_ [_ [_ [_ [_ [_ [_ [H _]]]]]]]]]].
  apply (H "letter"); [reflexivity|left; reflexivity].
Defined.

Lemma saveTemplate_refuses_witness :
  saveTemplate runtime environment 1700000000000%float "11/14/2023" (fresh_page None)
  = (Ok tt, handle (alert "Please enter a template name") (fresh_page None)).
Proof.
  apply (saveTemplate_refuses runtime environment 1700000000000%float
           "11/14/2023" (fresh_page None)).
  left. reflexivity.
Defined.

Lemma saved_template_survives_reload_witness :
  selectedTemplateId
    (state (world (snd (saveTemplate runtime environment 1700000000000%float
                          "11/14/2023" desk))))
  = Some "1700000000000".
Proof.
  destruct (saved_template_survives_reload runtime environment
              1700000000000%float "11/14/2023" desk letter
              eq_refl eq_refl eq_refl)
    as [_ [_ [H _]]].
  exact H.
Defined.

Lemma saveTemplate_storage_full_witness :
  fst (saveTemplate runtime full_storage 1700000000000%float "11/14/2023" desk)
  = Throw "QuotaExceededError".
Proof.
  exact (proj1 (saveTemplate_storage_full runtime full_storage
                  1700000000000%float "11/14/2023" desk letter
                  "QuotaExceededError" eq_refl eq_refl eq_refl)).
Defined.

Lemma deleteTemplate_confirmed_witness :
  isReady (state (world (snd (deleteTemplate environment "t1" true chosen)))) = false.
Proof.
  destruct (deleteTemplate_confirmed environment "t1" chosen eq_refl)
    as [_ [_ [_ [_ [_ [_ [H _]]]]]]].
  apply H. reflexivity.
Defined.

Lemma deleteTemplate_storage_full_witness :
  selectedTemplateId
    (state (world (snd (deleteTemplate full_storage "t1" true chosen))))
  = Some "t1"
  /\ savedTemplates
       (state (world (snd (deleteTemplate full_storage "t1" true chosen))))
     = [].
Proof.
  destruct (deleteTemplate_storage_full full_storage "t1" chosen
              "QuotaExceededError" eq_refl)
    as [_ [Hs [_ H]]].
  split; [apply H; reflexivity|]. rewrite Hs. reflexivity.
Defined.

Lemma handleExcelUpload_success_witness :
  rangeEnd (state (snd (handleExcelUpload runtime (Some "Ann;Bo")
                          (world_of initial_state))))
  = 2%Z.
Proof.
  destruct (handleExcelUpload_success runtime "Ann;Bo" (world_of initial_state)
              [("name", VStr "Ann")] [[("name", VStr "Bo")]] eq_refl)
    as [_ [_ [Hlen [_ [_ [Hend _]]]]]].
  rewrite Hend, Hlen. reflexivity.
Defined.

Lemma handleDownloadRange_downloads_witness :
  map snd (downloads (run_timers runtime
                        (snd (handleDownloadRange (world_of loaded)))))
  = ["certificate_2.docx"; "Cy.docx"].
Proof.
  destruct (handleDownloadRange_downloads runtime (world_of loaded) eq_refl eq_refl)
    as [H _].
  rewrite H. vm_compute. reflexivity.
Defined.

Lemma default_range_downloads_all_witness :
  handleDownloadRange
    (snd (handleExcelUpload runtime (Some "Ann;Bo") (world_of initial_state)))
  = (Ok tt,
     with_state (setShowRangeDialog false)
       (snd (handleDownloadAll
               (snd (handleExcelUpload runtime (Some "Ann;Bo")
                       (world_of initial_state)))))).
Proof.
  destruct (default_range_downloads_all runtime (world_of initial_state) eq_refl)
    as [_ H].
  exact (H "Ann;Bo" [("name", VStr "Ann")] [[("name", VStr "Bo")]] eq_refl).
Defined.

Lemma session_reachable : reachable runtime environment session.
Proof.
  unfold session. repeat apply reachable_step.
  apply (reachable_mount runtime environment None). reflexivity.
Defined.

Lemma preview_index_in_bounds_witness :
  preview_in_bounds (state (world session)).
Proof.
  exact (proj1 (preview_index_in_bounds runtime environment session
                  session_reachable)).
Defined.


Lemma selected_template_is_saved_witness :
  selection_saved (state (world session)).
Proof.
  apply (selected_template_is_saved runtime environment session).
  - intros v. reflexivity.
  - exact session_reachable.
Defined.

Lemma storage_mirrors_saved_templates_witness :
  reloaded session = Some (savedTemplates (state (world session))).
Proof.
  refine (proj1 (storage_mirrors_saved_templates runtime environment session
                   _ session_reachable)).
  intros v. reflexivity.
Defined.

Lemma upload_races_with_delete_witness :
  docxBinary
    (state (world (step runtime environment
                     (step runtime environment
                        (step runtime environment chosen (DocxRead (Ok letter)))
                        (DeleteTemplate "t1" true))
                     (DocxConverted "letter.docx" letter))))
  = None.
Proof.
  destruct (upload_races_with_delete runtime environment chosen "t1"
              "letter.docx" letter "<p>Dear {NAME}, {city}</p>"
              "Dear {NAME}, {city}" eq_refl eq_refl eq_refl eq_refl)
    as [_ [H _]].
  exact H.
Defined.

End Examples.
